(** * Strava activity extractor: fetch, normalise, export

    A shallow embedding of the three methods of class [StravaExtractor]
    ([get_activities], [extract_activity_data], [export_to_csv]) as they are
    written in [strava_extractor.py] (the command-line tool) and in
    [cutie-extractor.py] / [strava_gui.py] (the two GUI front ends, whose
    three methods are textually the same), and the properties the
    specification states about them.

    Python values are an inductive type, a JSON object is a finite map from
    strings to values, a raised exception is the [Raise] branch of a small
    error monad, the network is a function from request parameters to
    replies, [print] appends to a log, and the file system is a finite map
    from paths to contents.  The [while True] loop of [get_activities] takes
    fuel: it has no bound of its own. *)

From Stdlib Require Import ZArith String Ascii List Bool Lia DecimalString.
From Stdlib Require Import Floats.SpecFloat.
From stdpp Require Import base option list gmap strings.

Local Open Scope string_scope.
Local Open Scope list_scope.
Local Open Scope stdpp_scope.
Local Open Scope Z_scope.

(** ** Python values and exceptions *)

(** The scalar values JSON decoding yields.  A Python [float] is an IEEE-754
    binary64 number, here a [spec_float] of the Standard Library (sign,
    mantissa and exponent; the operations round to 53 bits whatever the
    mantissa given). *)
Inductive pyval : Type :=
| PyNone
| PyBool (b : bool)
| PyInt (z : Z)
| PyFloat (f : spec_float)
| PyStr (s : string).

(** One activity as the API returns it: a JSON object. *)
Abbreviation activity := (gmap string pyval).

(** The subclasses of [requests.exceptions.RequestException] that a page
    request can raise: from [requests.get] itself (no connection, time-out),
    from [raise_for_status] and from [response.json()]. *)
Inductive request_exception : Type :=
| ConnectionError
| Timeout
| HTTPError (status : Z)
| JSONDecodeError.

Inductive exn : Type :=
| RequestException (e : request_exception)
| TypeError
| OverflowError
| ValueError
| RecursionError
| IOError.

(** A computation that returns or raises. *)
Inductive exc (A : Type) : Type :=
| Ret (a : A)
| Raise (e : exn).
Arguments Ret {A} a.
Arguments Raise {A} e.

#[global] Instance exc_ret : MRet exc := fun _ a => Ret a.
#[global] Instance exc_bind : MBind exc := fun _ _ k m =>
  match m with
  | Ret a => k a
  | Raise e => Raise e
  end.

(** [bool(v)]: Python truthiness. A float is falsy when it compares equal to
    zero (either sign); NaN is truthy. *)
Definition truthy (v : pyval) : bool :=
  match v with
  | PyNone => false
  | PyBool b => b
  | PyInt z => negb (z =? 0)
  | PyFloat (S754_zero _) => false
  | PyFloat _ => true
  | PyStr s => negb (String.eqb s "")
  end.

(** [l[:m]] for an integer [m]: a negative bound counts from the end. *)
Definition slice_to {A} (l : list A) (m : Z) : list A :=
  if m <? 0 then take (Z.to_nat (Z.of_nat (length l) + m)) l
  else take (Z.to_nat m) l.

(** ** Python arithmetic *)

(** binary64 *)
Definition prec : Z := 53.
Definition emax : Z := 1024.

(** The number [(-1)^s * m], [0 < m], as an exact operand of a correctly
    rounded operation. *)
Definition exact_int (z : Z) : spec_float :=
  match z with
  | Z0 => S754_zero false
  | Zpos m => S754_finite false m 0
  | Zneg m => S754_finite true m 0
  end.

(** The least magnitude that rounds out of the range of a [float]: half
    an ulp above the largest one. *)
Definition float_overflow : Z := 2 ^ 1024 - 2 ^ 970.

(** [float(z)] for an [int]: the nearest binary64 number, ties to even;
    [OverflowError] when that is out of range. *)
Definition float_of_int (z : Z) : exc spec_float :=
  if Z.abs z <? float_overflow
  then Ret (binary_normalize prec emax z 0 false)
  else Raise OverflowError.

(** [a / b] for two [int]s, [b] a positive literal: the exact quotient,
    rounded once; [OverflowError] when it is out of range. *)
Definition int_truediv (a b : Z) : exc spec_float :=
  if Z.abs a <? b * float_overflow
  then Ret (SFdiv prec emax (exact_int a) (exact_int b))
  else Raise OverflowError.

(** The literal [3.6]. *)
Definition float_3_6 : spec_float := S754_finite false 8106479329266893 (-51).

(** [round(x * scale)] to the nearest integer, ties to even, for the
    positive number [x = m * 2^e]: the decimal digits [round] keeps. *)
Definition scaled_half_even (m : positive) (e : Z) (scale : Z) : Z :=
  match e with
  | Zneg k =>
      let den := Z.pow_pos 2 k in
      let q := (Zpos m * scale) / den in
      let r := (Zpos m * scale) mod den in
      match 2 * r ?= den with
      | Lt => q
      | Eq => if Z.even q then q else q + 1
      | Gt => q + 1
      end
  | _ => Zpos m * 2 ^ e * scale
  end.

(** [round(x, ndigits)] for a [float] and [ndigits >= 0]: the float nearest
    to the decimal number with [ndigits] places nearest to [x] (ties to even
    on the exact value of [x]); NaN, infinities and zeros are returned as
    they are, and a result that rounds to zero keeps the sign. *)
Definition float_round (f : spec_float) (ndigits : nat) : spec_float :=
  match f with
  | S754_finite s m e =>
      let scale := 10 ^ Z.of_nat ndigits in
      match scaled_half_even m e scale with
      | Zpos n => SFdiv prec emax (S754_finite s n 0) (exact_int scale)
      | _ => S754_zero s
      end
  | _ => f
  end.

Definition int_of_bool (b : bool) : Z := if b then 1 else 0.

(** [v / d] for a positive [int] literal [d]. *)
Definition py_truediv (v : pyval) (d : Z) : exc pyval :=
  match v with
  | PyInt z => f ← int_truediv z d; mret (PyFloat f)
  | PyBool b => f ← int_truediv (int_of_bool b) d; mret (PyFloat f)
  | PyFloat f => fd ← float_of_int d; mret (PyFloat (SFdiv prec emax f fd))
  | PyNone | PyStr _ => Raise TypeError
  end.

(** [v * c] for a [float] literal [c]. *)
Definition py_mul_float (v : pyval) (c : spec_float) : exc pyval :=
  match v with
  | PyInt z => f ← float_of_int z; mret (PyFloat (SFmul prec emax f c))
  | PyBool b => f ← float_of_int (int_of_bool b); mret (PyFloat (SFmul prec emax f c))
  | PyFloat f => mret (PyFloat (SFmul prec emax f c))
  | PyNone | PyStr _ => Raise TypeError
  end.

(** [round(v, ndigits)]: an [int] (or [bool]) comes back as an [int]. *)
Definition py_round (v : pyval) (ndigits : nat) : exc pyval :=
  match v with
  | PyFloat f => mret (PyFloat (float_round f ndigits))
  | PyInt z => mret (PyInt z)
  | PyBool b => mret (PyInt (int_of_bool b))
  | PyNone | PyStr _ => Raise TypeError
  end.

(** [v[:n]]: of the scalars only a [str] can be sliced. *)
Definition py_prefix (v : pyval) (n : nat) : exc pyval :=
  match v with
  | PyStr s => mret (PyStr (String.substring 0 n s))
  | _ => Raise TypeError
  end.

(** ** [str] of a value, as [csv.writer] applies it *)

Definition string_of_nonneg (n : Z) : string :=
  NilZero.string_of_uint (N.to_uint (Z.to_N n)).

Definition string_of_Z (z : Z) : string :=
  if z <? 0 then "-" ++ string_of_nonneg (- z) else string_of_nonneg z.

Fixpoint zeros (n : nat) : string :=
  match n with
  | O => ""
  | S n => String "0" (zeros n)
  end.

(** [num / den < 10^p] *)
Definition below_pow10 (num den p : Z) : bool :=
  if 0 <=? p then num <? 10 ^ p * den else num * 10 ^ (- p) <? den.

Fixpoint decpt_up (fuel : nat) (num den p : Z) : Z :=
  match fuel with
  | O => p
  | S fuel => if below_pow10 num den p then p else decpt_up fuel num den (p + 1)
  end.

Fixpoint decpt_down (fuel : nat) (num den p : Z) : Z :=
  match fuel with
  | O => p
  | S fuel =>
      if below_pow10 num den (p - 1) then decpt_down fuel num den (p - 1) else p
  end.

(** The decimal exponent [p] of [num / den]: [10^(p-1) <= num/den < 10^p],
    found from the estimate [bits * log10 2]. *)
Definition decimal_point (num den : Z) : Z :=
  let bits := Z.log2 num - Z.log2 den in
  let guess := bits * 30103 / 100000 in
  decpt_down 4 num den (decpt_up 4 num den guess).

(** The binary64 number nearest to [n * 10^x]. *)
Definition float_of_decimal (n x : Z) : spec_float :=
  if 0 <=? x then binary_normalize prec emax (n * 10 ^ x) 0 false
  else SFdiv prec emax (exact_int n) (exact_int (10 ^ (- x))).

Definition same_float (a b : spec_float) : bool :=
  match a, b with
  | S754_finite s m e, S754_finite t n f => Bool.eqb s t && Pos.eqb m n && Z.eqb e f
  | _, _ => false
  end.

(** The [k]-digit decimal that reads back as [f = num / den], if one of the
    two [k]-digit neighbours of [f] does; the nearer one if both do. *)
Definition digits_at (f : spec_float) (num den p k : Z) : option Z :=
  let s := k - p in
  let N := if 0 <=? s then num * 10 ^ s else num in
  let D := if 0 <=? s then den else den * 10 ^ (- s) in
  let lo := N / D in
  let r := N mod D in
  let reads n := same_float (float_of_decimal n (p - k)) f in
  match reads lo, reads (lo + 1) with
  | true, true =>
      match 2 * r ?= D with
      | Lt => Some lo
      | Gt => Some (lo + 1)
      | Eq => Some (if Z.even lo then lo else lo + 1)
      end
  | true, false => Some lo
  | false, true => Some (lo + 1)
  | false, false => None
  end.

Fixpoint shortest_from (fuel : nat) (f : spec_float) (num den p k : Z)
  : Z * Z :=
  match fuel with
  | O => (num * 10 ^ (k - p) / den, k)
  | S fuel =>
      match digits_at f num den p k with
      | Some n => (n, k)
      | None => shortest_from fuel f num den p (k + 1)
      end
  end.

(** The shortest digit string that reads back as the positive float
    [m * 2^e], with its decimal exponent: the value printed is
    [0.d1...dk * 10^decpt]. *)
Definition shortest_digits (m : positive) (e : Z) : string * Z :=
  let f := binary_normalize prec emax (Zpos m) e false in
  let num := if 0 <=? e then Zpos m * 2 ^ e else Zpos m in
  let den := if 0 <=? e then 1 else 2 ^ (- e) in
  let p := decimal_point num den in
  let '(n, k) := shortest_from 17 f num den p 1 in
  if n =? 10 ^ k then ("1", p + 1) else (string_of_nonneg n, p).

(** [repr] lays the digits out with a decimal point, or in exponent
    notation when the decimal exponent is above 16 or below -3. *)
Definition layout (digits : string) (decpt : Z) : string :=
  let k := Z.of_nat (String.length digits) in
  if (decpt <=? -4) || (16 <? decpt) then
    let x := decpt - 1 in
    let mantissa :=
      match digits with
      | String d "" => String d ""
      | String d rest => String d ("." ++ rest)
      | "" => ""
      end in
    mantissa ++ "e" ++ (if x <? 0 then "-" else "+") ++
    (if Z.abs x <? 10 then "0" else "") ++ string_of_nonneg (Z.abs x)
  else if decpt <=? 0 then
    "0." ++ zeros (Z.to_nat (- decpt)) ++ digits
  else if k <=? decpt then
    digits ++ zeros (Z.to_nat (decpt - k)) ++ ".0"
  else
    String.substring 0 (Z.to_nat decpt) digits ++ "." ++
    String.substring (Z.to_nat decpt) (Z.to_nat (k - decpt)) digits.

(** [repr(f)] *)
Definition float_repr (f : spec_float) : string :=
  match f with
  | S754_nan => "nan"
  | S754_infinity s => if s then "-inf" else "inf"
  | S754_zero s => if s then "-0.0" else "0.0"
  | S754_finite s m e =>
      let '(digits, decpt) := shortest_digits m e in
      (if s then "-" else "") ++ layout digits decpt
  end.

(** ** The upstream endpoint *)

(** The query parameters of one [GET /athlete/activities]. *)
Record request : Type := mkRequest {
  after : Z;
  before : Z;
  page : Z;
  per_page : Z
}.

(** What [response.json()] returns, as far as [get_activities] tells the
    values apart: an array of objects, which is what the endpoint promises;
    a value that is falsy and not the empty array ([null], [false], [0],
    [0.0], the empty string, the empty object); or a value that is truthy
    and cannot be iterated over ([true], a number other than zero). A value
    with items that are not objects (a string or an object that is not
    empty, whose characters or keys [extend] would append, or an array with
    such an element) is not among them: the records are objects
    throughout. *)
Inductive json : Type :=
| JsonArray (records : list activity)
| JsonFalsy
| JsonNumber.

(** The body of a response: text that [response.json()] decodes, or text
    on which it raises: [requests.exceptions.JSONDecodeError] on text that
    is not JSON (a [RequestException] since requests 2.27), the
    [ValueError] of [int] on an integer of more than 4300 digits, the
    [RecursionError] of the decoder on arrays nested too deep. *)
Inductive payload : Type :=
| Json (v : json)
| NotJson
| HugeInteger
| TooDeep.

(** What [requests.get] hands back: a status code and a body. *)
Record response : Type := mkResponse {
  status_code : Z;
  body : payload
}.

(** [requests.get] raises a [RequestException] or returns a response. *)
Inductive reply : Type :=
| Fails (e : request_exception)
| Answers (r : response).

Definition requests_get (upstream : request -> reply) (params : request)
  : exc response :=
  match upstream params with
  | Fails e => Raise (RequestException e)
  | Answers r => Ret r
  end.

(** [response.raise_for_status()]: [HTTPError] on 4xx and 5xx. *)
Definition raise_for_status (r : response) : exc unit :=
  if (400 <=? status_code r) && (status_code r <? 600)
  then Raise (RequestException (HTTPError (status_code r)))
  else Ret tt.

(** [response.json()] *)
Definition response_json (r : response) : exc json :=
  match body r with
  | Json page_activities => Ret page_activities
  | NotJson => Raise (RequestException JSONDecodeError)
  | HugeInteger => Raise ValueError
  | TooDeep => Raise RecursionError
  end.

(** [max_activities and len(activities) >= max_activities]: [None] and [0]
    are falsy, every other integer (also a negative one) is truthy. *)
Definition limit_reached (max_activities : option Z) (activities : list activity)
  : bool :=
  match max_activities with
  | None => false
  | Some m => negb (m =? 0) && (m <=? Z.of_nat (length activities))
  end.

(** How one pass through the body of [while True: try: ...] ends. *)
Inductive control (R : Type) : Type :=
| Return (v : R)                                   (* return v *)
| Break (activities : list activity)               (* break *)
| Next (activities : list activity).                (* page += 1 *)
Arguments Return {R} v.
Arguments Break {R} activities.
Arguments Next {R} activities.

(** The lines [get_activities] of [strava_extractor.py] prints. *)
Inductive message : Type :=
| MsgFetching                              (* "Fetching Strava activities..." *)
| MsgDateRange                             (* "Date Range: ... to ..." *)
| MsgPerPage (per_page : Z)                (* "Per Page: ..." *)
| MsgAuthFailed                            (* "Authentication failed. ..." *)
| MsgRateLimit                             (* "Rate limit exceeded. ..." *)
| MsgPage (page : Z) (count total : nat)   (* "Page p: c activities (Total: t)" *)
| MsgRequestFailed (e : request_exception) (* "API request failed: e" *)
| MsgTotal (total : nat).                  (* "Total activities fetched: t" *)

(** What a call leaves behind: the value returned (or the exception that
    escaped), the requests issued, in order, and the lines printed. *)
Record outcome (R : Type) : Type := mkOutcome {
  returned : exc R;
  requests : list request;
  printed : list message
}.
Arguments mkOutcome {R} returned requests printed.
Arguments returned {R} o.
Arguments requests {R} o.
Arguments printed {R} o.


(** ** The [csv] module, dialect [excel] *)

Definition comma : ascii := ",".
Definition dquote : ascii := "034".
Definition CR : ascii := "013".
Definition LF : ascii := "010".
Definition CRLF : string := String CR (String LF "").

(** The characters that make [csv.writer] quote a field ([QUOTE_MINIMAL]):
    the delimiter, the quote character and those of the line terminator. *)
Definition special (c : ascii) : bool :=
  Ascii.eqb c comma || Ascii.eqb c dquote || Ascii.eqb c CR || Ascii.eqb c LF.

Fixpoint has_special (s : string) : bool :=
  match s with
  | "" => false
  | String c s => special c || has_special s
  end.

(** [doublequote=True]: a quote character inside a field is written twice. *)
Fixpoint double_quotes (s : string) : string :=
  match s with
  | "" => ""
  | String c s =>
      if Ascii.eqb c dquote then String dquote (String dquote (double_quotes s))
      else String c (double_quotes s)
  end.

Definition csv_field (s : string) : string :=
  if has_special s then String dquote (double_quotes s ++ String dquote "")
  else s.

Fixpoint csv_join (cells : list string) : string :=
  match cells with
  | [] => ""
  | [cell] => csv_field cell
  | cell :: cells => csv_field cell ++ String comma (csv_join cells)
  end.

(** [writer.writerow(cells)] for cells that are strings already. A row
    that is one empty cell is written as a pair of quotes. *)
Definition csv_writerow (cells : list string) : string :=
  match cells with
  | [""] => String dquote (String dquote CRLF)
  | _ => csv_join cells ++ CRLF
  end.

(** The states of [csv.reader]. *)
Inductive reader_state : Type :=
| StartRecord
| StartField
| InField
| InQuotedField
| QuoteInQuotedField
| EatCRNL.

Inductive reader_action : Type :=
| Skip
| AddChar
| SaveField
| SaveRecord
| EmptyRecord.

Definition field_step (c : ascii) : reader_state * reader_action :=
  if Ascii.eqb c CR then (EatCRNL, SaveRecord)
  else if Ascii.eqb c LF then (StartRecord, SaveRecord)
  else if Ascii.eqb c comma then (StartField, SaveField)
  else (InField, AddChar).

Definition record_step (c : ascii) : reader_state * reader_action :=
  if Ascii.eqb c CR then (EatCRNL, EmptyRecord)
  else if Ascii.eqb c LF then (StartRecord, EmptyRecord)
  else if Ascii.eqb c dquote then (InQuotedField, Skip)
  else field_step c.

Definition reader_step (st : reader_state) (c : ascii)
  : reader_state * reader_action :=
  match st with
  | StartRecord => record_step c
  | EatCRNL => if Ascii.eqb c LF then (StartRecord, Skip) else record_step c
  | StartField =>
      if Ascii.eqb c dquote then (InQuotedField, Skip) else field_step c
  | InField => field_step c
  | InQuotedField =>
      if Ascii.eqb c dquote then (QuoteInQuotedField, Skip)
      else (InQuotedField, AddChar)
  | QuoteInQuotedField =>
      if Ascii.eqb c dquote then (InQuotedField, AddChar) else field_step c
  end.

(** The reader, run over a whole text: [field] is the cell being read and
    [fields] the cells of the record read so far. *)
Fixpoint csv_read (st : reader_state) (field : string) (fields : list string)
    (input : string) : list (list string) :=
  match input with
  | "" =>
      match st with
      | StartRecord | EatCRNL => []
      | _ => [fields ++ [field]]
      end
  | String c rest =>
      let '(st', act) := reader_step st c in
      match act with
      | Skip => csv_read st' field fields rest
      | AddChar => csv_read st' (field ++ String c "") fields rest
      | SaveField => csv_read st' "" (fields ++ [field]) rest
      | SaveRecord => (fields ++ [field]) :: csv_read st' "" [] rest
      | EmptyRecord => [] :: csv_read st' "" [] rest
      end
  end.

(** [list(csv.reader(text))] *)
Definition csv_reader (text : string) : list (list string) :=
  csv_read StartRecord "" [] text.

(** [str(v)] as [csv.writer] writes a cell: nothing for [None], a string
    as it is, [repr] for a float. *)
Definition py_str (v : pyval) : string :=
  match v with
  | PyNone => ""
  | PyBool b => if b then "True" else "False"
  | PyInt z => string_of_Z z
  | PyFloat f => float_repr f
  | PyStr s => s
  end.

(** A [dict] built by a literal: its items in insertion order. *)
Abbreviation row := (list (string * pyval)).

Fixpoint row_get (r : row) (key : string) : option pyval :=
  match r with
  | [] => None
  | (k, v) :: r => if String.eqb k key then Some v else row_get r key
  end.

(** [list(d.keys())] *)
Definition keys (r : row) : list string := map fst r.

(** [DictWriter._dict_to_list]: [ValueError] on a key that is not a field
    name ([extrasaction='raise']), and the values in the order of the field
    names, [restval=''] where the row has none. *)
Definition dict_to_list (fieldnames : list string) (rowdict : row)
  : exc (list pyval) :=
  if forallb (fun k => existsb (String.eqb k) fieldnames) (keys rowdict)
  then Ret (map (fun k => default (PyStr "") (row_get rowdict k)) fieldnames)
  else Raise ValueError.

(** ** Files *)

(** The files by path, the paths the system refuses to open for writing
    (no permission, no such directory), and the size above which a write
    fails (disk full). Text is a sequence of 8-bit characters. *)
Record filesystem : Type := mkFilesystem {
  files : gmap string string;
  refused : string -> bool;
  quota : option nat
}.

(** The file system with [content] at [path]. *)
Definition with_file (fs : filesystem) (path content : string) : filesystem :=
  mkFilesystem (<[path := content]> (files fs)) (refused fs) (quota fs).

(** A NUL character in a name, which no system call takes. *)
Fixpoint has_nul (s : string) : bool :=
  match s with
  | "" => false
  | String c s => Ascii.eqb c "000" || has_nul s
  end.

(** [open(path, "w")] fails: on a name with a NUL character before the
    system is asked, and on a path the system refuses. *)
Definition unwritable (fs : filesystem) (path : string) : bool :=
  has_nul path || refused fs path.

(** [text] is no longer than the quota allows. *)
Definition fits (fs : filesystem) (text : string) : bool :=
  match quota fs with
  | Some q => (String.length text <=? q)%nat
  | None => true
  end.

(** A computation on the file system that returns or raises. *)
Definition io (A : Type) : Type := filesystem -> exc A * filesystem.

Definition io_ret {A} (a : A) : io A := fun fs => (Ret a, fs).

Definition io_bind {A B} (m : io A) (k : A -> io B) : io B := fun fs =>
  match m fs with
  | (Ret a, fs) => k a fs
  | (Raise e, fs) => (Raise e, fs)
  end.

(** A computation without effects on the files. *)
Definition io_lift {A} (m : exc A) : io A := fun fs => (m, fs).

(** [try: m except IOError: return v] *)
Definition except_IOError {A} (m : io A) (v : A) : io A := fun fs =>
  match m fs with
  | (Raise IOError, fs) => (Ret v, fs)
  | r => r
  end.

(** [open(path, "w", newline="")]: creates or truncates; [ValueError]
    (embedded null byte) on a name with a NUL character, [IOError] when the
    system refuses. *)
Definition open_w (path : string) : io unit := fun fs =>
  if has_nul path then (Raise ValueError, fs)
  else if refused fs path then (Raise IOError, fs)
  else (Ret tt, with_file fs path "").

(** [csvfile.write(text)] on the file opened at [path]. *)
Definition write (path : string) (text : string) : io unit := fun fs =>
  let content := (default "" (files fs !! path) ++ text)%string in
  if fits fs content then (Ret tt, with_file fs path content)
  else (Raise IOError, fs).

(** [for x in xs: body(x)] *)
Fixpoint for_each {A} (xs : list A) (body : A -> io unit) : io unit :=
  match xs with
  | [] => io_ret tt
  | x :: xs => io_bind (body x) (fun _ => for_each xs body)
  end.

(** ** [export_to_csv]

    The method is the same in the three files but for what it prints (not
    modelled) and for the [extract_activity_data] it calls. *)
Section export_to_csv.
Variable extract_activity_data : activity -> exc row.

(** [writer.writerow(extracted)] of the [DictWriter] *)
Definition writerow (filename : string) (fieldnames : list string)
    (extracted : row) : io unit :=
  io_bind (io_lift (dict_to_list fieldnames extracted)) (fun cells =>
  write filename (csv_writerow (map py_str cells))).

Definition export_to_csv_with (activities : list activity) (filename : string)
  : io bool :=
  match activities with
  | [] => io_ret false
  | first :: _ =>
    except_IOError
      (io_bind (io_lift (extract_activity_data first)) (fun first_row =>
       let fieldnames := keys first_row in
       io_bind (open_w filename) (fun _ =>
       (* writer.writeheader() *)
       io_bind (write filename (csv_writerow fieldnames)) (fun _ =>
       io_bind (for_each activities (fun activity =>
                  io_bind (io_lift (extract_activity_data activity))
                          (writerow filename fieldnames))) (fun _ =>
       io_ret true)))))
      false
  end.
End export_to_csv.

(** [activity.get(key, default)] and [activity.get(key)] *)
Definition get (a : activity) (key : string) (dflt : pyval) : pyval :=
  default dflt (a !! key).
Definition get_ (a : activity) (key : string) : pyval := get a key PyNone.

(** ** [strava_extractor.py] *)

Module strava_extractor.

Section get_activities.
Variable upstream : request -> reply.
Variables (after before per_page : Z) (max_activities : option Z).

(** The body of [try:] for one page. The second component is what it
    prints. *)
Definition try_page (activities : list activity) (page : Z)
  : exc (control (list activity) * list message) :=
  response ← requests_get upstream (mkRequest after before page per_page);
  if status_code response =? 401 then
    mret (Return [], [MsgAuthFailed])
  else if status_code response =? 429 then
    mret (Return activities, [MsgRateLimit])
  else
    _ ← raise_for_status response;
    page_activities ← response_json response;
    match page_activities with
    | JsonArray [] | JsonFalsy =>
        (* if not page_activities: break *)
        mret (Break activities, [])
    | JsonNumber =>
        (* activities.extend(page_activities) *)
        Raise TypeError
    | JsonArray page_activities =>
      let activities := activities ++ page_activities in
      if limit_reached max_activities activities then
        mret (Break (slice_to activities (default 0 max_activities)), [])
      else
        mret (Next activities,
              [MsgPage page (length page_activities) (length activities)])
    end.

(** After the loop: print the total and return. *)
Definition finish (activities : list activity) (trace : list request)
    (log : list message) : outcome (list activity) :=
  mkOutcome (Ret activities) trace (log ++ [MsgTotal (length activities)]).

(** [while True:] with its [except RequestException] clause, which
    catches that class only. [None] when the fuel runs out. *)
Fixpoint loop (fuel : nat) (activities : list activity) (page : Z)
    (trace : list request) (log : list message)
  : option (outcome (list activity)) :=
  match fuel with
  | O => None
  | S fuel =>
    let trace := trace ++ [mkRequest after before page per_page] in
    match try_page activities page with
    | Raise (RequestException e) =>
        Some (finish activities trace (log ++ [MsgRequestFailed e]))
    | Raise e => Some (mkOutcome (Raise e) trace log)
    | Ret (Return v, msgs) => Some (mkOutcome (Ret v) trace (log ++ msgs))
    | Ret (Break activities, msgs) => Some (finish activities trace (log ++ msgs))
    | Ret (Next activities, msgs) =>
        loop fuel activities (page + 1) trace (log ++ msgs)
    end
  end.
End get_activities.

(** [get_activities(start_date, end_date, per_page, max_activities)]; the
    two dates come in as the Unix timestamps [after] and [before] the
    method turns them into. *)
Definition get_activities (fuel : nat) (upstream : request -> reply)
    (after before per_page : Z) (max_activities : option Z)
  : option (outcome (list activity)) :=
  let per_page := Z.min per_page 200 in
  loop upstream after before per_page max_activities fuel [] 1 []
       [MsgFetching; MsgDateRange; MsgPerPage per_page].

(** [round(activity.get(key, 0) / d, 2)] *)
Definition scaled (a : activity) (key : string) (d : Z) : exc pyval :=
  q ← py_truediv (get a key (PyInt 0)) d;
  py_round q 2.

(** [extract_activity_data]: the extended field set. The values that can
    raise are evaluated in the order of the dictionary literal. *)
Definition extract_activity_data (a : activity) : exc row :=
  date ← py_prefix (get a "start_date" (PyStr "")) 10;
  distance_km ← scaled a "distance" 1000;
  moving_time_min ← scaled a "moving_time" 60;
  mret [ ("id", get_ a "id");
         ("name", get_ a "name");
         ("type", get_ a "type");
         ("date", date);
         ("start_time", get a "start_date" (PyStr ""));
         ("distance_m", get_ a "distance");
         ("distance_km", distance_km);
         ("moving_time_s", get_ a "moving_time");
         ("moving_time_min", moving_time_min);
         ("elapsed_time_s", get_ a "elapsed_time");
         ("elevation_gain_m", get_ a "total_elevation_gain");
         ("average_speed_ms", get_ a "average_speed");
         ("max_speed_ms", get_ a "max_speed");
         ("average_hr", get_ a "average_heartrate");
         ("max_hr", get_ a "max_heartrate");
         ("calories", get_ a "calories");
         ("location", get a "location_city" (PyStr ""));
         ("kudos", get_ a "kudos_count");
         ("commute", get_ a "commute");
         ("trainer", get_ a "trainer");
         ("manual", get_ a "manual") ].

Definition export_to_csv : list activity -> string -> io bool :=
  export_to_csv_with extract_activity_data.

End strava_extractor.

(** ** [cutie-extractor.py] and [strava_gui.py] *)

Module cutie_extractor.

Section get_activities.
Variable upstream : request -> reply.
Variables (after before per_page : Z) (max_activities : option Z).

(** The body of [try:] for one page; [None] is Python's [None]. *)
Definition try_page (activities : list activity) (page : Z)
  : exc (control (option (list activity))) :=
  response ← requests_get upstream (mkRequest after before page per_page);
  if status_code response =? 401 then
    mret (Return None)
  else if status_code response =? 429 then
    mret (Return (Some activities))
  else
    _ ← raise_for_status response;
    page_activities ← response_json response;
    match page_activities with
    | JsonArray [] | JsonFalsy =>
        (* if not page_activities: break *)
        mret (Break activities)
    | JsonNumber =>
        (* activities.extend(page_activities) *)
        Raise TypeError
    | JsonArray page_activities =>
      let activities := activities ++ page_activities in
      if limit_reached max_activities activities then
        mret (Break (slice_to activities (default 0 max_activities)))
      else
        mret (Next activities)
    end.

Fixpoint loop (fuel : nat) (activities : list activity) (page : Z)
    (trace : list request) : option (outcome (option (list activity))) :=
  match fuel with
  | O => None
  | S fuel =>
    let trace := trace ++ [mkRequest after before page per_page] in
    match try_page activities page with
    | Raise (RequestException e) => Some (mkOutcome (Ret (Some activities)) trace [])
    | Raise e => Some (mkOutcome (Raise e) trace [])
    | Ret (Return v) => Some (mkOutcome (Ret v) trace [])
    | Ret (Break activities) => Some (mkOutcome (Ret (Some activities)) trace [])
    | Ret (Next activities) => loop fuel activities (page + 1) trace
    end
  end.
End get_activities.

Definition get_activities (fuel : nat) (upstream : request -> reply)
    (after before per_page : Z) (max_activities : option Z)
  : option (outcome (option (list activity))) :=
  loop upstream after before (Z.min per_page 200) max_activities fuel [] 1 [].

(** [if speed: speed = round(speed * 3.6, 2)] *)
Definition kmh (speed : pyval) : exc pyval :=
  if truthy speed then
    p ← py_mul_float speed float_3_6;
    py_round p 2
  else mret speed.

(** [round(activity.get(key, 0) / d, 2)] *)
Definition scaled (a : activity) (key : string) (d : Z) : exc pyval :=
  q ← py_truediv (get a key (PyInt 0)) d;
  py_round q 2.

(** [extract_activity_data]: the compact field set. *)
Definition extract_activity_data (a : activity) : exc row :=
  let avg_speed_kmh := get a "average_speed" (PyInt 0) in
  let max_speed_kmh := get a "max_speed" (PyInt 0) in
  avg_speed_kmh ← kmh avg_speed_kmh;
  max_speed_kmh ← kmh max_speed_kmh;
  distance ← scaled a "distance" 1000;
  moving_time ← scaled a "moving_time" 60;
  mret [ ("id", get_ a "id");
         ("name", get_ a "name");
         ("distance", distance);
         ("moving_time", moving_time);
         ("elapsed_time", get_ a "elapsed_time");
         ("total_elevation_gain", get_ a "total_elevation_gain");
         ("start_date", get a "start_date" (PyStr ""));
         ("average_speed", avg_speed_kmh);
         ("max_speed", max_speed_kmh);
         ("average_temp", get_ a "average_temp");
         ("elev_high", get_ a "elev_high");
         ("elev_low", get_ a "elev_low");
         ("calories", get_ a "calories");
         ("pr_count", get_ a "pr_count") ].

Definition export_to_csv : list activity -> string -> io bool :=
  export_to_csv_with extract_activity_data.

End cutie_extractor.


(** ** Vocabulary for the statements about [get_activities] *)

Section runs.
Variable upstream : request -> reply.
Variables (after before per_page : Z) (max_activities : option Z).

(** The request for page [p]. *)
Definition page_request (p : Z) : request := mkRequest after before p per_page.

(** The records of page [p], when the reply is one the loop takes records
    from: it arrived, its status is none of 401, 429, 4xx, 5xx, and its
    body is an array, or a falsy value, which holds none. *)
Definition page_of (p : Z) : option (list activity) :=
  match upstream (page_request p) with
  | Answers r =>
      if (status_code r =? 401) || (status_code r =? 429)
         || ((400 <=? status_code r) && (status_code r <? 600))
      then None
      else match body r with
           | Json (JsonArray records) => Some records
           | Json JsonFalsy => Some []
           | _ => None
           end
  | Fails _ => None
  end.

(** The [RequestException] page [p] raises inside [try:], if it does. *)
Definition page_error (p : Z) : option request_exception :=
  match upstream (page_request p) with
  | Fails e => Some e
  | Answers r =>
      if (status_code r =? 401) || (status_code r =? 429) then None
      else if (400 <=? status_code r) && (status_code r <? 600)
           then Some (HTTPError (status_code r))
      else match body r with
           | NotJson => Some JSONDecodeError
           | _ => None
           end
  end.

(** The exception that is not a [RequestException] page [p] raises inside
    [try:], if it does: the body is not one [response.json()] and [extend]
    take. *)
Definition page_crash (p : Z) : option exn :=
  match upstream (page_request p) with
  | Fails _ => None
  | Answers r =>
      if (status_code r =? 401) || (status_code r =? 429)
         || ((400 <=? status_code r) && (status_code r <? 600))
      then None
      else match body r with
           | Json JsonNumber => Some TypeError
           | HugeInteger => Some ValueError
           | TooDeep => Some RecursionError
           | _ => None
           end
  end.

(** The records held after pages [1..n], when each of them lets the loop
    go on: a decoded page that is not empty and does not reach the cap. *)
Fixpoint accumulated (n : nat) : option (list activity) :=
  match n with
  | O => Some []
  | S m =>
      match accumulated m, page_of (Z.of_nat n) with
      | Some acc, Some (x :: page_activities) =>
          if limit_reached max_activities (acc ++ x :: page_activities)
          then None
          else Some (acc ++ x :: page_activities)
      | _, _ => None
      end
  end.

(** The requests for pages [1..n]. *)
Definition page_requests (n : nat) : list request :=
  map (fun i => page_request (Z.of_nat i)) (seq 1 n).

(** The progress lines [strava_extractor.py] prints for pages [1..n]. *)
Fixpoint page_lines (n : nat) : list message :=
  match n with
  | O => []
  | S m =>
      page_lines m ++
      [MsgPage (Z.of_nat n)
               (length (default [] (page_of (Z.of_nat n))))
               (length (default [] (accumulated n)))]
  end.

(** What [strava_extractor.py] prints before the first request. *)
Definition banner : list message :=
  [MsgFetching; MsgDateRange; MsgPerPage per_page].
End runs.

(** An upstream that serves the given pages, each with status 200, and
    after them the reply [last]. *)
Definition serving (pages : list (list activity)) (last : reply) : request -> reply :=
  fun params =>
    match pages !! Z.to_nat (page params - 1) with
    | Some records => Answers (mkResponse 200 (Json (JsonArray records)))
    | None => last
    end.

(** The records of pages [1..k] of an upstream whose page [p] is
    [pages p]. *)
Definition first_pages (pages : Z -> list activity) (k : nat) : list activity :=
  concat (map (fun i => pages (Z.of_nat i)) (seq 1 k)).

(** ** Vocabulary for the statements about [extract_activity_data] and
    [export_to_csv] *)

(** [v / d] is defined on [v]: a number, and if an [int] one whose quotient
    is in the range of a [float]. *)
Definition divisible (v : pyval) (d : Z) : bool :=
  match v with
  | PyInt z => Z.abs z <? d * float_overflow
  | PyBool _ | PyFloat _ => true
  | PyNone | PyStr _ => false
  end.

(** The speed conversion is defined on [v]: a falsy value, or a number, and
    if an [int] one in the range of a [float]. *)
Definition convertible (v : pyval) : bool :=
  negb (truthy v)
  || match v with
     | PyInt z => Z.abs z <? float_overflow
     | PyBool _ | PyFloat _ => true
     | PyNone | PyStr _ => false
     end.

Definition is_str (v : pyval) : bool :=
  match v with
  | PyStr _ => true
  | _ => false
  end.

(** The fields the compact normaliser computes with hold values it can
    compute with (or are absent). *)
Definition compact_ok (a : activity) : bool :=
  convertible (get a "average_speed" (PyInt 0))
  && convertible (get a "max_speed" (PyInt 0))
  && divisible (get a "distance" (PyInt 0)) 1000
  && divisible (get a "moving_time" (PyInt 0)) 60.

(** The same for the extended normaliser. *)
Definition extended_ok (a : activity) : bool :=
  is_str (get a "start_date" (PyStr ""))
  && divisible (get a "distance" (PyInt 0)) 1000
  && divisible (get a "moving_time" (PyInt 0)) 60.

Definition float_zero : spec_float := S754_zero false.

(** [q] is the integer nearest to [100 * m * 2^e], the number of hundredths
    in [m * 2^e]: it is off by half a hundredth at most, and of the two
    integers that are off by that much it is the even one. *)
Definition nearest_hundredths (m : positive) (e : Z) (q : Z) : Prop :=
  if 0 <=? e then q = 100 * (Zpos m * 2 ^ e)
  else
    let off := 2 * (100 * Zpos m - q * 2 ^ (- e)) in
    - 2 ^ (- e) <= off <= 2 ^ (- e)
    /\ (off = 2 ^ (- e) \/ off = - 2 ^ (- e) -> Z.even q = true).

(** [w] is [p] rounded to two decimal places: the float nearest to
    [q / 100], for the number [q] of hundredths nearest to [p]; a zero of the
    sign of [p] when that is none; [p] itself when it is not finite or is a
    zero. *)
Definition rounded_to_hundredths (p w : spec_float) : Prop :=
  match p with
  | S754_finite s m e =>
      exists q,
        0 <= q
        /\ nearest_hundredths m e q
        /\ w = if q =? 0 then S754_zero s
               else SFdiv prec emax (S754_finite s (Z.to_pos q) 0)
                      (S754_finite false 100 0)
  | _ => w = p
  end.

(** The compact field set: each field, the key of the activity it is
    derived from, and the value it has when that key is missing. *)
Definition compact_fields : list (string * string * pyval) :=
  [ ("id", "id", PyNone);
    ("name", "name", PyNone);
    ("distance", "distance", PyFloat float_zero);
    ("moving_time", "moving_time", PyFloat float_zero);
    ("elapsed_time", "elapsed_time", PyNone);
    ("total_elevation_gain", "total_elevation_gain", PyNone);
    ("start_date", "start_date", PyStr "");
    ("average_speed", "average_speed", PyInt 0);
    ("max_speed", "max_speed", PyInt 0);
    ("average_temp", "average_temp", PyNone);
    ("elev_high", "elev_high", PyNone);
    ("elev_low", "elev_low", PyNone);
    ("calories", "calories", PyNone);
    ("pr_count", "pr_count", PyNone) ].

(** The extended field set. *)
Definition extended_fields : list (string * string * pyval) :=
  [ ("id", "id", PyNone);
    ("name", "name", PyNone);
    ("type", "type", PyNone);
    ("date", "start_date", PyStr "");
    ("start_time", "start_date", PyStr "");
    ("distance_m", "distance", PyNone);
    ("distance_km", "distance", PyFloat float_zero);
    ("moving_time_s", "moving_time", PyNone);
    ("moving_time_min", "moving_time", PyFloat float_zero);
    ("elapsed_time_s", "elapsed_time", PyNone);
    ("elevation_gain_m", "total_elevation_gain", PyNone);
    ("average_speed_ms", "average_speed", PyNone);
    ("max_speed_ms", "max_speed", PyNone);
    ("average_hr", "average_heartrate", PyNone);
    ("max_hr", "max_heartrate", PyNone);
    ("calories", "calories", PyNone);
    ("location", "location_city", PyStr "");
    ("kudos", "kudos_count", PyNone);
    ("commute", "commute", PyNone);
    ("trainer", "trainer", PyNone);
    ("manual", "manual", PyNone) ].

Definition field_names (fields : list (string * string * pyval)) : list string :=
  map (fun f => f.1.1) fields.

(** The rows of a sequence of activities; raises what the first activity
    that cannot be normalised raises. *)
Fixpoint extract_all (extract : activity -> exc row) (activities : list activity)
  : exc (list row) :=
  match activities with
  | [] => Ret []
  | a :: activities =>
      r ← extract a;
      rs ← extract_all extract activities;
      mret (r :: rs)
  end.

(** The values of a row as [csv.writer] formats them. *)
Definition formatted (r : row) : list string := map (fun kv => py_str kv.2) r.

(** The text of a file that holds one written row after the other. *)
Fixpoint csv_lines (rows : list (list string)) : string :=
  match rows with
  | [] => ""
  | cells :: rows => (csv_writerow cells ++ csv_lines rows)%string
  end.

(** A separator: the character after a cell in a written record. *)
Definition separator (c : ascii) : Prop := c = comma \/ c = CR.

(** Where [csv.reader] is after the separator that ends [cell]. *)
Definition after_cell (c : ascii) (fields : list string) (cell : string)
    (rest : string) : list (list string) :=
  if Ascii.eqb c comma then csv_read StartField "" (fields ++ [cell]) rest
  else (fields ++ [cell]) :: csv_read EatCRNL "" [] rest.

(** ** Sample inputs *)

Definition sample_activity (id : Z) : activity := <["id" := PyInt id]> ∅.

(** Replies: a 401, an empty page, a time-out, a body that is not JSON,
    and a body that is the number 5. *)
Definition unauthorized : reply := Answers (mkResponse 401 NotJson).
Definition no_more : reply := Answers (mkResponse 200 (Json (JsonArray []))).
Definition timed_out : reply := Fails Timeout.
Definition garbled : reply := Answers (mkResponse 200 NotJson).
Definition a_number : reply := Answers (mkResponse 200 (Json JsonNumber)).

(** An upstream that gives the same reply to every request. *)
Definition always (r : reply) : request -> reply := fun _ => r.

Definition full_page : list activity := replicate 200 (sample_activity 1).

(** An upstream that serves [n] pages of one record each, then an empty
    page. *)
Definition one_per_page (n : nat) : request -> reply :=
  serving (replicate n [sample_activity 1]) no_more.

(** The floats 5.0, 18.0 and 10.23. *)
Definition float_5 : spec_float := S754_finite false 5629499534213120 (-50).
Definition float_18 : spec_float := S754_finite false 5066549580791808 (-48).
Definition float_10_23 : spec_float := S754_finite false 5758978023500022 (-49).

(** The floats 4.35 and 15.66. *)
Definition float_4_35 : spec_float := S754_finite false 4897664594765414 (-50).
Definition float_15_66 : spec_float := S754_finite false 8815796270577746 (-49).

(** A run, an activity with nothing but an id, and one whose distance is
    text. *)
Definition morning_run : activity :=
  <["id" := PyInt 7]> (<["name" := PyStr "Morning, run"]>
  (<["distance" := PyInt 10234]> (<["average_speed" := PyFloat float_5]> ∅))).
Definition bad_distance : activity := <["distance" := PyStr "10 km"]> ∅.

(** A walk at 4.35 m/s. *)
Definition brisk_walk : activity :=
  <["id" := PyInt 9]> (<["average_speed" := PyFloat float_4_35]> ∅).

(** A disk that holds one file, refuses to open one path for writing,
    and has room for 4096 characters in a file. *)
Definition busy_disk : filesystem :=
  mkFilesystem {["out.csv" := "old text"]}
    (fun path => String.eqb path "/proc/out.csv") (Some 4096%nat).

(** ** Vocabulary for further statements about [get_activities] *)

(** The records of page [p], none when the page is not one the loop
    decodes. *)
Definition page_body (upstream : request -> reply) (after before per_page : Z)
    (p : Z) : list activity :=
  default [] (page_of upstream after before per_page p).

(** The ways one page can go, for the two variants at once. *)
Section page_outcomes.
Variable upstream : request -> reply.
Variables (after before per_page : Z) (max_activities : option Z).

Inductive page_case (acts : list activity) (p : Z) : Prop :=
| CaseAuth r :
    upstream (page_request after before per_page p) = Answers r ->
    status_code r = 401 ->
    page_of upstream after before per_page p = None ->
    strava_extractor.try_page upstream after before per_page max_activities
      acts p = Ret (Return [], [MsgAuthFailed]) ->
    cutie_extractor.try_page upstream after before per_page max_activities
      acts p = Ret (Return None) ->
    page_case acts p
| CaseRate r :
    upstream (page_request after before per_page p) = Answers r ->
    status_code r = 429 ->
    page_of upstream after before per_page p = None ->
    strava_extractor.try_page upstream after before per_page max_activities
      acts p = Ret (Return acts, [MsgRateLimit]) ->
    cutie_extractor.try_page upstream after before per_page max_activities
      acts p = Ret (Return (Some acts)) ->
    page_case acts p
| CaseError e :
    page_error upstream after before per_page p = Some e ->
    page_of upstream after before per_page p = None ->
    strava_extractor.try_page upstream after before per_page max_activities
      acts p = Raise (RequestException e) ->
    cutie_extractor.try_page upstream after before per_page max_activities
      acts p = Raise (RequestException e) ->
    page_case acts p
| CaseEmpty :
    page_of upstream after before per_page p = Some [] ->
    strava_extractor.try_page upstream after before per_page max_activities
      acts p = Ret (Break acts, []) ->
    cutie_extractor.try_page upstream after before per_page max_activities
      acts p = Ret (Break acts) ->
    page_case acts p
| CaseLimit x b :
    page_of upstream after before per_page p = Some (x :: b) ->
    limit_reached max_activities (acts ++ x :: b) = true ->
    strava_extractor.try_page upstream after before per_page max_activities
      acts p
    = Ret (Break (slice_to (acts ++ x :: b) (default 0 max_activities)), []) ->
    cutie_extractor.try_page upstream after before per_page max_activities
      acts p
    = Ret (Break (slice_to (acts ++ x :: b) (default 0 max_activities))) ->
    page_case acts p
| CaseNext x b :
    page_of upstream after before per_page p = Some (x :: b) ->
    limit_reached max_activities (acts ++ x :: b) = false ->
    strava_extractor.try_page upstream after before per_page max_activities
      acts p
    = Ret (Next (acts ++ x :: b),
           [MsgPage p (length (x :: b)) (length (acts ++ x :: b))]) ->
    cutie_extractor.try_page upstream after before per_page max_activities
      acts p = Ret (Next (acts ++ x :: b)) ->
    page_case acts p
| CaseCrash e :
    page_crash upstream after before per_page p = Some e ->
    page_of upstream after before per_page p = None ->
    (e = TypeError \/ e = ValueError \/ e = RecursionError) ->
    strava_extractor.try_page upstream after before per_page max_activities
      acts p = Raise e ->
    cutie_extractor.try_page upstream after before per_page max_activities
      acts p = Raise e ->
    page_case acts p.
End page_outcomes.

(** The two variants side by side: the same requests; the same records,
    but on a 401, where the command-line tool returns the empty list and
    says why, and the GUI variants return [None]. *)
Definition same_fetch (o : outcome (list activity))
    (o' : outcome (option (list activity))) : Prop :=
  requests o = requests o'
  /\ printed o' = []
  /\ match returned o' with
     | Ret (Some records) => returned o = Ret records
     | Ret None => returned o = Ret [] /\ last (printed o) = Some MsgAuthFailed
     | Raise e => returned o = Raise e
     end.

Definition same_result (r : option (outcome (list activity)))
    (r' : option (outcome (option (list activity)))) : Prop :=
  match r, r' with
  | Some o, Some o' => same_fetch o o'
  | None, None => True
  | _, _ => False
  end.

(** ** Vocabulary for further statements about [extract_activity_data] and
    [export_to_csv] *)

(** The fields a normaliser computes; the others it copies. *)
Definition compact_derived : list string :=
  ["distance"; "moving_time"; "average_speed"; "max_speed"].
Definition extended_derived : list string :=
  ["date"; "distance_km"; "moving_time_min"].

(** The exceptions a normaliser lets escape. *)
Definition bad_value {A} (r : exc A) : Prop :=
  r = Raise TypeError \/ r = Raise OverflowError.


(** ** More sample inputs *)

(** A 429. *)
Definition rate_limited : reply := Answers (mkResponse 429 NotJson).

(** An upstream that serves two pages of three records, then an empty
    page. *)
Definition three_then_three : request -> reply :=
  serving [[sample_activity 1; sample_activity 2; sample_activity 3];
           [sample_activity 4; sample_activity 5; sample_activity 6]] no_more.

(** A ride with a start date and a moving time. *)
Definition evening_ride : activity :=
  <["id" := PyInt 8]> (<["start_date" := PyStr "2025-11-24T18:05:00Z"]>
  (<["distance" := PyInt 10234]> (<["moving_time" := PyInt 3000]>
  (<["commute" := PyBool true]> ∅)))).

(** Three activities of which the second cannot be normalised. *)
Definition spoiled_batch : list activity :=
  [morning_run; bad_distance; evening_ride].

(** A disk on which nothing can be opened for writing, and one without
    limits. *)
Definition read_only : filesystem :=
  mkFilesystem {["out.csv" := "old text"]} (fun _ => true) None.
Definition roomy_disk : filesystem :=
  mkFilesystem {["out.csv" := "old text"]} (fun _ => false) None.

(** A file name with a NUL character in it. *)
Definition nul_name : string := String "o" (String "000" "ut.csv").

(** ** [datetime]

    A naive [datetime] is its seven fields. The calendar is the proleptic
    Gregorian one of the module, with the days numbered from 1 at
    0001-01-01 (the ordinals). *)
Record datetime : Type := mkDatetime {
  year : Z; month : Z; day : Z;
  hour : Z; minute : Z; second : Z; microsecond : Z
}.

Definition MINYEAR : Z := 1.
Definition MAXYEAR : Z := 9999.
Definition MAXORDINAL : Z := 3652059.

Definition is_leap (y : Z) : bool :=
  (y mod 4 =? 0) && (negb (y mod 100 =? 0) || (y mod 400 =? 0)).

Definition days_in_month (y m : Z) : Z :=
  if m =? 2 then (if is_leap y then 29 else 28)
  else if (m =? 4) || (m =? 6) || (m =? 9) || (m =? 11) then 30
  else 31.

(** The days of the year before the first of month [m], in a common
    year. *)
Definition DAYS_BEFORE_MONTH (m : Z) : Z :=
  match m with
  | 1 => 0 | 2 => 31 | 3 => 59 | 4 => 90 | 5 => 120 | 6 => 151
  | 7 => 181 | 8 => 212 | 9 => 243 | 10 => 273 | 11 => 304 | 12 => 334
  | _ => 0
  end.

Definition days_before_year (y : Z) : Z :=
  let y := y - 1 in y * 365 + y / 4 - y / 100 + y / 400.

Definition days_before_month (y m : Z) : Z :=
  DAYS_BEFORE_MONTH m + (if (2 <? m) && is_leap y then 1 else 0).

Definition ymd2ord (y m d : Z) : Z :=
  days_before_year y + days_before_month y m + d.

Definition DI400Y : Z := 146097.
Definition DI100Y : Z := 36524.
Definition DI4Y : Z := 1461.

(** The month and the day of the day numbered [n], from 0, in its year;
    the month is estimated first, from above. *)
Definition month_and_day (leapyear : bool) (n : Z) : Z * Z :=
  let m := Z.shiftr (n + 50) 5 in
  let preceding :=
    DAYS_BEFORE_MONTH m + (if (2 <? m) && leapyear then 1 else 0) in
  if n <? preceding
  then
    let m := m - 1 in
    let preceding :=
      preceding
      - (days_in_month 1 m + (if (m =? 2) && leapyear then 1 else 0)) in
    (m, n - preceding + 1)
  else (m, n - preceding + 1).

(** The date of an ordinal: the 400-year, 100-year and 4-year cycles
    before it, and the years in the last of these. *)
Definition ord2ymd (n : Z) : Z * Z * Z :=
  let n := n - 1 in
  let n400 := n / DI400Y in
  let n := n mod DI400Y in
  let y := n400 * 400 + 1 in
  let n100 := n / DI100Y in
  let n := n mod DI100Y in
  let n4 := n / DI4Y in
  let n := n mod DI4Y in
  let n1 := n / 365 in
  let n := n mod 365 in
  let y := y + n100 * 100 + n4 * 4 + n1 in
  if (n1 =? 4) || (n100 =? 4) then (y - 1, 12, 31)
  else
    let leapyear := (n1 =? 3) && (negb (n4 =? 24) || (n100 =? 3)) in
    let '(m, d) := month_and_day leapyear n in
    (y, m, d).

(** The fields are those of a date of the calendar and a time of day. *)
Definition valid_date (y m d : Z) : bool :=
  (MINYEAR <=? y) && (y <=? MAXYEAR) && (1 <=? m) && (m <=? 12)
  && (1 <=? d) && (d <=? days_in_month y m).

Definition valid_datetime (t : datetime) : bool :=
  valid_date (year t) (month t) (day t)
  && (0 <=? hour t) && (hour t <? 24)
  && (0 <=? minute t) && (minute t <? 60)
  && (0 <=? second t) && (second t <? 60)
  && (0 <=? microsecond t) && (microsecond t <? 1000000).

(** [a > b]: the fields compared in order. *)
Fixpoint lex_gt (a b : list Z) : bool :=
  match a, b with
  | x :: a, y :: b => (y <? x) || ((x =? y) && lex_gt a b)
  | _, _ => false
  end.

Definition fields (t : datetime) : list Z :=
  [year t; month t; day t; hour t; minute t; second t; microsecond t].

Definition datetime_gt (a b : datetime) : bool := lex_gt (fields a) (fields b).

(** [t - timedelta(days=n)]: the date [n] days before, at the same time of
    day; [OverflowError] before the first day of the calendar or after the
    last. *)
Definition minus_days (t : datetime) (n : Z) : exc datetime :=
  let o := ymd2ord (year t) (month t) (day t) - n in
  if (1 <=? o) && (o <=? MAXORDINAL)
  then let '(y, m, d) := ord2ymd o in
       Ret (mkDatetime y m d (hour t) (minute t) (second t) (microsecond t))
  else Raise OverflowError.

(** ** [datetime.strptime(s, "%Y-%m-%d")]

    The format is turned into the regular expression
    [(\d\d\d\d)-(1[0-2]|0[1-9]|[1-9])-(3[01]|[12]\d|0[1-9]|[1-9]| [1-9])],
    matched at the start of the text, the alternatives tried in their
    order; text left after the match, or fields that are no date, are a
    [ValueError]. *)
Definition code (c : ascii) : Z := Z.of_N (N_of_ascii c).

Definition in_range (lo hi : Z) (c : ascii) : bool :=
  (lo <=? code c) && (code c <=? hi).

(** [\d] on 8-bit characters: the ten ASCII digits. *)
Definition is_digit (c : ascii) : bool := in_range 48 57 c.
Definition digit (c : ascii) : Z := code c - 48.

Definition match_year (s : string) : option (Z * string) :=
  match s with
  | String a (String b (String c (String d rest))) =>
      if is_digit a && is_digit b && is_digit c && is_digit d
      then Some (1000 * digit a + 100 * digit b + 10 * digit c + digit d, rest)
      else None
  | _ => None
  end.

Definition literal (c : ascii) (s : string) : option string :=
  match s with
  | String x rest => if Ascii.eqb x c then Some rest else None
  | EmptyString => None
  end.

(** Two characters, the first in one range and the second in another, read
    as a number (a blank counts for nothing, as for [int]). *)
Definition two_chars (lo1 hi1 lo2 hi2 : Z) (s : string) : list (Z * string) :=
  match s with
  | String a (String b rest) =>
      if in_range lo1 hi1 a && in_range lo2 hi2 b
      then [((if is_digit a then 10 * digit a else 0) + digit b, rest)]
      else []
  | _ => []
  end.

Definition one_char (lo hi : Z) (s : string) : list (Z * string) :=
  match s with
  | String a rest => if in_range lo hi a then [(digit a, rest)] else []
  | EmptyString => []
  end.

(** [1[0-2]|0[1-9]|[1-9]]: the ways the start of [s] is a month, in the
    order of the alternatives. *)
Definition month_alternatives (s : string) : list (Z * string) :=
  two_chars 49 49 48 50 s ++ two_chars 48 48 49 57 s ++ one_char 49 57 s.

(** [3[01]|[12]\d|0[1-9]|[1-9]| [1-9]] *)
Definition day_alternatives (s : string) : list (Z * string) :=
  two_chars 51 51 48 49 s ++ two_chars 49 50 48 57 s ++ two_chars 48 48 49 57 s
  ++ one_char 49 57 s ++ two_chars 32 32 49 57 s.

(** The first alternative with which the rest of the expression matches. *)
Fixpoint first_match {A B} (alternatives : list A) (rest : A -> option B)
  : option B :=
  match alternatives with
  | [] => None
  | a :: alternatives =>
      match rest a with
      | Some b => Some b
      | None => first_match alternatives rest
      end
  end.

Definition hyphen : ascii := "-".

(** [re.match]: the three numbers and the text after the match. *)
Definition re_match (s : string) : option (Z * Z * Z * string) :=
  '(y, s) ← match_year s;
  s ← literal hyphen s;
  first_match (month_alternatives s) (fun '(m, s) =>
    s ← literal hyphen s;
    first_match (day_alternatives s) (fun '(d, s) => Some (y, m, d, s))).

Definition strptime_Y_m_d (s : string) : exc datetime :=
  match re_match s with
  | Some (y, m, d, EmptyString) =>
      if valid_date y m d then Ret (mkDatetime y m d 0 0 0 0)
      else Raise ValueError
  | _ => Raise ValueError
  end.

(** ** [str.strip], [str.lower], [str.endswith] on 8-bit characters *)

Definition is_space (c : ascii) : bool :=
  in_range 9 13 c || in_range 28 32 c || (code c =? 133) || (code c =? 160).

Fixpoint lstrip (s : string) : string :=
  match s with
  | String c rest => if is_space c then lstrip rest else s
  | EmptyString => EmptyString
  end.

Fixpoint rstrip (s : string) : string :=
  match s with
  | String c rest =>
      match rstrip rest with
      | EmptyString => if is_space c then EmptyString else String c EmptyString
      | rest => String c rest
      end
  | EmptyString => EmptyString
  end.

Definition strip (s : string) : string := rstrip (lstrip s).

Definition lower_char (c : ascii) : ascii :=
  if in_range 65 90 c || (in_range 192 222 c && negb (code c =? 215))
  then ascii_of_N (N_of_ascii c + 32)
  else c.

Fixpoint lower (s : string) : string :=
  match s with
  | String c rest => String (lower_char c) (lower rest)
  | EmptyString => EmptyString
  end.

Definition endswith (s suffix : string) : bool :=
  let n := String.length s in
  let k := String.length suffix in
  (k <=? n)%nat && String.eqb (String.substring (n - k) k s) suffix.

(** ** The functions of [strava_extractor.py] outside the class *)

Module strava_cli.

(** A line on the terminal: printed, or the prompt of an [input]. *)
Inductive line : Type :=
| SayRule                         (* "=" * 60 *)
| SayTitle                        (* "STRAVA DATA EXTRACTOR" *)
| SayNoToken                      (* "Error: STRAVA_ACCESS_TOKEN not found in .env file" *)
| SayAddToken                     (* "Please add your access token to .env" *)
| SayEnterRange                   (* "Enter date range for extraction (YYYY-MM-DD format)" *)
| SayExample                      (* "Example: 2025-11-24" *)
| AskStart                        (* "Start date (or 'last7' for last 7 days): " *)
| AskEnd                          (* "End date (or press Enter for today): " *)
| SayInvalidDate                  (* "Invalid date format. Please use YYYY-MM-DD" *)
| SayStartAfterEnd                (* "Start date must be before end date." *)
| SayFetch (m : message)          (* a line of [get_activities] *)
| AskFilename (name : string)     (* "Filename (press Enter for 'name'): " *)
| SayNothingFound.                (* "No activities found in the date range or API error occurred." *)

(** What ends a function that does not return: the end of the input
    ([EOFError] of [input]), or another exception. *)
Inductive ending : Type :=
| EOFError
| Escaped (e : exn).

Inductive told (A : Type) : Type :=
| Returned (a : A)
| Ended (e : ending).
Arguments Returned {A} a.
Arguments Ended {A} e.

(** The terminal after a call: the lines of input not read yet, the number
    of times the clock was read, and the lines shown. *)
Record session (A : Type) : Type := mkSession {
  result : told A;
  unread : list string;
  ticks : nat;
  shown : list line
}.
Arguments mkSession {A} result unread ticks shown.
Arguments result {A} s.
Arguments unread {A} s.
Arguments ticks {A} s.
Arguments shown {A} s.

(** [parse_date_input] *)
Definition parse_date_input (date_str : string) : exc (option datetime) :=
  match strptime_Y_m_d date_str with
  | Ret t => Ret (Some t)
  | Raise ValueError => Ret None
  | Raise e => Raise e
  end.

Section get_date_range.
(** [datetime.now()] at its first, second, ... call. *)
Variable now : nat -> datetime.

(** [end_date = datetime.now(); start_date = end_date - timedelta(days=7)] *)
Definition last_week (inputs : list string) (tick : nat) (log : list line)
  : session (datetime * datetime) :=
  let end_date := now tick in
  match minus_days end_date 7 with
  | Ret start_date => mkSession (Returned (start_date, end_date)) inputs (S tick) log
  | Raise e => mkSession (Ended (Escaped e)) inputs (S tick) log
  end.

(** The [while True:] of [get_date_range]: every turn reads a line, so the
    loop is a recursion on the lines of input. *)
Fixpoint asking (inputs : list string) (tick : nat) (log : list line)
  : session (datetime * datetime) :=
  let log := log ++ [AskStart] in
  match inputs with
  | [] => mkSession (Ended EOFError) [] tick log
  | entered :: inputs =>
    let start_str := strip entered in
    if String.eqb (lower start_str) "last7" then last_week inputs tick log
    else if String.eqb (lower start_str) "lastweek" then last_week inputs tick log
    else
      match parse_date_input start_str with
      | Raise e => mkSession (Ended (Escaped e)) inputs tick log
      | Ret None => asking inputs tick (log ++ [SayInvalidDate])
      | Ret (Some start_date) =>
        let log := log ++ [AskEnd] in
        match inputs with
        | [] => mkSession (Ended EOFError) [] tick log
        | entered :: inputs =>
          let end_str := strip entered in
          let compare end_date tick :=
            if datetime_gt start_date end_date
            then asking inputs tick (log ++ [SayStartAfterEnd])
            else mkSession (Returned (start_date, end_date)) inputs tick log in
          if String.eqb end_str ""
          then compare (now tick) (S tick)
          else
            match parse_date_input end_str with
            | Raise e => mkSession (Ended (Escaped e)) inputs tick log
            | Ret None => asking inputs tick (log ++ [SayInvalidDate])
            | Ret (Some end_date) => compare end_date tick
            end
        end
      end
  end.

(** [get_date_range()] with the lines of input to come and the number of
    clock readings so far. *)
Definition get_date_range (inputs : list string) (tick : nat)
  : session (datetime * datetime) :=
  asking inputs tick [SayEnterRange; SayExample].
End get_date_range.

(** What a run of the program leaves behind: the terminal, the requests
    made, and the files. *)
Record run : Type := mkRun {
  terminal : session unit;
  sent : list request;
  disk : filesystem
}.

Section main.
Variable now : nat -> datetime.
Variable upstream : request -> reply.
(** [int(t.timestamp())], which depends on the time zone of the machine
    and raises on the dates it has no time for. *)
Variable timestamp : datetime -> exc Z.
(** [t.strftime('%Y%m%d')] *)
Variable strftime_Ymd : datetime -> string.

(** [STRAVA_ACCESS_TOKEN] is what [os.getenv] gave: a string, or [None]. *)
Definition token_missing (token : option string) : bool :=
  match token with
  | None => true
  | Some t => String.eqb t ""
  end.

Definition default_filename (start_date end_date : datetime) : string :=
  "strava_" ++ strftime_Ymd start_date ++ "_" ++ strftime_Ymd end_date ++ ".csv".

(** The end of [main], with the activities fetched. *)
Definition save (activities : list activity) (start_date end_date : datetime)
    (inputs : list string) (tick : nat) (log : list line)
    (trace : list request) (fs : filesystem) : run :=
  match activities with
  | [] => mkRun (mkSession (Returned tt) inputs tick (log ++ [SayNothingFound]))
                trace fs
  | _ :: _ =>
    let default_filename := default_filename start_date end_date in
    let log := log ++ [AskFilename default_filename] in
    match inputs with
    | [] => mkRun (mkSession (Ended EOFError) [] tick log) trace fs
    | entered :: inputs =>
      let filename := strip entered in
      let filename :=
        if String.eqb filename "" then default_filename else filename in
      let filename :=
        if endswith filename ".csv" then filename
        else (filename ++ ".csv")%string in
      match strava_extractor.export_to_csv activities filename fs with
      | (Ret _, fs) => mkRun (mkSession (Returned tt) inputs tick log) trace fs
      | (Raise e, fs) =>
          mkRun (mkSession (Ended (Escaped e)) inputs tick log) trace fs
      end
    end
  end.

(** [main()]; [None] when the fuel of the fetch runs out. *)
Definition main (fuel : nat) (token : option string) (inputs : list string)
    (fs : filesystem) : option run :=
  let log := [SayRule; SayTitle; SayRule] in
  if token_missing token
  then Some (mkRun (mkSession (Returned tt) inputs 0
                      (log ++ [SayNoToken; SayAddToken])) [] fs)
  else
    let dates := get_date_range now inputs 0 in
    let log := log ++ shown dates in
    let stop e trace :=
      Some (mkRun (mkSession (Ended e) (unread dates) (ticks dates) log)
              trace fs) in
    match result dates with
    | Ended e => stop e []
    | Returned (start_date, end_date) =>
      match timestamp start_date with
      | Raise e => stop (Escaped e) []
      | Ret after =>
        match timestamp end_date with
        | Raise e => stop (Escaped e) []
        | Ret before =>
          match strava_extractor.get_activities fuel upstream after before 200
                  None with
          | None => None
          | Some fetched =>
            let log := log ++ map SayFetch (printed fetched) in
            match returned fetched with
            | Raise e =>
                Some (mkRun (mkSession (Ended (Escaped e)) (unread dates)
                               (ticks dates) log)
                        (requests fetched) fs)
            | Ret activities =>
                Some (save activities start_date end_date (unread dates)
                        (ticks dates) log (requests fetched) fs)
            end
          end
        end
      end
    end.
End main.

(** *** Vocabulary for the statements about these functions *)

(** The prompts among the lines shown. *)
Definition is_prompt (l : line) : bool :=
  match l with
  | AskStart | AskEnd | AskFilename _ => true
  | _ => false
  end.

Definition prompts (log : list line) : nat := length (filter is_prompt log).

Section turns.
Variable now : nat -> datetime.

(** One turn of the loop of [get_date_range], by cases: what [asking]
    comes to on these lines, at this reading of the clock, after these
    lines were shown. *)
Inductive turn (inputs : list string) (tick : nat) (log : list line)
  : session (datetime * datetime) -> Prop :=
| TurnEOF :
    inputs = [] ->
    turn inputs tick log
      (mkSession (Ended EOFError) [] tick (log ++ [AskStart]))
| TurnLastWeek entered rest :
    inputs = entered :: rest ->
    turn inputs tick log (last_week now rest tick (log ++ [AskStart]))
| TurnBadStart entered rest :
    inputs = entered :: rest ->
    turn inputs tick log
      (asking now rest tick (log ++ [AskStart] ++ [SayInvalidDate]))
| TurnEndEOF entered start_date :
    inputs = [entered] ->
    valid_datetime start_date = true ->
    turn inputs tick log
      (mkSession (Ended EOFError) [] tick (log ++ [AskStart] ++ [AskEnd]))
| TurnBadEnd entered entered' rest :
    inputs = entered :: entered' :: rest ->
    turn inputs tick log
      (asking now rest tick
         (log ++ [AskStart] ++ [AskEnd] ++ [SayInvalidDate]))
| TurnDisordered entered entered' rest tick' :
    inputs = entered :: entered' :: rest ->
    (tick <= tick')%nat ->
    turn inputs tick log
      (asking now rest tick'
         (log ++ [AskStart] ++ [AskEnd] ++ [SayStartAfterEnd]))
| TurnPair entered entered' rest tick' start_date end_date :
    inputs = entered :: entered' :: rest ->
    (tick <= tick')%nat ->
    valid_datetime start_date = true ->
    valid_datetime end_date = true ->
    datetime_gt start_date end_date = false ->
    turn inputs tick log
      (mkSession (Returned (start_date, end_date)) rest tick'
         (log ++ [AskStart] ++ [AskEnd])).

(** What holds of the terminal when the loop is left. *)
Definition asked_well (inputs : list string) (tick : nat) (log : list line)
    (s : session (datetime * datetime)) : Prop :=
  unread s `suffix_of` inputs
  /\ (tick <= ticks s)%nat
  /\ log `prefix_of` shown s
  /\ prompts (shown s)
     = (prompts log + (length inputs - length (unread s))
        + match result s with Ended EOFError => 1 | _ => 0 end)%nat
  /\ match result s with
     | Returned (start_date, end_date) =>
         valid_datetime start_date = true
         /\ valid_datetime end_date = true
         /\ datetime_gt start_date end_date = false
     | Ended EOFError => unread s = []
     | Ended (Escaped e) =>
         e = OverflowError
         /\ exists k, minus_days (now k) 7 = Raise OverflowError
     end.
End turns.

End strava_cli.

(** ** Vocabulary for the statements about dates and files *)

Definition month_range (m : Z) : Prop :=
  m = 1 \/ m = 2 \/ m = 3 \/ m = 4 \/ m = 5 \/ m = 6
  \/ m = 7 \/ m = 8 \/ m = 9 \/ m = 10 \/ m = 11 \/ m = 12.

Definition day_range (d : Z) : Prop :=
  (d = 1 \/ d = 2 \/ d = 3 \/ d = 4 \/ d = 5 \/ d = 6 \/ d = 7 \/ d = 8)
  \/ (d = 9 \/ d = 10 \/ d = 11 \/ d = 12 \/ d = 13 \/ d = 14 \/ d = 15 \/ d = 16)
  \/ (d = 17 \/ d = 18 \/ d = 19 \/ d = 20 \/ d = 21 \/ d = 22 \/ d = 23 \/ d = 24)
  \/ (d = 25 \/ d = 26 \/ d = 27 \/ d = 28 \/ d = 29 \/ d = 30 \/ d = 31).

(** One date is before another. *)
Definition date_lt (a b : Z * Z * Z) : Prop :=
  let '(y, m, d) := a in
  let '(y', m', d') := b in
  y < y' \/ (y = y' /\ (m < m' \/ (m = m' /\ d < d'))).

(** [month_and_day] gives a day of a month, the one numbered [r] in a year
    that is a leap year or not. *)
Definition month_and_day_ok (leap : bool) (r : Z) : bool :=
  let '(m, d) := month_and_day leap r in
  (1 <=? m) && (m <=? 12) && (1 <=? d)
  && (d <=? days_in_month 1 m + (if (m =? 2) && leap then 1 else 0))
  && (DAYS_BEFORE_MONTH m + (if (2 <? m) && leap then 1 else 0) + d =? r + 1).

(** The character of a digit, and a number in two and in four digits. *)
Definition digit_char (k : Z) : ascii := ascii_of_N (Z.to_N (48 + k)).

Definition two_digits (n : Z) : string :=
  String (digit_char (n / 10)) (String (digit_char (n mod 10)) "").

Definition four_digits (n : Z) : string :=
  String (digit_char (n / 1000)) (String (digit_char (n / 100 mod 10))
    (two_digits (n mod 100))).

(** [date(y, m, d).isoformat()]: [YYYY-MM-DD]. *)
Definition isoformat (y m d : Z) : string :=
  four_digits y ++ "-" ++ two_digits m ++ "-" ++ two_digits d.

Definition midnight (y m d : Z) : datetime := mkDatetime y m d 0 0 0 0.

(** [fs'] is [fs] but for the file at [path]. *)
Definition elsewhere (path : string) (fs fs' : filesystem) : Prop :=
  refused fs' = refused fs
  /\ quota fs' = quota fs
  /\ forall p, p <> path -> files fs' !! p = files fs !! p.

(** A computation that changes no file but the one at [path]. *)
Definition touches_only {A} (path : string) (m : io A) : Prop :=
  forall fs, elsewhere path fs (m fs).2.

(** A clock that stands at 2025-11-24 10:30. *)
Definition late_november : nat -> datetime :=
  fun _ => mkDatetime 2025 11 24 10 30 0 0.

(** The time of a date in UTC, for the dates from 1970 on. *)
Definition utc_timestamp (t : datetime) : exc Z :=
  if 1970 <=? year t
  then Ret ((ymd2ord (year t) (month t) (day t) - 719163) * 86400
            + hour t * 3600 + minute t * 60 + second t)
  else Raise ValueError.

(** [%Y%m%d] in four, two and two digits. *)
Definition compact_Ymd (t : datetime) : string :=
  four_digits (year t) ++ two_digits (month t) ++ two_digits (day t).

(** ** Text as the preview builds it *)

(** [str(v)] of the builtin: as [csv.writer] writes a cell, but for
    [None]. *)
Definition builtin_str (v : pyval) : string :=
  match v with
  | PyNone => "None"
  | _ => py_str v
  end.

(** [c * n] *)
Fixpoint times (c : ascii) (n : nat) : string :=
  match n with
  | O => EmptyString
  | S n => String c (times c n)
  end.

(** [s.ljust(width)] *)
Definition ljust (s : string) (width : nat) : string :=
  s ++ times " " (width - String.length s).

(** [sep.join(parts)] *)
Fixpoint join (sep : string) (parts : list string) : string :=
  match parts with
  | [] => EmptyString
  | [part] => part
  | part :: parts => part ++ sep ++ join sep parts
  end.

(** [s.replace("-", "")] *)
Fixpoint without_hyphens (s : string) : string :=
  match s with
  | String c rest =>
      if Ascii.eqb c hyphen then without_hyphens rest
      else String c (without_hyphens rest)
  | EmptyString => EmptyString
  end.

(** ** The window of [strava_gui.py]

    The widgets are the values they hold; [root.after(0, f)] puts [f] at
    the end of a queue that the main loop empties in order. The thread of
    a fetch is followed to its end, then the queue is run: the calls of the
    thread that are queued are the last things it does on each path. *)
Module strava_gui.

(** The message boxes. *)
Inductive dialog : Type :=
| ErrorStartAfterEnd      (* showerror("Error", "Start date must be before end date") *)
| ErrorAuth               (* showerror("Auth Error", "Check your Strava access token") *)
| InfoNoData              (* showinfo("No Data", "No activities found in this date range") *)
| ErrorInvalidDate        (* showerror("Error", "Invalid date format. Use YYYY-MM-DD") *)
| WarnNothingToExport     (* showwarning("No Data", "No activities to export") *)
| InfoExported (filepath : string)  (* showinfo("Success", "Data exported to: ...") *)
| ErrorNotExported        (* showerror("Error", "Failed to export CSV") *)
| ErrorExport (e : exn).  (* showerror("Error", "Export failed: ...") *)

(** What [root.after(0, ...)] is given. *)
Inductive callback : Type :=
| Show (d : dialog)
| DisplayPreview
| UpdateUiAfterFetch.

(** The text of the status label. *)
Inductive status : Type :=
| Ready
| Fetching
| StatusError
| Fetched (count : nat)     (* "... activities fetched" *)
| FailedOrNoData.           (* "Failed or no data" *)

(** The window: the two date entries, [self.activities], the two buttons
    (enabled or not), the labels, the preview (its text, and whether it is
    in the state [disabled]), the callbacks queued, and the message boxes
    shown so far. *)
Record gui : Type := mkGui {
  start_date_var : string;
  end_date_var : string;
  activities : list activity;
  fetch_button : bool;
  export_button : bool;
  status_label : status;
  export_status_label : option string;
  preview_text : string;
  preview_disabled : bool;
  after_queue : list callback;
  dialogs : list dialog
}.

Definition set_activities (g : gui) (l : list activity) : gui :=
  mkGui (start_date_var g) (end_date_var g) l (fetch_button g)
    (export_button g) (status_label g) (export_status_label g)
    (preview_text g) (preview_disabled g) (after_queue g) (dialogs g).

Definition set_fetch_button (g : gui) (enabled : bool) : gui :=
  mkGui (start_date_var g) (end_date_var g) (activities g) enabled
    (export_button g) (status_label g) (export_status_label g)
    (preview_text g) (preview_disabled g) (after_queue g) (dialogs g).

Definition set_export_button (g : gui) (enabled : bool) : gui :=
  mkGui (start_date_var g) (end_date_var g) (activities g) (fetch_button g)
    enabled (status_label g) (export_status_label g)
    (preview_text g) (preview_disabled g) (after_queue g) (dialogs g).

Definition set_status_label (g : gui) (s : status) : gui :=
  mkGui (start_date_var g) (end_date_var g) (activities g) (fetch_button g)
    (export_button g) s (export_status_label g)
    (preview_text g) (preview_disabled g) (after_queue g) (dialogs g).

Definition set_export_status_label (g : gui) (s : string) : gui :=
  mkGui (start_date_var g) (end_date_var g) (activities g) (fetch_button g)
    (export_button g) (status_label g) (Some s)
    (preview_text g) (preview_disabled g) (after_queue g) (dialogs g).

Definition set_preview (g : gui) (text : string) (disabled : bool) : gui :=
  mkGui (start_date_var g) (end_date_var g) (activities g) (fetch_button g)
    (export_button g) (status_label g) (export_status_label g)
    text disabled (after_queue g) (dialogs g).

Definition set_after_queue (g : gui) (q : list callback) : gui :=
  mkGui (start_date_var g) (end_date_var g) (activities g) (fetch_button g)
    (export_button g) (status_label g) (export_status_label g)
    (preview_text g) (preview_disabled g) q (dialogs g).

(** [root.after(0, f)] *)
Definition after (g : gui) (f : callback) : gui :=
  set_after_queue g (after_queue g ++ [f]).

(** A message box shown. *)
Definition show (g : gui) (d : dialog) : gui :=
  mkGui (start_date_var g) (end_date_var g) (activities g) (fetch_button g)
    (export_button g) (status_label g) (export_status_label g)
    (preview_text g) (preview_disabled g) (after_queue g) (dialogs g ++ [d]).

(** [_update_ui_after_fetch] *)
Definition _update_ui_after_fetch (g : gui) : gui :=
  let g := set_fetch_button g true in
  match activities g with
  | _ :: _ =>
      set_status_label (set_export_button g true)
        (Fetched (length (activities g)))
  | [] => set_status_label (set_export_button g false) FailedOrNoData
  end.

(** *** The preview table *)

(** What can end [_display_preview]: an exception of the normaliser, or
    the [KeyError] of a column that has no width. *)
Inductive preview_exn : Type :=
| Normaliser (e : exn)
| KeyError (key : string).

Inductive drawn (A : Type) : Type :=
| Drawn (a : A)
| Failed (e : preview_exn).
Arguments Drawn {A} a.
Arguments Failed {A} e.

#[global] Instance drawn_ret : MRet drawn := fun _ a => Drawn a.
#[global] Instance drawn_bind : MBind drawn := fun _ _ k m =>
  match m with
  | Drawn a => k a
  | Failed e => Failed e
  end.

Definition extract (a : activity) : drawn row :=
  match cutie_extractor.extract_activity_data a with
  | Ret r => Drawn r
  | Raise e => Failed (Normaliser e)
  end.

(** [col_widths[key]] *)
Definition width_of (col_widths : gmap string nat) (key : string) : drawn nat :=
  match col_widths !! key with
  | Some w => Drawn w
  | None => Failed (KeyError key)
  end.

(** [for key, value in extracted.items():
       col_widths[key] = max(col_widths[key], len(str(value)) + 2)] *)
Fixpoint widen (col_widths : gmap string nat) (items : row)
  : drawn (gmap string nat) :=
  match items with
  | [] => Drawn col_widths
  | (key, value) :: items =>
      w ← width_of col_widths key;
      widen (<[key := Nat.max w (String.length (builtin_str value) + 2)]>
               col_widths) items
  end.

(** [for activity in self.activities[:10]: ...] *)
Fixpoint widen_all (col_widths : gmap string nat) (shown : list activity)
  : drawn (gmap string nat) :=
  match shown with
  | [] => Drawn col_widths
  | activity :: shown =>
      extracted ← extract activity;
      col_widths ← widen col_widths extracted;
      widen_all col_widths shown
  end.

(** [{h: len(h) + 2 for h in headers}] *)
Fixpoint header_widths (headers : list string) (col_widths : gmap string nat)
  : gmap string nat :=
  match headers with
  | [] => col_widths
  | h :: headers => header_widths headers (<[h := (String.length h + 2)%nat]> col_widths)
  end.

(** [" | ".join(cell(h).ljust(col_widths[h]) for h in headers)] *)
Fixpoint cells (col_widths : gmap string nat) (headers : list string)
    (cell : string -> string) : drawn (list string) :=
  match headers with
  | [] => Drawn []
  | h :: headers =>
      w ← width_of col_widths h;
      rest ← cells col_widths headers cell;
      mret (ljust (cell h) w :: rest)
  end.

Definition table_line (col_widths : gmap string nat) (headers : list string)
    (cell : string -> string) : drawn string :=
  parts ← cells col_widths headers cell;
  mret (join " | " parts).

(** The rows of the first [display_count] activities. *)
Fixpoint table_rows (col_widths : gmap string nat) (headers : list string)
    (shown : list activity) : drawn (list string) :=
  match shown with
  | [] => Drawn []
  | activity :: shown =>
      extracted ← extract activity;
      line ← table_line col_widths headers
                (fun h => builtin_str (default (PyStr "") (row_get extracted h)));
      rest ← table_rows col_widths headers shown;
      mret (line :: rest)
  end.

(** The lines of the table: the header, the rule under it, the rows. *)
Definition table (activities : list activity) : drawn (list string) :=
  match activities with
  | [] => Drawn []
  | first :: _ =>
      sample_activity ← extract first;
      let headers := keys sample_activity in
      let col_widths := header_widths headers ∅ in
      col_widths ← widen_all col_widths (take 10 activities);
      header_line ← table_line col_widths headers (fun h => h);
      let display_count := Nat.min 10 (length activities) in
      rows ← table_rows col_widths headers (take display_count activities);
      mret (header_line :: times "-" (String.length header_line) :: rows)
  end.

Definition newline : string := String LF EmptyString.

(** One [insert("end", line + "\n")] after the other. *)
Fixpoint inserted (lines : list string) : string :=
  match lines with
  | [] => EmptyString
  | line :: lines => line ++ newline ++ inserted lines
  end.

(** The lines after the table: a rule, and the two counts. *)
Definition summary (total display_count : nat) : string :=
  newline ++ times "=" 80 ++ newline
  ++ "Total activities fetched: " ++ string_of_Z (Z.of_nat total) ++ newline
  ++ "Showing first " ++ string_of_Z (Z.of_nat display_count)
  ++ " activities" ++ newline.

(** [_display_preview]: the window after it, and the exception that ended
    it if one did. *)
Definition _display_preview (g : gui) : gui * option preview_exn :=
  let g := set_preview g EmptyString false in
  match activities g with
  | [] => (set_preview g "No activities to display." true, None)
  | _ :: _ =>
      match table (activities g) with
      | Failed e => (g, Some e)
      | Drawn lines =>
          let display_count := Nat.min 10 (length (activities g)) in
          (set_preview g
             (inserted lines ++ summary (length (activities g)) display_count)
             true,
           None)
      end
  end.

(** The main loop runs the callbacks queued, in order; an exception in
    one is reported and the next is run. *)
Fixpoint run_callbacks (queue : list callback) (g : gui) : gui :=
  match queue with
  | [] => g
  | Show d :: queue => run_callbacks queue (show g d)
  | DisplayPreview :: queue => run_callbacks queue (_display_preview g).1
  | UpdateUiAfterFetch :: queue => run_callbacks queue (_update_ui_after_fetch g)
  end.

Definition mainloop (g : gui) : gui :=
  run_callbacks (after_queue g) (set_after_queue g []).

Section fetching.
Variable upstream : request -> reply.
(** [int(t.timestamp())] *)
Variable timestamp : datetime -> exc Z.

(** What the thread of a fetch leaves: the window, the requests made, and
    the exception that ended the thread if one did. *)
Record fetched : Type := mkFetched {
  window : gui;
  sent : list request;
  escaped : option exn
}.

(** The [except ValueError:] and [finally:] clauses. *)
Definition ending (g : gui) (trace : list request) (raised : option exn)
  : fetched :=
  match raised with
  | Some ValueError =>
      let g := after g (Show ErrorInvalidDate) in
      let g := set_activities g [] in
      mkFetched (after g UpdateUiAfterFetch) trace None
  | raised => mkFetched (after g UpdateUiAfterFetch) trace raised
  end.

(** [_fetch_activities_thread]; [None] when the fuel of the fetch runs
    out. *)
Definition _fetch_activities_thread (fuel : nat) (g : gui) : option fetched :=
  match strptime_Y_m_d (start_date_var g) with
  | Raise e => Some (ending g [] (Some e))
  | Ret start_date =>
    match strptime_Y_m_d (end_date_var g) with
    | Raise e => Some (ending g [] (Some e))
    | Ret end_date =>
      if datetime_gt start_date end_date
      then
        let g := after g (Show ErrorStartAfterEnd) in
        let g := set_fetch_button g true in
        let g := set_status_label g StatusError in
        Some (ending g [] None)
      else
        match timestamp start_date with
        | Raise e => Some (ending g [] (Some e))
        | Ret after_ =>
          match timestamp end_date with
          | Raise e => Some (ending g [] (Some e))
          | Ret before_ =>
            match cutie_extractor.get_activities fuel upstream after_ before_
                    200 None with
            | None => None
            | Some o =>
              match returned o with
              | Raise e => Some (ending g (requests o) (Some e))
              | Ret None =>
                  let g := after g (Show ErrorAuth) in
                  Some (ending (set_activities g []) (requests o) None)
              | Ret (Some (x :: l)) =>
                  let g := set_activities g (x :: l) in
                  Some (ending (after g DisplayPreview) (requests o) None)
              | Ret (Some []) =>
                  let g := after g (Show InfoNoData) in
                  Some (ending (set_activities g []) (requests o) None)
              end
            end
          end
        end
    end
  end.

(** A click on the fetch button, to the end of what it sets off:
    [fetch_activities], the thread, and the callbacks it queued. *)
Definition fetch_activities (fuel : nat) (g : gui) : option fetched :=
  let g := set_fetch_button g false in
  let g := set_export_button g false in
  let g := set_status_label g Fetching in
  match _fetch_activities_thread fuel g with
  | None => None
  | Some f => Some (mkFetched (mainloop (window f)) (sent f) (escaped f))
  end.
End fetching.

Section exporting.
(** [str(Path.home() / "Downloads" / filename)] *)
Variable in_downloads : string -> string.

(** [export_csv], a click on the export button. *)
Definition export_csv (g : gui) (fs : filesystem) : gui * filesystem :=
  match activities g with
  | [] => (show g WarnNothingToExport, fs)
  | _ :: _ =>
    let start_date := without_hyphens (start_date_var g) in
    let end_date := without_hyphens (end_date_var g) in
    let filename :=
      ("strava_" ++ start_date ++ "_" ++ end_date ++ ".csv")%string in
    let filepath := in_downloads filename in
    match cutie_extractor.export_to_csv (activities g) filepath fs with
    | (Ret true, fs) =>
        (show (set_export_status_label g filepath) (InfoExported filepath), fs)
    | (Ret false, fs) => (show g ErrorNotExported, fs)
    | (Raise e, fs) => (show g (ErrorExport e), fs)
    end
  end.
End exporting.

(** *** Vocabulary for the statements about the window *)

(** The buttons and the status as [_update_ui_after_fetch] leaves them,
    with no callback left to run. *)
Definition settled (g : gui) : Prop :=
  fetch_button g = true
  /\ export_button g = negb (bool_decide (activities g = []))
  /\ status_label g
     = match activities g with
       | [] => FailedOrNoData
       | _ :: _ => Fetched (length (activities g))
       end
  /\ after_queue g = [].

End strava_gui.

(** *** Vocabulary for the statements about the table *)

(** The width of a line of the table: the widths of its columns and the
    separators between them. *)
Definition line_width (col_widths : gmap string nat) (headers : list string)
  : nat :=
  (sum_list (map (fun h => default 0%nat (col_widths !! h)) headers)
   + 3 * (length headers - 1))%nat.

(** Every column has a width, and the cell of each fits in it. *)
Definition fits_columns (col_widths : gmap string nat) (headers : list string)
    (cell : string -> string) : Prop :=
  forall h, h ∈ headers ->
    exists w, col_widths !! h = Some w /\ (String.length (cell h) <= w)%nat.

(** The widths have grown. *)
Definition wider (w w' : gmap string nat) : Prop :=
  forall k n, w !! k = Some n -> exists n', w' !! k = Some n' /\ (n <= n')%nat.

(** The cells of the rows of these activities fit in the columns. *)
Definition rows_fit (w : gmap string nat) (shown : list activity) : Prop :=
  forall a r, a ∈ shown -> strava_gui.extract a = strava_gui.Drawn r ->
    fits_columns w (field_names compact_fields)
      (fun h => builtin_str (default (PyStr "") (row_get r h))).

(** *** Sample windows *)

(** A window with nothing fetched and the dates of a week in November, and
    one with the dates swapped that holds the run of an earlier fetch. *)
Definition fresh_window : strava_gui.gui :=
  strava_gui.mkGui "2025-11-17" "2025-11-24" [] true false strava_gui.Ready None
    "No data fetched yet. Click 'Fetch Activities' to start." true [] [].

Definition swapped_dates : strava_gui.gui :=
  strava_gui.mkGui "2025-11-24" "2025-11-17" [morning_run] true true
    (strava_gui.Fetched 1) None "" true [] [].

(** [~/Downloads/filename] for the home [/home/me]. *)
Definition my_downloads (filename : string) : string :=
  "/home/me/Downloads/" ++ filename.

(** ** The window of [cutie-extractor.py]

    The state is the attributes of the [StravaGUI]; what is done to the
    widgets, the message boxes shown, the lines printed and the threads
    started are kept as a log, in order. A thread that fetches ends by
    queueing [_handle_fetch_result] with what it fetched. *)
Module cutie_gui.

(** [int(s)] for a text of digits: [ValueError] on the empty text, on a
    character that is not an ASCII digit, and on more than 4300 digits. *)
Fixpoint digits_value (s : string) (acc : Z) : option Z :=
  match s with
  | EmptyString => Some acc
  | String c rest =>
      if is_digit c then digits_value rest (10 * acc + digit c) else None
  end.

Definition int (s : string) : exc Z :=
  match s with
  | EmptyString => Raise ValueError
  | _ =>
      if (4300 <? String.length s)%nat then Raise ValueError
      else match digits_value s 0 with
           | Some n => Ret n
           | None => Raise ValueError
           end
  end.

(** [ch.isdigit()] on an 8-bit character: the ASCII digits and the
    superscripts 1, 2 and 3. *)
Definition isdigit (c : ascii) : bool :=
  is_digit c || (code c =? 178) || (code c =? 179) || (code c =? 185).

(** [s.isdigit()]: some characters, all of them digits. *)
Fixpoint all_isdigit (s : string) : bool :=
  match s with
  | EmptyString => true
  | String c rest => isdigit c && all_isdigit rest
  end.

Definition str_isdigit (s : string) : bool :=
  negb (String.eqb s EmptyString) && all_isdigit s.

(** [s[:-1]] *)
Fixpoint but_last (s : string) : string :=
  match s with
  | EmptyString => EmptyString
  | String c EmptyString => EmptyString
  | String c rest => String c (but_last rest)
  end.

(** An exception that leaves a handler: Tk reports it and goes on. *)
Inductive raised : Type :=
| Exn (e : exn)
| IndexError
| AttributeError.

(** What a handler does to the world outside the attributes. *)
Inductive effect : Type :=
| RenderMenu (cursor : Z)                     (* render_menu() *)
| RenderPreviewTable (count : nat) (start_date end_date : datetime) (choice : Z)
                                              (* _render_preview_table(...) *)
| InsertAuthError                             (* "Auth Error: Check your access token." *)
| InsertNoActivities                          (* "No activities found for the selected range." *)
| InsertPrompt                                (* "Enter number of days back (integer): " *)
| InsertInvalidNumber                         (* "Invalid number. Cancelling." *)
| InsertText (s : string)                     (* the digits typed *)
| DeleteLastChar                              (* terminal.delete("end-2c", END) *)
| ShowLoading                                 (* the loading window opened *)
| HideLoading                                 (* the loading window destroyed *)
| StartThread (start_date end_date : datetime) (* Thread(_fetch_activities_thread_range) *)
| WarnNoData                                  (* showwarning("No Data", ...) *)
| InfoExported (filepath : string)            (* showinfo("Exported", ...) *)
| ErrorExport                                 (* showerror("Error", "Failed to export CSV") *)
| ClearTerminal                               (* terminal.delete("1.0", END) *)
| PrintExportError (e : raised)               (* print("Export error:", e) *)
| Reported (e : raised).                      (* an exception that left the handler *)

Record gui : Type := mkGui {
  selected_option : Z;
  preview_mode : bool;
  preview_choice : Z;
  preview_start : option datetime;
  preview_end : option datetime;
  preview_activities : list activity;
  activities : list activity;
  custom_input : string;
  key_bound : bool;             (* '<Key>' is bound to _on_custom_key *)
  loading_win : bool;
  ticks : nat;                  (* the readings of the clock so far *)
  disk : filesystem;
  done : list effect
}.

Definition did (g : gui) (e : effect) : gui :=
  mkGui (selected_option g) (preview_mode g) (preview_choice g)
    (preview_start g) (preview_end g) (preview_activities g) (activities g)
    (custom_input g) (key_bound g) (loading_win g) (ticks g) (disk g)
    (done g ++ [e]).

Definition set_selected_option (g : gui) (k : Z) : gui :=
  mkGui k (preview_mode g) (preview_choice g)
    (preview_start g) (preview_end g) (preview_activities g) (activities g)
    (custom_input g) (key_bound g) (loading_win g) (ticks g) (disk g) (done g).

Definition set_preview_choice (g : gui) (k : Z) : gui :=
  mkGui (selected_option g) (preview_mode g) k
    (preview_start g) (preview_end g) (preview_activities g) (activities g)
    (custom_input g) (key_bound g) (loading_win g) (ticks g) (disk g) (done g).

Definition set_preview_mode (g : gui) (b : bool) : gui :=
  mkGui (selected_option g) b (preview_choice g)
    (preview_start g) (preview_end g) (preview_activities g) (activities g)
    (custom_input g) (key_bound g) (loading_win g) (ticks g) (disk g) (done g).

Definition set_activities (g : gui) (l : list activity) : gui :=
  mkGui (selected_option g) (preview_mode g) (preview_choice g)
    (preview_start g) (preview_end g) (preview_activities g) l
    (custom_input g) (key_bound g) (loading_win g) (ticks g) (disk g) (done g).

Definition set_preview (g : gui) (start_date end_date : datetime)
    (l : list activity) : gui :=
  mkGui (selected_option g) (preview_mode g) (preview_choice g)
    (Some start_date) (Some end_date) l (activities g)
    (custom_input g) (key_bound g) (loading_win g) (ticks g) (disk g) (done g).

Definition set_custom_input (g : gui) (s : string) : gui :=
  mkGui (selected_option g) (preview_mode g) (preview_choice g)
    (preview_start g) (preview_end g) (preview_activities g) (activities g)
    s (key_bound g) (loading_win g) (ticks g) (disk g) (done g).

Definition set_key_bound (g : gui) (b : bool) : gui :=
  mkGui (selected_option g) (preview_mode g) (preview_choice g)
    (preview_start g) (preview_end g) (preview_activities g) (activities g)
    (custom_input g) b (loading_win g) (ticks g) (disk g) (done g).

Definition set_loading_win (g : gui) (b : bool) : gui :=
  mkGui (selected_option g) (preview_mode g) (preview_choice g)
    (preview_start g) (preview_end g) (preview_activities g) (activities g)
    (custom_input g) (key_bound g) b (ticks g) (disk g) (done g).

Definition set_disk (g : gui) (fs : filesystem) : gui :=
  mkGui (selected_option g) (preview_mode g) (preview_choice g)
    (preview_start g) (preview_end g) (preview_activities g) (activities g)
    (custom_input g) (key_bound g) (loading_win g) (ticks g) fs (done g).

Definition tick (g : gui) : gui :=
  mkGui (selected_option g) (preview_mode g) (preview_choice g)
    (preview_start g) (preview_end g) (preview_activities g) (activities g)
    (custom_input g) (key_bound g) (loading_win g) (S (ticks g)) (disk g)
    (done g).

(** [len(self.quick_options)] *)
Definition options : Z := 4.

(** The attributes as [setup_ui] sets them, the menu rendered. *)
Definition setup_ui (fs : filesystem) : gui :=
  mkGui 0 false 0 None None [] [] EmptyString false false 0 fs [RenderMenu 0].

Definition render_menu (g : gui) : gui := did g (RenderMenu (selected_option g)).

(** A handler ends by returning, or by an exception after what it did. *)
Definition handled : Type := gui * option raised.

(** [_render_preview_table(self.preview_activities, self.preview_start,
    self.preview_end)]: the terminal is cleared, then the title formats the
    two dates. *)
Definition render_preview (g : gui) : handled :=
  match preview_start g, preview_end g with
  | Some start_date, Some end_date =>
      (did g (RenderPreviewTable (length (preview_activities g)) start_date
                end_date (preview_choice g)), None)
  | _, _ => (did g ClearTerminal, Some AttributeError)
  end.

(** [on_up] *)
Definition on_up (g : gui) : handled :=
  if preview_mode g then
    let g :=
      if 0 <? preview_choice g
      then set_preview_choice g (preview_choice g - 1) else g in
    render_preview g
  else
    if 0 <? selected_option g
    then (render_menu (set_selected_option g (selected_option g - 1)), None)
    else (g, None).

(** [on_down] *)
Definition on_down (g : gui) : handled :=
  if preview_mode g then
    let g :=
      if preview_choice g <? 1
      then set_preview_choice g (preview_choice g + 1) else g in
    render_preview g
  else
    if selected_option g <? options - 1
    then (render_menu (set_selected_option g (selected_option g + 1)), None)
    else (g, None).

Definition show_loading (g : gui) : gui :=
  if loading_win g then g else did (set_loading_win g true) ShowLoading.

Definition hide_loading (g : gui) : gui :=
  if loading_win g then did (set_loading_win g false) HideLoading else g.

Section handlers.
(** [datetime.now()] at its first, second, ... call. *)
Variable now : nat -> datetime.
(** [t.strftime('%Y%m%d')] *)
Variable strftime_Ymd : datetime -> string.
(** [str(Path.home() / "Downloads" / filename)] *)
Variable in_downloads : string -> string.

(** [end = datetime.now(); start = end - timedelta(days=days)], the loading
    window, and the thread. *)
Definition fetch_days_back (g : gui) (days : Z) : handled :=
  let end_date := now (ticks g) in
  let g := tick g in
  match minus_days end_date days with
  | Raise e => (g, Some (Exn e))
  | Ret start_date =>
      (did (show_loading g) (StartThread start_date end_date), None)
  end.

Definition select_days (g : gui) (days : Z) : handled := fetch_days_back g days.

Definition set_this_month (g : gui) : handled := fetch_days_back g 30.

(** [start = datetime.now() - timedelta(days=3650); end = datetime.now()] *)
Definition select_all_time (g : gui) : handled :=
  let first := now (ticks g) in
  let g := tick g in
  match minus_days first 3650 with
  | Raise e => (g, Some (Exn e))
  | Ret start_date =>
      let end_date := now (ticks g) in
      let g := tick g in
      (did (show_loading g) (StartThread start_date end_date), None)
  end.

Definition prompt_custom_days (g : gui) : handled :=
  let g := did g InsertPrompt in
  (set_key_bound (set_custom_input g EmptyString) true, None).

(** [label, action = self.quick_options[self.selected_option]], with the
    indices below zero counted from the end. *)
Definition quick_option (k : Z) : option (gui -> handled) :=
  let k := if k <? 0 then k + options else k in
  match k with
  | 0 => Some (fun g => select_days g 7)
  | 1 => Some set_this_month
  | 2 => Some select_all_time
  | 3 => Some prompt_custom_days
  | _ => None
  end.

(** [export_preview_csv] *)
Definition export_preview_csv (g : gui) (activities : list activity)
    (start_date end_date : option datetime) : handled :=
  match activities with
  | [] => (did g WarnNoData, None)
  | _ :: _ =>
    match start_date, end_date with
    | Some start_date, Some end_date =>
      let filename :=
        ("strava_" ++ strftime_Ymd start_date ++ "_" ++ strftime_Ymd end_date
         ++ ".csv")%string in
      let filepath := in_downloads filename in
      match cutie_extractor.export_to_csv activities filepath (disk g) with
      | (Ret true, fs) => (did (set_disk g fs) (InfoExported filepath), None)
      | (Ret false, fs) => (did (set_disk g fs) ErrorExport, None)
      | (Raise e, fs) => (set_disk g fs, Some (Exn e))
      end
    | _, _ => (g, Some AttributeError)
    end
  end.

(** [on_enter] *)
Definition on_enter (g : gui) : handled :=
  if preview_mode g then
    if preview_choice g =? 0 then
      match export_preview_csv g (preview_activities g) (preview_start g)
              (preview_end g) with
      | (g, Some e) => (did g (PrintExportError e), None)
      | r => r
      end
    else
      (render_menu (set_preview_choice (set_preview_mode g false) 0), None)
  else
    match quick_option (selected_option g) with
    | None => (g, Some IndexError)
    | Some action =>
        match action g with
        | (g, Some (Exn TypeError)) => action g
        | r => r
        end
    end.

(** The keys [_on_custom_key] tells apart. *)
Inductive key : Type :=
| KeyReturn
| KeyBackSpace
| KeyOther (char : string).      (* event.char, empty for a key without one *)

(** [_on_custom_key] *)
Definition _on_custom_key (g : gui) (event : key) : handled :=
  match event with
  | KeyReturn =>
      match int (strip (custom_input g)) with
      | Raise _ =>
          let g := did g InsertInvalidNumber in
          (render_menu (set_key_bound g false), None)
      | Ret days => fetch_days_back (set_key_bound g false) days
      end
  | KeyBackSpace =>
      match custom_input g with
      | EmptyString => (g, None)
      | _ =>
          (did (set_custom_input g (but_last (custom_input g))) DeleteLastChar,
           None)
      end
  | KeyOther ch =>
      if str_isdigit ch
      then (did (set_custom_input g (custom_input g ++ ch)) (InsertText ch),
            None)
      else (g, None)
  end.

(** [_handle_fetch_result]; [None] for the activities is the [None] of
    [get_activities]. *)
Definition _handle_fetch_result (g : gui) (fetched : option (list activity))
    (start_date end_date : datetime) : handled :=
  let g := hide_loading g in
  match fetched with
  | None => (set_activities (did g InsertAuthError) [], None)
  | Some (x :: l) =>
      let g := set_activities g (x :: l) in
      let g := set_preview_mode g true in
      let g := set_preview_choice g 0 in
      let g := set_preview g start_date end_date (x :: l) in
      (did g (RenderPreviewTable (length (x :: l)) start_date end_date
                (preview_choice g)), None)
  | Some [] => (did (set_activities g []) InsertNoActivities, None)
  end.

(** An exception that leaves a handler is reported, and the window is as
    the handler left it. *)
Definition report (r : handled) : gui :=
  match r with
  | (g, None) => g
  | (g, Some e) => did g (Reported e)
  end.

(** A call of a handler by the main loop. *)
Inductive event : Type :=
| Up
| Down
| Enter
| CustomKey (k : key)
| FetchResult (fetched : option (list activity)) (start_date end_date : datetime).

Definition handle (g : gui) (e : event) : gui :=
  match e with
  | Up => report (on_up g)
  | Down => report (on_down g)
  | Enter => report (on_enter g)
  | CustomKey k => report (_on_custom_key g k)
  | FetchResult fetched start_date end_date =>
      report (_handle_fetch_result g fetched start_date end_date)
  end.

(** The window after a sequence of calls. *)
Definition mainloop (g : gui) (events : list event) : gui :=
  fold_left handle events g.
End handlers.

Section fetching.
Variable upstream : request -> reply.
Variable timestamp : datetime -> exc Z.

(** [_fetch_activities_thread_range]: what it hands to
    [_handle_fetch_result], and the requests it made; every exception is
    caught and gives the empty list. [None] when the fuel of the fetch runs
    out. *)
Definition _fetch_activities_thread_range (fuel : nat)
    (start_date end_date : datetime)
  : option (option (list activity) * list request) :=
  match timestamp start_date with
  | Raise _ => Some (Some [], [])
  | Ret after =>
    match timestamp end_date with
    | Raise _ => Some (Some [], [])
    | Ret before =>
      match cutie_extractor.get_activities fuel upstream after before 200
              None with
      | None => None
      | Some o =>
          match returned o with
          | Ret fetched => Some (fetched, requests o)
          | Raise _ => Some (Some [], requests o)
          end
      end
    end
  end.
End fetching.

(** *** Vocabulary for the statements about the window *)

(** The cursors are on an entry of their menus, and in preview mode the
    preview holds records and its two dates. *)
Definition well_formed (g : gui) : Prop :=
  0 <= selected_option g < options
  /\ 0 <= preview_choice g <= 1
  /\ (preview_mode g = true ->
      preview_activities g <> []
      /\ is_Some (preview_start g) /\ is_Some (preview_end g)).

(** The effects a well-formed window does not have: an exception for an
    entry that is not there or for a preview without its dates, and the
    warning that there is nothing to export. *)
Definition harmless (e : effect) : Prop :=
  e <> Reported IndexError /\ e <> Reported AttributeError
  /\ e <> PrintExportError AttributeError /\ e <> WarnNoData.

Definition no_lookup_error (g : gui) : Prop := Forall harmless (done g).

(** [g'] is [g] after some harmless effects. *)
Definition went_well (g g' : gui) : Prop :=
  exists effects, done g' = done g ++ effects /\ Forall harmless effects.

(** The attributes that [well_formed] is about. *)
Definition menu_state (g : gui) :=
  (selected_option g, preview_mode g, preview_choice g, preview_start g,
   preview_end g, preview_activities g).

(** What a handler does to a well-formed window. *)
Definition handler_ok (g : gui) (h : handled) : Prop :=
  well_formed h.1 /\ went_well g h.1
  /\ h.2 <> Some IndexError /\ h.2 <> Some AttributeError.

End cutie_gui.


(** * Properties *)

(** ** Sanity checks of the arithmetic *)

Example float_3_6_is_36_tenths : int_truediv 36 10 = Ret float_3_6.
Proof. reflexivity. Qed.

Example float_of_int_largest :
  float_of_int (float_overflow - 1) = Ret (S754_finite false 9007199254740991 971)
  /\ binary_normalize prec emax float_overflow 0 false = S754_infinity false.
Proof. split; vm_compute; reflexivity. Qed.

(** [round] keeps the digits nearest to the binary value: ties go to the
    even digit (0.125 gives 0.12), and 2.675, which is stored below its
    decimal reading, gives 2.67. *)
Example round_half_even :
  (x ← int_truediv 125 1000; mret (float_round x 2)) = int_truediv 12 100
  /\ (x ← int_truediv 2675 1000; mret (float_round x 2)) = int_truediv 267 100.
Proof. split; vm_compute; reflexivity. Qed.

(** ** The pagination loop *)

Section loop_facts.
Variable upstream : request -> reply.
Variables (after before per_page : Z) (max_activities : option Z).

Local Abbreviation served := (page_of upstream after before per_page).
Local Abbreviation failed := (page_error upstream after before per_page).
Local Abbreviation crashed := (page_crash upstream after before per_page).
Local Abbreviation held :=
  (accumulated upstream after before per_page max_activities).
Local Abbreviation asked := (page_requests after before per_page).
Local Abbreviation ask := (page_request after before per_page).
Local Abbreviation lines :=
  (page_lines upstream after before per_page max_activities).
Local Abbreviation cli_try :=
  (strava_extractor.try_page upstream after before per_page max_activities).
Local Abbreviation cli_loop :=
  (strava_extractor.loop upstream after before per_page max_activities).
Local Abbreviation cli_finish := strava_extractor.finish.
Local Abbreviation gui_try :=
  (cutie_extractor.try_page upstream after before per_page max_activities).
Local Abbreviation gui_loop :=
  (cutie_extractor.loop upstream after before per_page max_activities).

Lemma page_requests_S n :
  asked (S n) = asked n ++ [ask (Z.of_nat (S n))].
Proof.
  unfold page_requests. rewrite seq_S, map_app. reflexivity.
Qed.

(** Unfold one pass of the loop body down to the reply, its status and its
    body. *)
Ltac open_page :=
  unfold page_of, page_error, page_crash, strava_extractor.try_page,
    cutie_extractor.try_page, requests_get, raise_for_status, response_json,
    page_request in *;
  destruct (upstream _) as [?e|?r]; cbn [mbind exc_bind mret exc_ret] in *;
  [|destruct (status_code _ =? 401) eqn:?;
    destruct (status_code _ =? 429) eqn:?;
    destruct ((400 <=? status_code _) && (status_code _ <? 600)) eqn:?;
    cbn [mbind exc_bind mret exc_ret orb] in *; try discriminate;
    try (destruct (body _) as [[[|? ?]| |]| | |];
         cbn [mbind exc_bind mret exc_ret] in *)];
  try discriminate.

Lemma cli_try_next acts p x b :
  served p = Some (x :: b) ->
  limit_reached max_activities (acts ++ x :: b) = false ->
  cli_try acts p
  = Ret (Next (acts ++ x :: b),
         [MsgPage p (length (x :: b)) (length (acts ++ x :: b))]).
Proof.
  intros Hp Hl. open_page. injection Hp as -> ->. rewrite Hl. reflexivity.
Qed.

Lemma gui_try_next acts p x b :
  served p = Some (x :: b) ->
  limit_reached max_activities (acts ++ x :: b) = false ->
  gui_try acts p = Ret (Next (acts ++ x :: b)).
Proof.
  intros Hp Hl. open_page. injection Hp as -> ->. rewrite Hl. reflexivity.
Qed.

Lemma cli_try_limit acts p x b :
  served p = Some (x :: b) ->
  limit_reached max_activities (acts ++ x :: b) = true ->
  cli_try acts p
  = Ret (Break (slice_to (acts ++ x :: b) (default 0 max_activities)), []).
Proof.
  intros Hp Hl. open_page. injection Hp as -> ->. rewrite Hl. reflexivity.
Qed.

Lemma gui_try_limit acts p x b :
  served p = Some (x :: b) ->
  limit_reached max_activities (acts ++ x :: b) = true ->
  gui_try acts p
  = Ret (Break (slice_to (acts ++ x :: b) (default 0 max_activities))).
Proof.
  intros Hp Hl. open_page. injection Hp as -> ->. rewrite Hl. reflexivity.
Qed.

Lemma cli_try_empty acts p :
  served p = Some [] -> cli_try acts p = Ret (Break acts, []).
Proof. intros Hp. open_page; reflexivity. Qed.

Lemma gui_try_empty acts p :
  served p = Some [] -> gui_try acts p = Ret (Break acts).
Proof. intros Hp. open_page; reflexivity. Qed.

Lemma cli_try_error acts p e :
  failed p = Some e -> cli_try acts p = Raise (RequestException e).
Proof. intros Hp. open_page; congruence. Qed.

Lemma gui_try_error acts p e :
  failed p = Some e -> gui_try acts p = Raise (RequestException e).
Proof. intros Hp. open_page; congruence. Qed.

(** A body that [response.json()] or [extend] raises on: the exception is
    not a [RequestException], and leaves the body of [try:]. *)
Lemma cli_try_crash acts p e :
  crashed p = Some e -> cli_try acts p = Raise e.
Proof. intros Hp. open_page; congruence. Qed.

Lemma gui_try_crash acts p e :
  crashed p = Some e -> gui_try acts p = Raise e.
Proof. intros Hp. open_page; congruence. Qed.

Lemma page_crash_kinds p e :
  crashed p = Some e -> e = TypeError \/ e = ValueError \/ e = RecursionError.
Proof. intros Hp. open_page; injection Hp as <-; auto. Qed.

Lemma cli_try_401 acts p r :
  upstream (ask p) = Answers r -> status_code r = 401 ->
  cli_try acts p = Ret (Return [], [MsgAuthFailed]).
Proof.
  intros Hr Hs. unfold strava_extractor.try_page, requests_get.
  fold (ask p). rewrite Hr. cbn [mbind exc_bind]. rewrite Hs.
  reflexivity.
Qed.

Lemma gui_try_401 acts p r :
  upstream (ask p) = Answers r -> status_code r = 401 ->
  gui_try acts p = Ret (Return None).
Proof.
  intros Hr Hs. unfold cutie_extractor.try_page, requests_get.
  fold (ask p). rewrite Hr. cbn [mbind exc_bind]. rewrite Hs.
  reflexivity.
Qed.

(** The body of [try:] raises a [RequestException], or what a body that is
    not an array of records makes [response.json()] or [extend] raise. *)
Lemma cli_try_raises acts p e :
  cli_try acts p = Raise e ->
  (exists r, failed p = Some r /\ e = RequestException r)
  \/ crashed p = Some e.
Proof.
  intros Hp. open_page; try (destruct (limit_reached _ _); discriminate);
    injection Hp as <-; eauto.
Qed.

Lemma gui_try_raises acts p e :
  gui_try acts p = Raise e ->
  (exists r, failed p = Some r /\ e = RequestException r)
  \/ crashed p = Some e.
Proof.
  intros Hp. open_page; try (destruct (limit_reached _ _); discriminate);
    injection Hp as <-; eauto.
Qed.

(** An exception that leaves [get_activities] is one that a body raised:
    never a [RequestException]. *)
Lemma cli_loop_catches fuel : forall acts p trace log o e,
  cli_loop fuel acts p trace log = Some o ->
  returned o = Raise e ->
  e = TypeError \/ e = ValueError \/ e = RecursionError.
Proof.
  induction fuel as [|fuel IH]; intros acts p trace log o e; [discriminate|].
  cbn [strava_extractor.loop].
  destruct (cli_try acts p) as [[[v|acts'|acts'] msgs]|e'] eqn:Htry.
  - intros [= <-]. discriminate.
  - intros [= <-]. discriminate.
  - apply IH.
  - destruct (cli_try_raises _ _ _ Htry) as [(r & _ & ->)|Hc].
    + intros [= <-]. discriminate.
    + pose proof (page_crash_kinds _ _ Hc) as Hk.
      destruct Hk as [-> | [-> | ->]]; intros [= <-] [= <-]; auto.
Qed.

Lemma gui_loop_catches fuel : forall acts p trace o e,
  gui_loop fuel acts p trace = Some o ->
  returned o = Raise e ->
  e = TypeError \/ e = ValueError \/ e = RecursionError.
Proof.
  induction fuel as [|fuel IH]; intros acts p trace o e; [discriminate|].
  cbn [cutie_extractor.loop].
  destruct (gui_try acts p) as [[v|acts'|acts']|e'] eqn:Htry.
  - intros [= <-]. discriminate.
  - intros [= <-]. discriminate.
  - apply IH.
  - destruct (gui_try_raises _ _ _ Htry) as [(r & _ & ->)|Hc].
    + intros [= <-]. discriminate.
    + pose proof (page_crash_kinds _ _ Hc) as Hk.
      destruct Hk as [-> | [-> | ->]]; intros [= <-] [= <-]; auto.
Qed.

Lemma accumulated_S n acc :
  held (S n) = Some acc ->
  exists acc' x b,
    held n = Some acc' /\ served (Z.of_nat (S n)) = Some (x :: b)
    /\ limit_reached max_activities (acc' ++ x :: b) = false
    /\ acc = acc' ++ x :: b.
Proof.
  cbn [accumulated].
  destruct (held n) as [acc'|]; [|discriminate].
  destruct (served _) as [[|x b]|]; try discriminate.
  destruct (limit_reached _ _) eqn:Hl; [discriminate|].
  intros [= <-]. exists acc', x, b. auto.
Qed.

(** While the pages let it, the loop accumulates them. *)
Lemma cli_loop_accumulated n : forall acc fuel trace log,
  held n = Some acc ->
  cli_loop (n + fuel) [] 1 trace log
  = cli_loop fuel acc (Z.of_nat n + 1) (trace ++ asked n)
      (log ++ lines n).
Proof.
  induction n as [|n IH]; intros acc fuel trace log Hacc.
  - injection Hacc as <-. cbn. rewrite !app_nil_r. reflexivity.
  - destruct (accumulated_S _ _ Hacc) as (acc' & x & b & Hn & Hp & Hl & ->).
    replace (S n + fuel)%nat with (n + S fuel)%nat by lia.
    rewrite (IH acc' (S fuel) trace log Hn).
    cbn [strava_extractor.loop].
    replace (Z.of_nat n + 1) with (Z.of_nat (S n)) by lia.
    rewrite (cli_try_next _ _ _ _ Hp Hl).
    rewrite page_requests_S. cbn [page_lines].
    rewrite Hp, Hacc. cbn [default].
    rewrite <- !app_assoc.
    reflexivity.
Qed.

Lemma gui_loop_accumulated n : forall acc fuel trace,
  held n = Some acc ->
  gui_loop (n + fuel) [] 1 trace
  = gui_loop fuel acc (Z.of_nat n + 1) (trace ++ asked n).
Proof.
  induction n as [|n IH]; intros acc fuel trace Hacc.
  - injection Hacc as <-. cbn. rewrite !app_nil_r. reflexivity.
  - destruct (accumulated_S _ _ Hacc) as (acc' & x & b & Hn & Hp & Hl & ->).
    replace (S n + fuel)%nat with (n + S fuel)%nat by lia.
    rewrite (IH acc' (S fuel) trace Hn).
    cbn [cutie_extractor.loop].
    replace (Z.of_nat n + 1) with (Z.of_nat (S n)) by lia.
    rewrite (gui_try_next _ _ _ _ Hp Hl).
    rewrite page_requests_S, <- !app_assoc. reflexivity.
Qed.

Lemma cli_loop_401 fuel acts p trace log r :
  upstream (ask p) = Answers r -> status_code r = 401 ->
  cli_loop (S fuel) acts p trace log
  = Some (mkOutcome (Ret []) (trace ++ [ask p]) (log ++ [MsgAuthFailed])).
Proof.
  intros Hr Hs. cbn [strava_extractor.loop].
  rewrite (cli_try_401 _ _ _ Hr Hs). reflexivity.
Qed.

Lemma gui_loop_401 fuel acts p trace r :
  upstream (ask p) = Answers r -> status_code r = 401 ->
  gui_loop (S fuel) acts p trace
  = Some (mkOutcome (Ret None) (trace ++ [ask p]) []).
Proof.
  intros Hr Hs. cbn [cutie_extractor.loop].
  rewrite (gui_try_401 _ _ _ Hr Hs). reflexivity.
Qed.

Lemma cli_loop_error fuel acts p trace log e :
  failed p = Some e ->
  cli_loop (S fuel) acts p trace log
  = Some (mkOutcome (Ret acts) (trace ++ [ask p])
            (log ++ [MsgRequestFailed e; MsgTotal (length acts)])).
Proof.
  intros He. cbn [strava_extractor.loop]. rewrite (cli_try_error _ _ _ He).
  unfold strava_extractor.finish. rewrite <- app_assoc. reflexivity.
Qed.

Lemma gui_loop_error fuel acts p trace e :
  failed p = Some e ->
  gui_loop (S fuel) acts p trace
  = Some (mkOutcome (Ret (Some acts)) (trace ++ [ask p]) []).
Proof.
  intros He. cbn [cutie_extractor.loop]. rewrite (gui_try_error _ _ _ He).
  reflexivity.
Qed.

Lemma cli_loop_crash fuel acts p trace log e :
  crashed p = Some e ->
  cli_loop (S fuel) acts p trace log
  = Some (mkOutcome (Raise e) (trace ++ [ask p]) log).
Proof.
  intros He. cbn [strava_extractor.loop]. rewrite (cli_try_crash _ _ _ He).
  destruct (page_crash_kinds _ _ He) as [-> | [-> | ->]]; reflexivity.
Qed.

Lemma gui_loop_crash fuel acts p trace e :
  crashed p = Some e ->
  gui_loop (S fuel) acts p trace
  = Some (mkOutcome (Raise e) (trace ++ [ask p]) []).
Proof.
  intros He. cbn [cutie_extractor.loop]. rewrite (gui_try_crash _ _ _ He).
  destruct (page_crash_kinds _ _ He) as [-> | [-> | ->]]; reflexivity.
Qed.

Lemma cli_loop_empty fuel acts p trace log :
  served p = Some [] ->
  cli_loop (S fuel) acts p trace log
  = Some (mkOutcome (Ret acts) (trace ++ [ask p])
            (log ++ [MsgTotal (length acts)])).
Proof.
  intros Hp. cbn [strava_extractor.loop]. rewrite (cli_try_empty _ _ Hp).
  unfold strava_extractor.finish. rewrite app_nil_r. reflexivity.
Qed.

Lemma gui_loop_empty fuel acts p trace :
  served p = Some [] ->
  gui_loop (S fuel) acts p trace
  = Some (mkOutcome (Ret (Some acts)) (trace ++ [ask p]) []).
Proof.
  intros Hp. cbn [cutie_extractor.loop]. rewrite (gui_try_empty _ _ Hp).
  reflexivity.
Qed.

Lemma cli_loop_limit fuel acts p trace log x b :
  served p = Some (x :: b) ->
  limit_reached max_activities (acts ++ x :: b) = true ->
  cli_loop (S fuel) acts p trace log
  = Some (mkOutcome
            (Ret (slice_to (acts ++ x :: b) (default 0 max_activities)))
            (trace ++ [ask p])
            (log ++ [MsgTotal (length (slice_to (acts ++ x :: b)
                                         (default 0 max_activities)))])).
Proof.
  intros Hp Hl. cbn [strava_extractor.loop].
  rewrite (cli_try_limit _ _ _ _ Hp Hl).
  unfold strava_extractor.finish. rewrite app_nil_r. reflexivity.
Qed.

Lemma gui_loop_limit fuel acts p trace x b :
  served p = Some (x :: b) ->
  limit_reached max_activities (acts ++ x :: b) = true ->
  gui_loop (S fuel) acts p trace
  = Some (mkOutcome
            (Ret (Some (slice_to (acts ++ x :: b) (default 0 max_activities))))
            (trace ++ [ask p]) []).
Proof.
  intros Hp Hl. cbn [cutie_extractor.loop].
  rewrite (gui_try_limit _ _ _ _ Hp Hl). reflexivity.
Qed.
End loop_facts.

(** ** Claims about [get_activities] *)

(** Claim C1. Whenever a page answers with status 401, also after [n]
    earlier pages were fetched and their records [acc] accumulated, the
    fetch ends at that request and hands back no record: the command-line
    tool prints the authentication line and returns the empty list, the GUI
    variants return [None]. That is how the source renders the outcome
    [AuthFailed]. *)
Theorem auth_rejection_discards_records :
  forall upstream after before per_page max_activities n acc r fuel,
    accumulated upstream after before (Z.min per_page 200) max_activities n
      = Some acc ->
    upstream (page_request after before (Z.min per_page 200) (Z.of_nat n + 1))
      = Answers r ->
    status_code r = 401 ->
    (n < fuel)%nat ->
    strava_extractor.get_activities fuel upstream after before per_page
      max_activities
    = Some (mkOutcome (Ret [])
              (page_requests after before (Z.min per_page 200) (S n))
              (banner (Z.min per_page 200)
               ++ page_lines upstream after before (Z.min per_page 200)
                    max_activities n
               ++ [MsgAuthFailed]))
    /\ cutie_extractor.get_activities fuel upstream after before per_page
         max_activities
       = Some (mkOutcome (Ret None)
                 (page_requests after before (Z.min per_page 200) (S n)) []).
Proof.
  intros upstream after before per_page max_activities n acc r fuel Hacc Hr Hs Hf.
  unfold strava_extractor.get_activities, cutie_extractor.get_activities.
  replace fuel with (n + S (fuel - S n))%nat by lia.
  rewrite (cli_loop_accumulated _ _ _ _ _ _ _ _ _ _ Hacc).
  rewrite (gui_loop_accumulated _ _ _ _ _ _ _ _ _ Hacc).
  rewrite (cli_loop_401 _ _ _ _ _ _ _ _ _ _ _ Hr Hs).
  rewrite (gui_loop_401 _ _ _ _ _ _ _ _ _ _ Hr Hs).
  rewrite page_requests_S, <- !app_assoc.
  replace (Z.of_nat (S n)) with (Z.of_nat n + 1) by lia.
  split; reflexivity.
Qed.

Lemma auth_rejection_discards_records_witness :
  accumulated (serving [[sample_activity 1; sample_activity 2]] unauthorized)
    0 86400 (Z.min 200 200) None 1
  = Some [sample_activity 1; sample_activity 2]
  /\ strava_extractor.get_activities 2
       (serving [[sample_activity 1; sample_activity 2]] unauthorized)
       0 86400 200 None
     = Some (mkOutcome (Ret [])
               [mkRequest 0 86400 1 200; mkRequest 0 86400 2 200]
               [MsgFetching; MsgDateRange; MsgPerPage 200; MsgPage 1 2 2;
                MsgAuthFailed])
  /\ cutie_extractor.get_activities 2
       (serving [[sample_activity 1; sample_activity 2]] unauthorized)
       0 86400 200 None
     = Some (mkOutcome (Ret None)
               [mkRequest 0 86400 1 200; mkRequest 0 86400 2 200] []).
Proof.
  split; [reflexivity|].
  apply (auth_rejection_discards_records
           (serving [[sample_activity 1; sample_activity 2]] unauthorized)
           0 86400 200 None 1 [sample_activity 1; sample_activity 2]
           (mkResponse 401 NotJson) 2);
    [reflexivity | reflexivity | reflexivity | lia].
Defined.

(** Runs that end on an empty page, shared by the statements below. *)
Lemma runs_to_empty_page upstream after before per_page max_activities n acc fuel :
  accumulated upstream after before per_page max_activities n = Some acc ->
  page_of upstream after before per_page (Z.of_nat n + 1) = Some [] ->
  (n < fuel)%nat ->
  strava_extractor.loop upstream after before per_page max_activities fuel [] 1
    [] (banner per_page)
  = Some (mkOutcome (Ret acc) (page_requests after before per_page (S n))
            (banner per_page
             ++ page_lines upstream after before per_page max_activities n
             ++ [MsgTotal (length acc)]))
  /\ cutie_extractor.loop upstream after before per_page max_activities fuel []
       1 []
     = Some (mkOutcome (Ret (Some acc))
               (page_requests after before per_page (S n)) []).
Proof.
  intros Hacc Hp Hf.
  replace fuel with (n + S (fuel - S n))%nat by lia.
  rewrite (cli_loop_accumulated _ _ _ _ _ _ _ _ _ _ Hacc).
  rewrite (gui_loop_accumulated _ _ _ _ _ _ _ _ _ Hacc).
  rewrite (cli_loop_empty _ _ _ _ _ _ _ _ _ _ Hp).
  rewrite (gui_loop_empty _ _ _ _ _ _ _ _ _ Hp).
  rewrite page_requests_S, <- !app_assoc.
  replace (Z.of_nat (S n)) with (Z.of_nat n + 1) by lia.
  split; reflexivity.
Qed.

(** Claim C3. Without a cap, a page with no records ends the pagination
    normally: the fetch returns all the records of the pages before it and
    has issued one request per page, the empty one included. With a first
    page of 200 records and an empty second page that is 200 records after
    2 requests (the witness below). *)
Theorem empty_page_ends_pagination :
  forall upstream after before per_page n acc fuel,
    accumulated upstream after before (Z.min per_page 200) None n = Some acc ->
    page_of upstream after before (Z.min per_page 200) (Z.of_nat n + 1)
      = Some [] ->
    (n < fuel)%nat ->
    strava_extractor.get_activities fuel upstream after before per_page None
    = Some (mkOutcome (Ret acc)
              (page_requests after before (Z.min per_page 200) (S n))
              (banner (Z.min per_page 200)
               ++ page_lines upstream after before (Z.min per_page 200) None n
               ++ [MsgTotal (length acc)]))
    /\ cutie_extractor.get_activities fuel upstream after before per_page None
       = Some (mkOutcome (Ret (Some acc))
                 (page_requests after before (Z.min per_page 200) (S n)) []).
Proof.
  intros upstream after before per_page n acc fuel Hacc Hp Hf.
  exact (runs_to_empty_page _ _ _ _ _ _ _ _ Hacc Hp Hf).
Qed.

Lemma empty_page_ends_pagination_witness :
  accumulated (serving [replicate 200 (sample_activity 1)] no_more)
    0 86400 (Z.min 200 200) None 1
  = Some (replicate 200 (sample_activity 1))
  /\ page_of (serving [replicate 200 (sample_activity 1)] no_more)
       0 86400 (Z.min 200 200) (Z.of_nat 1 + 1) = Some []
  /\ strava_extractor.get_activities 2
       (serving [replicate 200 (sample_activity 1)] no_more) 0 86400 200 None
     = Some (mkOutcome (Ret (replicate 200 (sample_activity 1)))
               [mkRequest 0 86400 1 200; mkRequest 0 86400 2 200]
               [MsgFetching; MsgDateRange; MsgPerPage 200; MsgPage 1 200 200;
                MsgTotal 200])
  /\ cutie_extractor.get_activities 2
       (serving [replicate 200 (sample_activity 1)] no_more) 0 86400 200 None
     = Some (mkOutcome (Ret (Some (replicate 200 (sample_activity 1))))
               [mkRequest 0 86400 1 200; mkRequest 0 86400 2 200] []).
Proof.
  split; [reflexivity|]. split; [reflexivity|].
  apply (empty_page_ends_pagination
           (serving [replicate 200 (sample_activity 1)] no_more)
           0 86400 200 1 (replicate 200 (sample_activity 1)) 2);
    [reflexivity | reflexivity | lia].
Defined.

(** Claim C7. When the request for a page raises a [RequestException]
    (no connection, time-out, a 4xx/5xx status other than 401 and 429, a
    body that is not JSON), the fetch stops at that request, which it issued
    once, and returns the records of the pages before it; the command-line
    tool prints the failure. No [RequestException] leaves [get_activities],
    whatever the upstream does; the exceptions of a body that decodes to
    something that is not an array, or that the decoder gives up on, are
    not of that class and do leave it (the counterexample below). *)
Theorem transport_error_returns_partial :
  forall upstream after before per_page max_activities n acc e fuel,
    accumulated upstream after before (Z.min per_page 200) max_activities n
      = Some acc ->
    page_error upstream after before (Z.min per_page 200) (Z.of_nat n + 1)
      = Some e ->
    (n < fuel)%nat ->
    strava_extractor.get_activities fuel upstream after before per_page
      max_activities
    = Some (mkOutcome (Ret acc)
              (page_requests after before (Z.min per_page 200) (S n))
              (banner (Z.min per_page 200)
               ++ page_lines upstream after before (Z.min per_page 200)
                    max_activities n
               ++ [MsgRequestFailed e; MsgTotal (length acc)]))
    /\ cutie_extractor.get_activities fuel upstream after before per_page
         max_activities
       = Some (mkOutcome (Ret (Some acc))
                 (page_requests after before (Z.min per_page 200) (S n)) [])
    /\ (forall fuel' o raised failure,
          strava_extractor.get_activities fuel' upstream after before per_page
            max_activities = Some o ->
          returned o = Raise raised ->
          raised <> RequestException failure)
    /\ (forall fuel' o raised failure,
          cutie_extractor.get_activities fuel' upstream after before per_page
            max_activities = Some o ->
          returned o = Raise raised ->
          raised <> RequestException failure).
Proof.
  intros upstream after before per_page max_activities n acc e fuel Hacc He Hf.
  unfold strava_extractor.get_activities, cutie_extractor.get_activities.
  split; [|split; [|split]].
  - replace fuel with (n + S (fuel - S n))%nat by lia.
    rewrite (cli_loop_accumulated _ _ _ _ _ _ _ _ _ _ Hacc).
    rewrite (cli_loop_error _ _ _ _ _ _ _ _ _ _ _ He).
    rewrite page_requests_S, <- !app_assoc.
    replace (Z.of_nat (S n)) with (Z.of_nat n + 1) by lia. reflexivity.
  - replace fuel with (n + S (fuel - S n))%nat by lia.
    rewrite (gui_loop_accumulated _ _ _ _ _ _ _ _ _ Hacc).
    rewrite (gui_loop_error _ _ _ _ _ _ _ _ _ _ He).
    rewrite page_requests_S.
    replace (Z.of_nat (S n)) with (Z.of_nat n + 1) by lia. reflexivity.
  - intros fuel' o raised failure Hget Hret.
    destruct (cli_loop_catches _ _ _ _ _ _ _ _ _ _ _ _ Hget Hret)
      as [-> | [-> | ->]]; discriminate.
  - intros fuel' o raised failure Hget Hret.
    destruct (gui_loop_catches _ _ _ _ _ _ _ _ _ _ _ Hget Hret)
      as [-> | [-> | ->]]; discriminate.
Qed.

Lemma transport_error_returns_partial_witness :
  accumulated (serving [[sample_activity 1; sample_activity 2]] timed_out)
    0 86400 (Z.min 200 200) None 1
  = Some [sample_activity 1; sample_activity 2]
  /\ page_error (serving [[sample_activity 1; sample_activity 2]] timed_out)
       0 86400 (Z.min 200 200) (Z.of_nat 1 + 1) = Some Timeout
  /\ strava_extractor.get_activities 5
       (serving [[sample_activity 1; sample_activity 2]] timed_out)
       0 86400 200 None
     = Some (mkOutcome (Ret [sample_activity 1; sample_activity 2])
               [mkRequest 0 86400 1 200; mkRequest 0 86400 2 200]
               [MsgFetching; MsgDateRange; MsgPerPage 200; MsgPage 1 2 2;
                MsgRequestFailed Timeout; MsgTotal 2]).
Proof.
  split; [reflexivity|]. split; [reflexivity|].
  apply (transport_error_returns_partial
           (serving [[sample_activity 1; sample_activity 2]] timed_out)
           0 86400 200 None 1 [sample_activity 1; sample_activity 2] Timeout 5);
    [reflexivity | reflexivity | lia].
Defined.

Example malformed_body_returns_partial :
  strava_extractor.get_activities 5
    (serving [[sample_activity 1]] garbled) 0 86400 200 None
  = Some (mkOutcome (Ret [sample_activity 1])
            [mkRequest 0 86400 1 200; mkRequest 0 86400 2 200]
            [MsgFetching; MsgDateRange; MsgPerPage 200; MsgPage 1 1 1;
             MsgRequestFailed JSONDecodeError; MsgTotal 1]).
Proof. reflexivity. Qed.

(** A body that decodes, but not to records, or that the decoder gives up
    on, ends the fetch with an exception: the records of the pages before
    are lost to the caller. *)
Lemma crash_leaves_get_activities upstream after before per_page
    max_activities n acc e fuel :
  accumulated upstream after before (Z.min per_page 200) max_activities n
    = Some acc ->
  page_crash upstream after before (Z.min per_page 200) (Z.of_nat n + 1)
    = Some e ->
  (n < fuel)%nat ->
  strava_extractor.get_activities fuel upstream after before per_page
    max_activities
  = Some (mkOutcome (Raise e)
            (page_requests after before (Z.min per_page 200) (S n))
            (banner (Z.min per_page 200)
             ++ page_lines upstream after before (Z.min per_page 200)
                  max_activities n))
  /\ cutie_extractor.get_activities fuel upstream after before per_page
       max_activities
     = Some (mkOutcome (Raise e)
               (page_requests after before (Z.min per_page 200) (S n)) []).
Proof.
  intros Hacc He Hf.
  unfold strava_extractor.get_activities, cutie_extractor.get_activities.
  replace fuel with (n + S (fuel - S n))%nat by lia.
  rewrite (cli_loop_accumulated _ _ _ _ _ _ _ _ _ _ Hacc).
  rewrite (gui_loop_accumulated _ _ _ _ _ _ _ _ _ Hacc).
  rewrite (cli_loop_crash _ _ _ _ _ _ _ _ _ _ _ He).
  rewrite (gui_loop_crash _ _ _ _ _ _ _ _ _ _ He).
  rewrite page_requests_S.
  replace (Z.of_nat (S n)) with (Z.of_nat n + 1) by lia.
  split; reflexivity.
Qed.

(** Claim C7 as stated fails: a response with status 200 whose body is the
    number 5 is a malformed response body; [response.json()] decodes it,
    [activities.extend(5)] raises [TypeError], which
    [except requests.exceptions.RequestException] does not catch: the
    exception leaves [get_activities], in the three files, and the two
    records of the first page are not returned. *)
Lemma malformed_body_raises :
  a_number = Answers (mkResponse 200 (Json JsonNumber))
  /\ strava_extractor.get_activities 5
       (serving [[sample_activity 1; sample_activity 2]] a_number)
       0 86400 200 None
     = Some (mkOutcome (Raise TypeError)
               [mkRequest 0 86400 1 200; mkRequest 0 86400 2 200]
               [MsgFetching; MsgDateRange; MsgPerPage 200; MsgPage 1 2 2])
  /\ cutie_extractor.get_activities 5
       (serving [[sample_activity 1; sample_activity 2]] a_number)
       0 86400 200 None
     = Some (mkOutcome (Raise TypeError)
               [mkRequest 0 86400 1 200; mkRequest 0 86400 2 200] []).
Proof. repeat split. Qed.

Example undecodable_bodies_raise :
  returned <$> strava_extractor.get_activities 5
     (always (Answers (mkResponse 200 HugeInteger))) 0 86400 200 None
  = Some (Raise ValueError)
  /\ returned <$> strava_extractor.get_activities 5
       (always (Answers (mkResponse 200 TooDeep))) 0 86400 200 None
     = Some (Raise RecursionError)
  /\ returned <$> strava_extractor.get_activities 5
       (always (Answers (mkResponse 200 (Json JsonFalsy)))) 0 86400 200 None
     = Some (Ret []).
Proof. repeat split. Qed.

(** *** The cap *)

Lemma first_pages_S pages k :
  first_pages pages (S k) = first_pages pages k ++ pages (Z.of_nat (S k)).
Proof.
  unfold first_pages. rewrite seq_S, map_app, concat_app. cbn [map concat].
  rewrite app_nil_r. reflexivity.
Qed.

Lemma length_first_pages pages (size : nat) k :
  (forall p, 1 <= p -> length (pages p) = size) ->
  length (first_pages pages k) = (k * size)%nat.
Proof.
  intros Hsize. induction k as [|k IH]; [reflexivity|].
  rewrite first_pages_S, length_app, IH, Hsize by lia. lia.
Qed.

Lemma accumulated_full_pages upstream after before per_page m pages (size : nat) :
  (0 < size)%nat ->
  (forall p, 1 <= p ->
     page_of upstream after before per_page p = Some (pages p)
     /\ length (pages p) = size) ->
  forall j, Z.of_nat (j * size) < m ->
    accumulated upstream after before per_page (Some m) j
    = Some (first_pages pages j).
Proof.
  intros Hpos Hpages. induction j as [|j IH]; intros Hj; [reflexivity|].
  cbn [accumulated]. rewrite IH by lia.
  destruct (Hpages (Z.of_nat (S j))) as [Hp Hl]; [lia|].
  rewrite Hp. rewrite first_pages_S.
  destruct (pages (Z.of_nat (S j))) as [|x b] eqn:Hb.
  { cbn in Hl. lia. }
  unfold limit_reached.
  replace (m <=? Z.of_nat (length (first_pages pages j ++ x :: b))) with false.
  { rewrite andb_false_r. reflexivity. }
  symmetry. apply Z.leb_gt.
  rewrite length_app, Hl.
  rewrite (length_first_pages pages size j) by (intros; apply Hpages; lia).
  lia.
Qed.

Lemma ceil_div_bounds m s :
  0 < m -> 0 < s ->
  let k := (m + s - 1) / s in
  1 <= k /\ (k - 1) * s < m /\ m <= k * s.
Proof.
  intros Hm Hs k.
  assert (Hdm := Z.div_mod (m + s - 1) s ltac:(lia)).
  assert (Hr := Z.mod_pos_bound (m + s - 1) s Hs).
  fold k in Hdm. nia.
Qed.

(** Claim C2. With a positive cap [m] and an upstream whose every page
    holds [size] records, the fetch stops at the first page with which the
    count reaches [m], that is after [ceil (m / size)] requests, and returns
    exactly the first [m] records. With a cap of 50 and pages of 200 that is
    one request (the witness below). *)
Theorem cap_truncates_and_stops :
  forall upstream after before per_page m (size : nat) pages fuel,
    0 < m ->
    (0 < size)%nat ->
    (forall p, 1 <= p ->
       page_of upstream after before (Z.min per_page 200) p = Some (pages p)
       /\ length (pages p) = size) ->
    (Z.to_nat ((m + Z.of_nat size - 1) / Z.of_nat size) <= fuel)%nat ->
    let k := Z.to_nat ((m + Z.of_nat size - 1) / Z.of_nat size) in
    let kept := take (Z.to_nat m) (first_pages pages k) in
    strava_extractor.get_activities fuel upstream after before per_page (Some m)
    = Some (mkOutcome (Ret kept)
              (page_requests after before (Z.min per_page 200) k)
              (banner (Z.min per_page 200)
               ++ page_lines upstream after before (Z.min per_page 200)
                    (Some m) (k - 1)
               ++ [MsgTotal (Z.to_nat m)]))
    /\ cutie_extractor.get_activities fuel upstream after before per_page
         (Some m)
       = Some (mkOutcome (Ret (Some kept))
                 (page_requests after before (Z.min per_page 200) k) [])
    /\ length kept = Z.to_nat m.
Proof.
  intros upstream after before per_page m size pages fuel Hm Hsize Hpages Hfuel k kept.
  destruct (ceil_div_bounds m (Z.of_nat size) Hm ltac:(lia)) as (Hk1 & Hlo & Hhi).
  cbv zeta in Hk1, Hlo, Hhi.
  assert (Hk : Z.of_nat k = (m + Z.of_nat size - 1) / Z.of_nat size)
    by (unfold k; lia).
  rewrite <- Hk in Hk1, Hlo, Hhi. fold k in Hfuel.
  destruct k as [|j] eqn:Ek; [lia|].
  assert (Hacc : accumulated upstream after before (Z.min per_page 200) (Some m) j
                 = Some (first_pages pages j)).
  { apply (accumulated_full_pages _ _ _ _ _ _ size); [lia|exact Hpages|nia]. }
  destruct (Hpages (Z.of_nat j + 1)) as [Hp Hl]; [lia|].
  assert (Hlen : length (first_pages pages (S j)) = (S j * size)%nat).
  { apply length_first_pages. intros; apply Hpages; lia. }
  assert (Hkept : length kept = Z.to_nat m).
  { unfold kept. rewrite length_take, Hlen. nia. }
  destruct (pages (Z.of_nat j + 1)) as [|x b] eqn:Hb; [cbn in Hl; lia|].
  assert (Hfull : first_pages pages j ++ x :: b = first_pages pages (S j)).
  { rewrite first_pages_S. replace (Z.of_nat (S j)) with (Z.of_nat j + 1) by lia.
    rewrite Hb. reflexivity. }
  assert (Hreach : limit_reached (Some m) (first_pages pages j ++ x :: b) = true).
  { rewrite Hfull. unfold limit_reached. rewrite Hlen.
    apply andb_true_intro. split.
    - apply negb_true_iff, Z.eqb_neq. lia.
    - apply Z.leb_le. nia. }
  assert (Hslice : slice_to (first_pages pages j ++ x :: b) (default 0 (Some m))
                   = kept).
  { rewrite Hfull. change (default 0 (Some m)) with m. unfold slice_to.
    destruct (m <? 0) eqn:E; [apply Z.ltb_lt in E; lia|]. reflexivity. }
  unfold strava_extractor.get_activities, cutie_extractor.get_activities.
  replace fuel with (j + S (fuel - S j))%nat by lia.
  rewrite (cli_loop_accumulated _ _ _ _ _ _ _ _ _ _ Hacc).
  rewrite (gui_loop_accumulated _ _ _ _ _ _ _ _ _ Hacc).
  rewrite (cli_loop_limit _ _ _ _ _ _ _ _ _ _ _ _ Hp Hreach).
  rewrite (gui_loop_limit _ _ _ _ _ _ _ _ _ _ _ Hp Hreach).
  rewrite Hslice, Hkept, page_requests_S, <- !app_assoc.
  replace (Z.of_nat (S j)) with (Z.of_nat j + 1) by lia.
  replace (S j - 1)%nat with j by lia.
  repeat split; reflexivity.
Qed.

Lemma cap_truncates_and_stops_witness :
  0 < 50
  /\ (0 < 200)%nat
  /\ (forall p, 1 <= p ->
        page_of (always (Answers (mkResponse 200 (Json (JsonArray full_page)))))
          0 86400 (Z.min 200 200) p = Some full_page
        /\ length full_page = 200%nat)
  /\ strava_extractor.get_activities 3
       (always (Answers (mkResponse 200 (Json (JsonArray full_page))))) 0 86400 200 (Some 50)
     = Some (mkOutcome (Ret (replicate 50 (sample_activity 1)))
               [mkRequest 0 86400 1 200]
               [MsgFetching; MsgDateRange; MsgPerPage 200; MsgTotal 50])
  /\ cutie_extractor.get_activities 3
       (always (Answers (mkResponse 200 (Json (JsonArray full_page))))) 0 86400 200 (Some 50)
     = Some (mkOutcome (Ret (Some (replicate 50 (sample_activity 1))))
               [mkRequest 0 86400 1 200] [])
  /\ length (replicate 50 (sample_activity 1)) = 50%nat.
Proof.
  split; [lia|]. split; [lia|].
  split; [intros p _; split; reflexivity|].
  apply (cap_truncates_and_stops
           (always (Answers (mkResponse 200 (Json (JsonArray full_page)))))
           0 86400 200 50 200 (fun _ => full_page) 3);
    [lia | lia | intros p _; split; reflexivity | vm_compute; lia].
Defined.

(** *** A cap of zero *)

Lemma cli_try_zero_cap upstream after before per_page acts p :
  strava_extractor.try_page upstream after before per_page (Some 0) acts p
  = strava_extractor.try_page upstream after before per_page None acts p.
Proof.
  unfold strava_extractor.try_page, requests_get, raise_for_status, response_json.
  destruct (upstream _) as [e|r]; cbn [mbind exc_bind mret exc_ret]; [reflexivity|].
  destruct (status_code r =? 401); [reflexivity|].
  destruct (status_code r =? 429); [reflexivity|].
  destruct ((400 <=? status_code r) && (status_code r <? 600)); [reflexivity|].
  destruct (body r) as [[[|x b]| |]| | |]; reflexivity.
Qed.

Lemma gui_try_zero_cap upstream after before per_page acts p :
  cutie_extractor.try_page upstream after before per_page (Some 0) acts p
  = cutie_extractor.try_page upstream after before per_page None acts p.
Proof.
  unfold cutie_extractor.try_page, requests_get, raise_for_status, response_json.
  destruct (upstream _) as [e|r]; cbn [mbind exc_bind mret exc_ret]; [reflexivity|].
  destruct (status_code r =? 401); [reflexivity|].
  destruct (status_code r =? 429); [reflexivity|].
  destruct ((400 <=? status_code r) && (status_code r <? 600)); [reflexivity|].
  destruct (body r) as [[[|x b]| |]| | |]; reflexivity.
Qed.

Lemma cli_loop_zero_cap upstream after before per_page fuel :
  forall acts p trace log,
    strava_extractor.loop upstream after before per_page (Some 0) fuel acts p
      trace log
    = strava_extractor.loop upstream after before per_page None fuel acts p
        trace log.
Proof.
  induction fuel as [|fuel IH]; intros acts p trace log; [reflexivity|].
  cbn [strava_extractor.loop]. rewrite cli_try_zero_cap.
  destruct (strava_extractor.try_page _ _ _ _ _ _ _) as [[[v|a|a] msgs]|e];
    solve [reflexivity | apply IH | destruct e; reflexivity].
Qed.

Lemma gui_loop_zero_cap upstream after before per_page fuel :
  forall acts p trace,
    cutie_extractor.loop upstream after before per_page (Some 0) fuel acts p trace
    = cutie_extractor.loop upstream after before per_page None fuel acts p trace.
Proof.
  induction fuel as [|fuel IH]; intros acts p trace; [reflexivity|].
  cbn [cutie_extractor.loop]. rewrite gui_try_zero_cap.
  destruct (cutie_extractor.try_page _ _ _ _ _ _ _) as [[v|a|a]|e];
    solve [reflexivity | apply IH | destruct e; reflexivity].
Qed.

Lemma one_per_page_of n after before per_page (j : nat) :
  page_of (one_per_page n) after before per_page (Z.of_nat (S j))
  = Some (if decide (j < n)%nat then [sample_activity 1] else []).
Proof.
  unfold page_of, one_per_page, serving, page_request. cbn [page].
  replace (Z.to_nat (Z.of_nat (S j) - 1)) with j by lia.
  destruct (decide (j < n)%nat) as [Hlt|Hge].
  - rewrite lookup_replicate_2 by exact Hlt. reflexivity.
  - rewrite (proj1 (lookup_replicate_None _ _ _)) by lia. reflexivity.
Qed.

Lemma one_per_page_accumulated n after before per_page (j : nat) :
  (j <= n)%nat ->
  accumulated (one_per_page n) after before per_page None j
  = Some (replicate j (sample_activity 1)).
Proof.
  induction j as [|j IH]; intros Hj; [reflexivity|].
  cbn [accumulated]. rewrite IH by lia. rewrite one_per_page_of.
  destruct (decide (j < n)%nat); [|lia].
  cbn [limit_reached]. f_equal.
  change [sample_activity 1] with (replicate 1 (sample_activity 1)).
  rewrite <- replicate_add. f_equal. lia.
Qed.

(** Claim C10. A cap of [0] is no cap: the fetch does what it does with
    [max_activities = None], whatever the upstream and the fuel; and for
    every [n] there is an upstream from which it then returns [n] records. *)
Theorem zero_cap_is_no_cap :
  (forall fuel upstream after before per_page,
     strava_extractor.get_activities fuel upstream after before per_page (Some 0)
     = strava_extractor.get_activities fuel upstream after before per_page None
     /\ cutie_extractor.get_activities fuel upstream after before per_page
          (Some 0)
        = cutie_extractor.get_activities fuel upstream after before per_page
            None)
  /\ (forall n : nat,
        exists upstream fuel records,
          returned <$> strava_extractor.get_activities fuel upstream 0 86400 200
                         (Some 0)
          = Some (Ret records)
          /\ returned <$> cutie_extractor.get_activities fuel upstream 0 86400
                            200 (Some 0)
             = Some (Ret (Some records))
          /\ length records = n).
Proof.
  split.
  - intros fuel upstream after before per_page.
    unfold strava_extractor.get_activities, cutie_extractor.get_activities.
    split; [apply cli_loop_zero_cap | apply gui_loop_zero_cap].
  - intros n.
    exists (one_per_page n), (S n), (replicate n (sample_activity 1)).
    unfold strava_extractor.get_activities, cutie_extractor.get_activities.
    rewrite cli_loop_zero_cap, gui_loop_zero_cap.
    destruct (runs_to_empty_page (one_per_page n) 0 86400 (Z.min 200 200) None n
                (replicate n (sample_activity 1)) (S n)) as [Hcli Hgui].
    + apply one_per_page_accumulated. lia.
    + replace (Z.of_nat n + 1) with (Z.of_nat (S n)) by lia.
      rewrite one_per_page_of. destruct (decide (n < n)%nat); [lia|reflexivity].
    + lia.
    + unfold banner in Hcli. rewrite Hcli, Hgui.
      cbn [fmap option_fmap option_map returned].
      rewrite length_replicate. auto.
Qed.

(** ** [extract_activity_data] *)

Lemma float_overflow_large : 1000 < float_overflow.
Proof. reflexivity. Qed.

Lemma py_truediv_returns v d :
  0 < d < float_overflow -> divisible v d = true ->
  exists f, py_truediv v d = Ret (PyFloat f).
Proof.
  intros Hd Hv. pose proof float_overflow_large as Hlarge.
  destruct v as [|b|z|f|s]; cbn [divisible] in Hv; try discriminate;
    unfold py_truediv.
  - unfold int_truediv.
    replace (Z.abs (int_of_bool b) <? d * float_overflow) with true.
    + cbn. eauto.
    + symmetry. apply Z.ltb_lt. destruct b; cbn [int_of_bool]; nia.
  - unfold int_truediv. rewrite Hv. cbn. eauto.
  - unfold float_of_int.
    replace (Z.abs d <? float_overflow) with true
      by (symmetry; apply Z.ltb_lt; lia).
    cbn. eauto.
Qed.

Lemma scaled_returns (scaled : activity -> string -> Z -> exc pyval) a key d :
  (forall a key d, scaled a key d
     = py_truediv (get a key (PyInt 0)) d ≫= λ q, py_round q 2) ->
  0 < d < float_overflow ->
  divisible (get a key (PyInt 0)) d = true ->
  exists f, scaled a key d = Ret (PyFloat f).
Proof.
  intros Hdef Hd Hv. rewrite Hdef.
  destruct (py_truediv_returns _ _ Hd Hv) as [f ->]. cbn. eauto.
Qed.

Lemma kmh_returns v :
  convertible v = true -> exists w, cutie_extractor.kmh v = Ret w.
Proof.
  unfold convertible, cutie_extractor.kmh. intros Hv.
  destruct (truthy v) eqn:Ht; [|eauto]. cbn [negb orb] in Hv.
  destruct v as [|b|z|f|s]; try discriminate; unfold py_mul_float.
  - destruct b; [|discriminate]. cbn. eauto.
  - unfold float_of_int. rewrite Hv. cbn. eauto.
  - cbn. eauto.
Qed.

(** Claim C4, amended. The normalisers return a row, without raising, on
    every activity whose fields they compute with are absent or hold a
    value of the kind the computation needs ([compact_ok], [extended_ok]);
    the other fields may hold anything. *)
Theorem normalize_returns_on_typed_records a b :
  compact_ok a = true ->
  extended_ok b = true ->
  (exists r, cutie_extractor.extract_activity_data a = Ret r)
  /\ (exists r, strava_extractor.extract_activity_data b = Ret r).
Proof.
  assert (H1000 : 0 < 1000 < float_overflow) by (split; reflexivity).
  assert (H60 : 0 < 60 < float_overflow) by (split; reflexivity).
  unfold compact_ok, extended_ok. intros Ha Hb.
  apply andb_prop in Ha as [Ha Ht]. apply andb_prop in Ha as [Ha Hd].
  apply andb_prop in Ha as [Hav Hmx].
  apply andb_prop in Hb as [Hb Ht']. apply andb_prop in Hb as [Hs Hd'].
  split.
  - unfold cutie_extractor.extract_activity_data.
    destruct (kmh_returns _ Hav) as [av ->].
    destruct (kmh_returns _ Hmx) as [mx ->].
    destruct (scaled_returns cutie_extractor.scaled a "distance" 1000
                ltac:(reflexivity) H1000 Hd) as [dk ->].
    destruct (scaled_returns cutie_extractor.scaled a "moving_time" 60
                ltac:(reflexivity) H60 Ht) as [mt ->].
    cbn. eauto.
  - unfold strava_extractor.extract_activity_data.
    destruct (get b "start_date" (PyStr "")) as [| | | |date]; try discriminate.
    destruct (scaled_returns strava_extractor.scaled b "distance" 1000
                ltac:(reflexivity) H1000 Hd') as [dk ->].
    destruct (scaled_returns strava_extractor.scaled b "moving_time" 60
                ltac:(reflexivity) H60 Ht') as [mt ->].
    cbn. eauto.
Qed.

(** What a row of the compact normaliser is made of. *)
Lemma compact_row a r :
  cutie_extractor.extract_activity_data a = Ret r ->
  exists avg mx dist mt,
    cutie_extractor.kmh (get a "average_speed" (PyInt 0)) = Ret avg
    /\ cutie_extractor.kmh (get a "max_speed" (PyInt 0)) = Ret mx
    /\ cutie_extractor.scaled a "distance" 1000 = Ret dist
    /\ cutie_extractor.scaled a "moving_time" 60 = Ret mt
    /\ r = [ ("id", get_ a "id");
             ("name", get_ a "name");
             ("distance", dist);
             ("moving_time", mt);
             ("elapsed_time", get_ a "elapsed_time");
             ("total_elevation_gain", get_ a "total_elevation_gain");
             ("start_date", get a "start_date" (PyStr ""));
             ("average_speed", avg);
             ("max_speed", mx);
             ("average_temp", get_ a "average_temp");
             ("elev_high", get_ a "elev_high");
             ("elev_low", get_ a "elev_low");
             ("calories", get_ a "calories");
             ("pr_count", get_ a "pr_count") ].
Proof.
  unfold cutie_extractor.extract_activity_data.
  destruct (cutie_extractor.kmh (get a "average_speed" _)) as [avg|]; [|discriminate].
  destruct (cutie_extractor.kmh (get a "max_speed" _)) as [mx|]; [|discriminate].
  destruct (cutie_extractor.scaled a "distance" _) as [dist|]; [|discriminate].
  destruct (cutie_extractor.scaled a "moving_time" _) as [mt|]; [|discriminate].
  cbn. intros [= <-]. exists avg, mx, dist, mt. auto.
Qed.

Lemma extended_row a r :
  strava_extractor.extract_activity_data a = Ret r ->
  exists date dist mt,
    py_prefix (get a "start_date" (PyStr "")) 10 = Ret date
    /\ strava_extractor.scaled a "distance" 1000 = Ret dist
    /\ strava_extractor.scaled a "moving_time" 60 = Ret mt
    /\ r = [ ("id", get_ a "id");
             ("name", get_ a "name");
             ("type", get_ a "type");
             ("date", date);
             ("start_time", get a "start_date" (PyStr ""));
             ("distance_m", get_ a "distance");
             ("distance_km", dist);
             ("moving_time_s", get_ a "moving_time");
             ("moving_time_min", mt);
             ("elapsed_time_s", get_ a "elapsed_time");
             ("elevation_gain_m", get_ a "total_elevation_gain");
             ("average_speed_ms", get_ a "average_speed");
             ("max_speed_ms", get_ a "max_speed");
             ("average_hr", get_ a "average_heartrate");
             ("max_hr", get_ a "max_heartrate");
             ("calories", get_ a "calories");
             ("location", get a "location_city" (PyStr ""));
             ("kudos", get_ a "kudos_count");
             ("commute", get_ a "commute");
             ("trainer", get_ a "trainer");
             ("manual", get_ a "manual") ].
Proof.
  unfold strava_extractor.extract_activity_data.
  destruct (py_prefix _ _) as [date|]; [|discriminate].
  destruct (strava_extractor.scaled a "distance" _) as [dist|]; [|discriminate].
  destruct (strava_extractor.scaled a "moving_time" _) as [mt|]; [|discriminate].
  cbn. intros [= <-]. exists date, dist, mt. auto.
Qed.

(** Every row has the field names of its field set, in that order. *)
Lemma compact_keys a r :
  cutie_extractor.extract_activity_data a = Ret r ->
  keys r = field_names compact_fields.
Proof.
  intros H. destruct (compact_row _ _ H) as (? & ? & ? & ? & _ & _ & _ & _ & ->).
  reflexivity.
Qed.

Lemma extended_keys a r :
  strava_extractor.extract_activity_data a = Ret r ->
  keys r = field_names extended_fields.
Proof.
  intros H. destruct (extended_row _ _ H) as (? & ? & ? & _ & _ & _ & ->).
  reflexivity.
Qed.

(** The derived fields of an activity that lacks the source. *)
Lemma kmh_missing a key avg :
  a !! key = None ->
  cutie_extractor.kmh (get a key (PyInt 0)) = Ret avg -> avg = PyInt 0.
Proof. unfold get. intros ->. vm_compute. intros [= <-]. reflexivity. Qed.

Lemma compact_scaled_missing a key d v :
  a !! key = None -> d = 1000 \/ d = 60 ->
  cutie_extractor.scaled a key d = Ret v -> v = PyFloat float_zero.
Proof.
  unfold cutie_extractor.scaled, get.
  intros -> [-> | ->]; vm_compute; intros [= <-]; reflexivity.
Qed.

Lemma extended_scaled_missing a key d v :
  a !! key = None -> d = 1000 \/ d = 60 ->
  strava_extractor.scaled a key d = Ret v -> v = PyFloat float_zero.
Proof.
  unfold strava_extractor.scaled, get.
  intros -> [-> | ->]; vm_compute; intros [= <-]; reflexivity.
Qed.

Lemma date_missing a v :
  a !! "start_date" = None ->
  py_prefix (get a "start_date" (PyStr "")) 10 = Ret v -> v = PyStr "".
Proof. unfold get. intros ->. vm_compute. intros [= <-]. reflexivity. Qed.

(** Split a membership in a literal list into its cases. *)
Ltac each_field H :=
  repeat (destruct H as [H|H]; [injection H as <- <- <-|]); [..|destruct H].

(** Claim C5, amended. Every row a normaliser returns has the field names
    of its field set, in that order, whatever fields the activity lacks;
    and a field whose source is missing is bound to the value the field set
    lists for it: [None], the empty string for the dates and the location,
    [0.0] for the distance and the moving time, and [0] for the two speeds
    of the compact set. *)
Theorem rows_have_one_shape a b r s :
  cutie_extractor.extract_activity_data a = Ret r ->
  strava_extractor.extract_activity_data b = Ret s ->
  (keys r = field_names compact_fields
   /\ forall field source missing,
        In (field, source, missing) compact_fields ->
        a !! source = None -> row_get r field = Some missing)
  /\ (keys s = field_names extended_fields
      /\ forall field source missing,
           In (field, source, missing) extended_fields ->
           b !! source = None -> row_get s field = Some missing).
Proof.
  intros Hr Hs. split; split.
  - exact (compact_keys _ _ Hr).
  - destruct (compact_row _ _ Hr) as (avg & mx & dist & mt & Ha & Hm & Hd & Ht & ->).
    intros field source missing Hin Hmiss. cbn [In compact_fields] in Hin.
    each_field Hin; cbn; unfold get_, get; rewrite ?Hmiss; cbn [default];
      try reflexivity; f_equal.
    + exact (compact_scaled_missing _ _ _ _ Hmiss (or_introl eq_refl) Hd).
    + exact (compact_scaled_missing _ _ _ _ Hmiss (or_intror eq_refl) Ht).
    + exact (kmh_missing _ _ _ Hmiss Ha).
    + exact (kmh_missing _ _ _ Hmiss Hm).
  - exact (extended_keys _ _ Hs).
  - destruct (extended_row _ _ Hs) as (date & dist & mt & Hdate & Hd & Ht & ->).
    intros field source missing Hin Hmiss. cbn [In extended_fields] in Hin.
    each_field Hin; cbn; unfold get_, get; rewrite ?Hmiss; cbn [default];
      try reflexivity; f_equal.
    + exact (date_missing _ _ Hmiss Hdate).
    + exact (extended_scaled_missing _ _ _ _ Hmiss (or_introl eq_refl) Hd).
    + exact (extended_scaled_missing _ _ _ _ Hmiss (or_intror eq_refl) Ht).
Qed.

(** *** Speeds *)

Lemma kmh_falsy v : truthy v = false -> cutie_extractor.kmh v = Ret v.
Proof. unfold cutie_extractor.kmh. intros ->. reflexivity. Qed.

Lemma kmh_float x :
  truthy (PyFloat x) = true ->
  cutie_extractor.kmh (PyFloat x)
  = Ret (PyFloat (float_round (SFmul prec emax x float_3_6) 2)).
Proof. unfold cutie_extractor.kmh. intros ->. reflexivity. Qed.

Lemma kmh_int z w :
  z <> 0 ->
  cutie_extractor.kmh (PyInt z) = Ret w ->
  w = PyFloat (float_round
                 (SFmul prec emax (binary_normalize prec emax z 0 false) float_3_6)
                 2).
Proof.
  intros Hz. unfold cutie_extractor.kmh. cbn [truthy].
  replace (z =? 0) with false by (symmetry; apply Z.eqb_neq; exact Hz).
  cbn [negb]. unfold py_mul_float, float_of_int.
  destruct (Z.abs z <? float_overflow); cbn; [|discriminate].
  intros [= <-]. reflexivity.
Qed.

Lemma compact_speeds a r key :
  cutie_extractor.extract_activity_data a = Ret r ->
  key = "average_speed" \/ key = "max_speed" ->
  exists w, cutie_extractor.kmh (get a key (PyInt 0)) = Ret w
            /\ row_get r key = Some w.
Proof.
  intros Hr Hkey.
  destruct (compact_row _ _ Hr) as (avg & mx & dist & mt & Ha & Hm & _ & _ & ->).
  destruct Hkey as [-> | ->]; eauto.
Qed.

(** [round(p, 2)] keeps the number of hundredths nearest to [p]. *)
Lemma scaled_half_even_nearest m e :
  0 <= scaled_half_even m e 100
  /\ nearest_hundredths m e (scaled_half_even m e 100).
Proof.
  unfold nearest_hundredths, scaled_half_even.
  destruct e as [|k|k].
  - cbn [Z.leb Z.compare]. change (2 ^ 0) with 1. split; lia.
  - replace (0 <=? Z.pos k) with true by (symmetry; apply Z.leb_le; lia).
    pose proof (Z.pow_pos_nonneg 2 (Z.pos k) ltac:(lia) ltac:(lia)).
    split; nia.
  - replace (0 <=? Z.neg k) with false by (symmetry; apply Z.leb_gt; lia).
    change (- Z.neg k) with (Z.pos k). rewrite Z.pow_pos_fold. cbv zeta.
    assert (Hden : 0 < 2 ^ Z.pos k) by (apply Z.pow_pos_nonneg; lia).
    pose proof (Z.div_mod (Z.pos m * 100) (2 ^ Z.pos k) ltac:(lia)) as Hdm.
    pose proof (Z.mod_pos_bound (Z.pos m * 100) (2 ^ Z.pos k) Hden) as Hr.
    assert (Hq : 0 <= Z.pos m * 100 / 2 ^ Z.pos k) by (apply Z.div_pos; lia).
    set (den := 2 ^ Z.pos k) in *.
    set (q := Z.pos m * 100 / den) in *.
    set (r := (Z.pos m * 100) mod den) in *.
    clearbody q r den.
    assert (Hoff : forall c, 2 * (100 * Z.pos m - (q + c) * den)
                             = 2 * r - 2 * c * den) by (intros c; nia).
    destruct (2 * r ?= den) eqn:Hc.
    + apply Z.compare_eq in Hc.
      destruct (Z.even q) eqn:He.
      * split; [lia|]. replace q with (q + 0) at 1 2 3 4 by lia.
        rewrite !Hoff. split; [lia|]. intros _.
        replace (q + 0) with q by lia. exact He.
      * split; [lia|]. rewrite !Hoff. split; [lia|]. intros _.
        rewrite Z.even_add, He. reflexivity.
    + apply -> Z.compare_lt_iff in Hc. split; [lia|].
      replace q with (q + 0) by lia. rewrite !Hoff.
      split; [lia|intros [H|H]; exfalso; lia].
    + apply -> Z.compare_gt_iff in Hc. split; [lia|].
      rewrite !Hoff. split; [lia|intros [H|H]; exfalso; lia].
Qed.

(** [round(p, 2)] is [p] rounded to two decimal places. *)
Lemma float_round_hundredths p : rounded_to_hundredths p (float_round p 2).
Proof.
  destruct p as [s|s| |s m e]; try reflexivity.
  cbn [rounded_to_hundredths float_round].
  change (10 ^ Z.of_nat 2) with 100.
  destruct (scaled_half_even_nearest m e) as [Hpos Hnear].
  exists (scaled_half_even m e 100). split; [exact Hpos|]. split; [exact Hnear|].
  destruct (scaled_half_even m e 100) as [|n|n]; [reflexivity|reflexivity|lia].
Qed.

(** There is one number of hundredths nearest to a float, and so one
    rounding of it. *)
Lemma nearest_hundredths_unique m e q q' :
  nearest_hundredths m e q -> nearest_hundredths m e q' -> q = q'.
Proof.
  unfold nearest_hundredths. destruct (0 <=? e) eqn:He; [congruence|].
  apply Z.leb_gt in He. cbv zeta.
  assert (Hden : 0 < 2 ^ (- e)) by (apply Z.pow_pos_nonneg; lia).
  set (den := 2 ^ (- e)) in *. clearbody den. intros [Hq Hqe] [Hq' Hqe'].
  assert (Hqq : q' - 1 <= q <= q' + 1).
  { assert (H1 : (q - q') * den <= 1 * den) by lia.
    assert (H2 : (q' - q) * den <= 1 * den) by lia.
    apply Z.mul_le_mono_pos_r in H1, H2; lia. }
  destruct (Z.eq_dec q q') as [Heq|Hne]; [exact Heq|exfalso].
  assert (Hodd : Z.even q = negb (Z.even q')).
  { assert (q = q' + 1 \/ q = q' - 1) as [-> | ->] by lia.
    - rewrite Z.even_add. destruct (Z.even q'); reflexivity.
    - rewrite Z.even_sub. destruct (Z.even q'); reflexivity. }
  assert (q = q' + 1 \/ q = q' - 1) as [-> | ->] by lia;
    rewrite Hqe, Hqe' in Hodd by lia; discriminate.
Qed.

Lemma rounded_to_hundredths_unique p w w' :
  rounded_to_hundredths p w -> rounded_to_hundredths p w' -> w = w'.
Proof.
  destruct p as [s|s| |s m e]; cbn [rounded_to_hundredths]; try congruence.
  intros (q & _ & Hq & ->) (q' & _ & Hq' & ->).
  rewrite (nearest_hundredths_unique _ _ _ _ Hq Hq'). reflexivity.
Qed.

(** Claim C6. In a row of the compact normaliser, [average_speed] and
    [max_speed] are the raw value times 3.6, rounded to 2 places, when the
    raw value is a number other than zero: the product is the binary64
    product with the literal 3.6, and the cell is the float nearest to the
    number of hundredths nearest to that product. A raw value that is falsy
    (zero, [None]) is passed on as it is, and an absent one gives the
    default [0], not a rounded [0.0]. A raw 5.0 gives 18.0, and a raw 4.35,
    whose product is 15.659999999999998, gives 15.66 (the witness
    below). *)
Theorem speeds_are_converted a r key :
  cutie_extractor.extract_activity_data a = Ret r ->
  key = "average_speed" \/ key = "max_speed" ->
  (forall x, a !! key = Some (PyFloat x) -> truthy (PyFloat x) = true ->
     exists w,
       row_get r key = Some (PyFloat w)
       /\ rounded_to_hundredths (SFmul prec emax x float_3_6) w)
  /\ (forall z, a !! key = Some (PyInt z) -> z <> 0 ->
        exists w,
          row_get r key = Some (PyFloat w)
          /\ rounded_to_hundredths
               (SFmul prec emax (binary_normalize prec emax z 0 false)
                  float_3_6) w)
  /\ (forall v, a !! key = Some v -> truthy v = false -> row_get r key = Some v)
  /\ (a !! key = None -> row_get r key = Some (PyInt 0)).
Proof.
  intros Hr Hkey. destruct (compact_speeds _ _ _ Hr Hkey) as (w & Hw & ->).
  unfold get in Hw. repeat split.
  - intros x Hx Ht. rewrite Hx in Hw. cbn [from_option id] in Hw.
    rewrite (kmh_float _ Ht) in Hw. injection Hw as <-.
    eexists. split; [reflexivity|apply float_round_hundredths].
  - intros z Hx Hz. rewrite Hx in Hw. cbn [from_option id] in Hw.
    rewrite (kmh_int _ _ Hz Hw).
    eexists. split; [reflexivity|apply float_round_hundredths].
  - intros v Hx Ht. rewrite Hx in Hw. cbn [from_option id] in Hw.
    rewrite (kmh_falsy _ Ht) in Hw. injection Hw as <-. reflexivity.
  - intros Hx. rewrite Hx in Hw. cbn in Hw. injection Hw as <-. reflexivity.
Qed.

(** The rounding that [rounded_to_hundredths] pins, on the product of
    4.35 and 3.6: 1566 hundredths. *)
Lemma rounded_4_35_times_3_6 w :
  rounded_to_hundredths (SFmul prec emax float_4_35 float_3_6) w ->
  w = float_15_66.
Proof.
  intros Hw. apply (rounded_to_hundredths_unique _ _ _ Hw).
  exists 1566. split; [lia|]. split; [vm_compute; intuition discriminate|].
  vm_compute. reflexivity.
Qed.

Lemma speeds_are_converted_witness :
  (exists r,
     cutie_extractor.extract_activity_data morning_run = Ret r
     /\ morning_run !! "average_speed" = Some (PyFloat float_5)
     /\ row_get r "average_speed" = Some (PyFloat float_18)
     /\ morning_run !! "max_speed" = None
     /\ row_get r "max_speed" = Some (PyInt 0))
  /\ (exists r,
        cutie_extractor.extract_activity_data brisk_walk = Ret r
        /\ brisk_walk !! "average_speed" = Some (PyFloat float_4_35)
        /\ SFmul prec emax float_4_35 float_3_6
           = S754_finite false 8815796270577745 (-49)
        /\ row_get r "average_speed" = Some (PyFloat float_15_66)).
Proof.
  split.
  - eexists. split; [vm_compute; reflexivity|].
    split; [reflexivity|]. split; [reflexivity|]. split; [reflexivity|].
    refine (proj2 (proj2 (proj2 (speeds_are_converted morning_run _ "max_speed"
                                   eq_refl (or_intror eq_refl)))) eq_refl).
  - eexists. split; [vm_compute; reflexivity|].
    split; [reflexivity|]. split; [vm_compute; reflexivity|].
    destruct (proj1 (speeds_are_converted brisk_walk _ "average_speed" eq_refl
                       (or_introl eq_refl)) float_4_35 eq_refl eq_refl)
      as (w & Hcell & Hw).
    rewrite (rounded_4_35_times_3_6 _ Hw) in Hcell. exact Hcell.
Defined.

Example float_4_35_is_4_35 :
  float_repr float_4_35 = "4.35" /\ float_repr float_15_66 = "15.66"
  /\ float_repr (SFmul prec emax float_4_35 float_3_6) = "15.659999999999998".
Proof. repeat split; vm_compute; reflexivity. Qed.

Example float_5_is_5 : float_of_int 5 = Ret float_5.
Proof. reflexivity. Qed.

Example float_18_is_18 : float_of_int 18 = Ret float_18 /\ float_repr float_18 = "18.0".
Proof. split; vm_compute; reflexivity. Qed.

Example float_10_23_is_10_23 :
  float_repr float_10_23 = "10.23"
  /\ cutie_extractor.scaled morning_run "distance" 1000 = Ret (PyFloat float_10_23).
Proof. split; vm_compute; reflexivity. Qed.

Example zero_speed_is_kept :
  cutie_extractor.kmh (PyFloat float_zero) = Ret (PyFloat float_zero)
  /\ cutie_extractor.kmh (PyInt 0) = Ret (PyInt 0)
  /\ cutie_extractor.kmh PyNone = Ret PyNone.
Proof. repeat split. Qed.

(** *** Records the normalisers raise on, and the values of missing fields *)

(** Claim C4 as stated fails: an activity whose distance is a string is a
    mapping from string keys to scalars, and both normalisers raise
    [TypeError] on it. *)
Lemma normalize_raises_on_text_distance :
  cutie_extractor.extract_activity_data bad_distance = Raise TypeError
  /\ strava_extractor.extract_activity_data bad_distance = Raise TypeError.
Proof. split; vm_compute; reflexivity. Qed.

Example null_distance_raises :
  cutie_extractor.extract_activity_data (<["distance" := PyNone]> ∅)
  = Raise TypeError.
Proof. vm_compute. reflexivity. Qed.

Lemma normalize_returns_on_typed_records_witness :
  compact_ok morning_run = true
  /\ extended_ok morning_run = true
  /\ (exists r, cutie_extractor.extract_activity_data morning_run = Ret r)
  /\ (exists r, strava_extractor.extract_activity_data morning_run = Ret r).
Proof.
  split; [vm_compute; reflexivity|]. split; [vm_compute; reflexivity|].
  apply (normalize_returns_on_typed_records morning_run morning_run);
    vm_compute; reflexivity.
Defined.

(** Claim C5 as stated fails: on the activity without any field the
    compact row binds [distance] to [0.0], which is neither [None] nor the
    empty string, and which is written to the file as [0.0]. *)
Lemma missing_distance_is_zero_not_null :
  (∅ : activity) !! "distance" = None
  /\ exists r,
       cutie_extractor.extract_activity_data ∅ = Ret r
       /\ row_get r "distance" = Some (PyFloat float_zero)
       /\ PyFloat float_zero <> PyNone
       /\ PyFloat float_zero <> PyStr ""
       /\ py_str (PyFloat float_zero) = "0.0".
Proof.
  split; [reflexivity|]. eexists. split; [vm_compute; reflexivity|].
  repeat split; discriminate.
Qed.

Lemma rows_have_one_shape_witness :
  exists r s,
    cutie_extractor.extract_activity_data (sample_activity 1) = Ret r
    /\ strava_extractor.extract_activity_data (sample_activity 1) = Ret s
    /\ (keys r = field_names compact_fields
        /\ forall field source missing,
             In (field, source, missing) compact_fields ->
             sample_activity 1 !! source = None -> row_get r field = Some missing)
    /\ (keys s = field_names extended_fields
        /\ forall field source missing,
             In (field, source, missing) extended_fields ->
             sample_activity 1 !! source = None -> row_get s field = Some missing).
Proof.
  eexists. eexists.
  split; [vm_compute; reflexivity|]. split; [vm_compute; reflexivity|].
  apply (rows_have_one_shape (sample_activity 1) (sample_activity 1)); reflexivity.
Defined.

(** ** Reading back what [csv.writer] wrote *)

Lemma string_app_cons x (a b : string) :
  (String x a ++ b)%string = String x (a ++ b)%string.
Proof. reflexivity. Qed.

Lemma string_app_nil_l (a : string) : ("" ++ a)%string = a.
Proof. reflexivity. Qed.

Lemma string_app_assoc (a b c : string) : ((a ++ b) ++ c = a ++ (b ++ c))%string.
Proof.
  induction a as [|x a IH]; [reflexivity|].
  rewrite !string_app_cons, IH. reflexivity.
Qed.

Lemma string_app_nil_r (a : string) : (a ++ "" = a)%string.
Proof.
  induction a as [|x a IH]; [reflexivity|].
  rewrite string_app_cons, IH. reflexivity.
Qed.

(** Push [++] on strings under the characters in front. *)
Ltac push_app := rewrite ?string_app_cons, ?string_app_nil_l.

Lemma special_false c :
  special c = false ->
  Ascii.eqb c comma = false /\ Ascii.eqb c dquote = false
  /\ Ascii.eqb c CR = false /\ Ascii.eqb c LF = false.
Proof.
  unfold special. intros H.
  repeat (apply orb_false_elim in H; destruct H as [H ?]). auto.
Qed.

Lemma read_unquoted cell : forall field fields c rest,
  has_special cell = false -> separator c ->
  csv_read InField field fields (cell ++ String c rest)%string
  = after_cell c fields (field ++ cell)%string rest.
Proof.
  induction cell as [|x cell IH]; intros field fields c rest Hs Hc.
  - rewrite string_app_nil_r. push_app; cbn [csv_read reader_step].
    unfold after_cell. destruct Hc as [-> | ->]; reflexivity.
  - cbn [has_special] in Hs. apply orb_false_elim in Hs as [Hx Hs].
    destruct (special_false _ Hx) as (H1 & H2 & H3 & H4).
    push_app; cbn [csv_read reader_step]. unfold field_step.
    rewrite H3, H4, H1. rewrite (IH _ _ _ _ Hs Hc).
    rewrite string_app_assoc. reflexivity.
Qed.

Lemma read_quoted cell : forall field fields c rest,
  separator c ->
  csv_read InQuotedField field fields
    (double_quotes cell ++ String dquote (String c rest))%string
  = after_cell c fields (field ++ cell)%string rest.
Proof.
  induction cell as [|x cell IH]; intros field fields c rest Hc.
  - rewrite string_app_nil_r. cbn [double_quotes]; push_app; cbn [csv_read reader_step].
    change (Ascii.eqb dquote dquote) with true. cbn iota.
    unfold after_cell. destruct Hc as [-> | ->]; reflexivity.
  - cbn [double_quotes]. destruct (Ascii.eqb x dquote) eqn:Hx.
    + apply Ascii.eqb_eq in Hx as ->.
      push_app; cbn [csv_read reader_step].
      change (Ascii.eqb dquote dquote) with true. cbn iota.
      cbn [csv_read reader_step].
      change (Ascii.eqb dquote dquote) with true. cbn iota.
      rewrite (IH _ _ _ _ Hc), string_app_assoc. reflexivity.
    + push_app; cbn [csv_read reader_step]. rewrite Hx.
      rewrite (IH _ _ _ _ Hc), string_app_assoc. reflexivity.
Qed.

(** One cell and its separator, read at the start of a record or after a
    comma. At the start of a record an empty cell before the line end is
    the one case [csv.writer] never writes: it would read as a blank line. *)
Lemma read_cell cell st fields c rest :
  separator c ->
  st = StartField \/ (st = StartRecord /\ (cell = "" -> c = comma)) ->
  csv_read st "" fields (csv_field cell ++ String c rest)%string
  = after_cell c fields cell rest.
Proof.
  intros Hc Hst. unfold csv_field.
  destruct (has_special cell) eqn:Hs.
  - push_app; cbn [csv_read].
    assert (Hq : reader_step st dquote = (InQuotedField, Skip)).
    { destruct Hst as [-> | [-> _]]; reflexivity. }
    rewrite Hq. rewrite string_app_assoc. push_app.
    apply (read_quoted cell "" fields c rest Hc).
  - destruct cell as [|x cell].
    + push_app; cbn [csv_read]. unfold after_cell.
      destruct Hst as [-> | [-> Hne]].
      * destruct Hc as [-> | ->]; reflexivity.
      * rewrite (Hne eq_refl). reflexivity.
    + cbn [has_special] in Hs. apply orb_false_elim in Hs as [Hx Hs].
      destruct (special_false _ Hx) as (H1 & H2 & H3 & H4).
      push_app; cbn [csv_read].
      assert (Hq : reader_step st x = (InField, AddChar)).
      { destruct Hst as [-> | [-> _]]; cbn [reader_step];
          unfold record_step, field_step; rewrite ?H1, ?H2, ?H3, ?H4;
          reflexivity. }
      rewrite Hq. push_app.
      apply (read_unquoted cell (String x "") fields c rest Hs Hc).
Qed.

Lemma read_join cells : forall st fields rest,
  cells <> [] ->
  st = StartField \/ (st = StartRecord /\ cells <> [""]) ->
  csv_read st "" fields (csv_join cells ++ CRLF ++ rest)%string
  = (fields ++ cells) :: csv_read StartRecord "" [] rest.
Proof.
  induction cells as [|cell cells IH]; intros st fields rest Hne Hst;
    [congruence|].
  destruct cells as [|cell' cells].
  - cbn [csv_join]. unfold CRLF. push_app.
    rewrite read_cell.
    + reflexivity.
    + right; reflexivity.
    + destruct Hst as [-> | [-> Hst]]; [left; reflexivity|].
      right. split; [reflexivity|]. intros ->. congruence.
  - change (csv_join (cell :: cell' :: cells))
      with (csv_field cell ++ String comma (csv_join (cell' :: cells)))%string.
    rewrite string_app_assoc. push_app.
    rewrite read_cell.
    + unfold after_cell. change (Ascii.eqb comma comma) with true. cbn iota.
      rewrite IH by (auto; congruence).
      rewrite <- app_assoc. reflexivity.
    + left; reflexivity.
    + destruct Hst as [-> | [-> Hst]]; [left; reflexivity|].
      right. split; reflexivity.
Qed.

(** The reader gives back the row [csv.writer] wrote, whatever its cells
    hold, and goes on with the next line. *)
Lemma read_writerow cells rest :
  csv_read StartRecord "" [] (csv_writerow cells ++ rest)%string
  = cells :: csv_read StartRecord "" [] rest.
Proof.
  destruct cells as [|cell cells]; [reflexivity|].
  destruct cells as [|cell' cells].
  - destruct cell as [|x cell]; [reflexivity|].
    unfold csv_writerow. rewrite string_app_assoc.
    rewrite read_join; [reflexivity|congruence|].
    right. split; [reflexivity|congruence].
  - unfold csv_writerow.
    assert (H : match cell with
                | "" => (csv_join (cell :: cell' :: cells) ++ CRLF)%string
                | String _ _ => (csv_join (cell :: cell' :: cells) ++ CRLF)%string
                end = (csv_join (cell :: cell' :: cells) ++ CRLF)%string)
      by (destruct cell; reflexivity).
    destruct cell; rewrite string_app_assoc;
      (rewrite read_join; [reflexivity|congruence|]);
      right; (split; [reflexivity|congruence]).
Qed.

Theorem csv_roundtrip rows : csv_reader (csv_lines rows) = rows.
Proof.
  unfold csv_reader. induction rows as [|cells rows IH]; [reflexivity|].
  cbn [csv_lines]. rewrite read_writerow, IH. reflexivity.
Qed.

(** ** [export_to_csv] *)

Lemma string_length_app (a b : string) :
  String.length (a ++ b)%string = (String.length a + String.length b)%nat.
Proof.
  induction a as [|x a IH]; [reflexivity|].
  rewrite string_app_cons. cbn [String.length]. rewrite IH. reflexivity.
Qed.

(** [open] on a name it takes. *)
Lemma open_w_opens fs path :
  unwritable fs path = false -> open_w path fs = (Ret tt, with_file fs path "").
Proof.
  unfold unwritable, open_w. intros [-> ->]%orb_false_elim. reflexivity.
Qed.

(** [open] on a name it does not take. *)
Lemma open_w_fails fs path :
  unwritable fs path = true ->
  open_w path fs = (Raise (if has_nul path then ValueError else IOError), fs).
Proof.
  unfold unwritable, open_w. destruct (has_nul path); [reflexivity|].
  cbn [orb]. intros ->. reflexivity.
Qed.

(** What fits still fits when it is shorter. *)
Lemma fits_prefix fs (a b : string) :
  fits fs (a ++ b)%string = true -> fits fs a = true.
Proof.
  unfold fits. destruct (quota fs) as [q|]; [|reflexivity].
  rewrite string_length_app. intros H%Nat.leb_le. apply Nat.leb_le. lia.
Qed.

Lemma fits_with_file fs path content text :
  fits (with_file fs path content) text = fits fs text.
Proof. reflexivity. Qed.

Lemma with_file_twice fs path a b :
  with_file (with_file fs path a) path b = with_file fs path b.
Proof.
  unfold with_file. cbn [files refused quota]. rewrite insert_insert_eq.
  reflexivity.
Qed.

Lemma write_appends fs path old text :
  files fs !! path = Some old ->
  fits fs (old ++ text)%string = true ->
  write path text fs = (Ret tt, with_file fs path (old ++ text)%string).
Proof. unfold write. intros -> H. cbn [from_option id]. rewrite H. reflexivity. Qed.

(** A row with the field names of the header, none of them twice, is
    written in the order of its items. *)
Lemma row_get_fresh (r : row) k :
  k ∉ keys r -> row_get r k = None.
Proof.
  induction r as [|[k' v] r IH]; [reflexivity|].
  cbn [keys map fst row_get]. intros Hk.
  apply not_elem_of_cons in Hk as [Hne Hk].
  destruct (String.eqb_spec k' k) as [->|_]; [congruence|]. apply IH, Hk.
Qed.

Lemma values_in_order (r : row) :
  NoDup (keys r) ->
  map (fun k => default (PyStr "") (row_get r k)) (keys r) = map snd r.
Proof.
  induction r as [|[k v] r IH]; [reflexivity|].
  cbn [keys map fst snd]. intros Hnd. apply NoDup_cons in Hnd as [Hk Hnd].
  cbn [row_get]. rewrite String.eqb_refl. cbn [from_option id]. f_equal.
  rewrite <- (IH Hnd). apply map_ext_in. intros k' Hin.
  destruct (String.eqb_spec k k') as [->|_]; [|reflexivity].
  exfalso. apply Hk. apply list_elem_of_In. exact Hin.
Qed.

Lemma keys_are_fieldnames (names : list string) :
  forallb (fun k => existsb (String.eqb k) names) names = true.
Proof.
  apply forallb_forall. intros k Hin. apply existsb_exists.
  exists k. split; [exact Hin|apply String.eqb_refl].
Qed.

Lemma dict_to_list_row (r : row) :
  NoDup (keys r) -> dict_to_list (keys r) r = Ret (map snd r).
Proof.
  intros Hnd. unfold dict_to_list.
  rewrite keys_are_fieldnames, (values_in_order _ Hnd). reflexivity.
Qed.

Section export_facts.
Variable extract : activity -> exc row.
Variable fieldnames : list string.
Hypothesis fieldnames_nodup : NoDup fieldnames.
Hypothesis extract_keys : forall a r, extract a = Ret r -> keys r = fieldnames.

Lemma extract_all_cons a activities rows :
  extract_all extract (a :: activities) = Ret rows ->
  exists r rs,
    extract a = Ret r /\ extract_all extract activities = Ret rs /\ rows = r :: rs.
Proof.
  cbn [extract_all]. destruct (extract a) as [r|]; [|discriminate].
  destruct (extract_all extract activities) as [rs|]; [|discriminate].
  cbn. intros [= <-]. eauto.
Qed.

Lemma extract_all_length activities : forall rows,
  extract_all extract activities = Ret rows -> length activities = length rows.
Proof.
  induction activities as [|a activities IH]; intros rows Hrows.
  - injection Hrows as <-. reflexivity.
  - destruct (extract_all_cons _ _ _ Hrows) as (r & rs & _ & Hrs & ->).
    cbn [length]. f_equal. exact (IH _ Hrs).
Qed.

Lemma writerow_appends fs filename old r :
  keys r = fieldnames ->
  files fs !! filename = Some old ->
  fits fs (old ++ csv_writerow (formatted r))%string = true ->
  writerow filename fieldnames r fs
  = (Ret tt, with_file fs filename (old ++ csv_writerow (formatted r))%string).
Proof.
  intros Hk Hold Hfit. unfold writerow, io_bind, io_lift.
  rewrite <- Hk, dict_to_list_row by (rewrite Hk; exact fieldnames_nodup).
  replace (map py_str (map snd r)) with (formatted r)
    by (unfold formatted; rewrite map_map; reflexivity).
  apply write_appends; assumption.
Qed.

(** The loop over the activities appends their rows. *)
Lemma rows_appended filename activities : forall rows fs old,
  extract_all extract activities = Ret rows ->
  files fs !! filename = Some old ->
  fits fs (old ++ csv_lines (map formatted rows))%string = true ->
  for_each activities
    (fun activity =>
       io_bind (io_lift (extract activity)) (writerow filename fieldnames)) fs
  = (Ret tt,
     with_file fs filename (old ++ csv_lines (map formatted rows))%string).
Proof.
  induction activities as [|a activities IH]; intros rows fs old Hrows Hold Hfit.
  - injection Hrows as <-. cbn [map csv_lines for_each io_ret].
    rewrite string_app_nil_r. unfold with_file.
    rewrite insert_id by exact Hold. destruct fs; reflexivity.
  - destruct (extract_all_cons _ _ _ Hrows) as (r & rs & Hr & Hrs & ->).
    cbn [map csv_lines] in Hfit |- *. rewrite <- string_app_assoc in Hfit.
    cbn [for_each]. unfold io_bind at 1. unfold io_bind at 1, io_lift at 1.
    rewrite Hr.
    rewrite (writerow_appends fs filename old r (extract_keys _ _ Hr) Hold
               (fits_prefix _ _ _ Hfit)).
    rewrite (IH rs _ (old ++ csv_writerow (formatted r))%string Hrs).
    + rewrite with_file_twice, string_app_assoc. reflexivity.
    + cbn [with_file files]. apply lookup_insert_eq.
    + rewrite fits_with_file. exact Hfit.
Qed.

Lemma export_writes first others first_row other_rows filename fs :
  extract_all extract (first :: others) = Ret (first_row :: other_rows) ->
  unwritable fs filename = false ->
  fits fs (csv_lines (fieldnames :: map formatted (first_row :: other_rows)))
    = true ->
  export_to_csv_with extract (first :: others) filename fs
  = (Ret true,
     with_file fs filename
       (csv_lines (fieldnames :: map formatted (first_row :: other_rows)))).
Proof.
  intros Hrows Hopen Hfit.
  destruct (extract_all_cons _ _ _ Hrows) as (r & rs & Hr & Hrs & [= <- <-]).
  unfold export_to_csv_with, except_IOError.
  unfold io_bind at 1, io_lift at 1. rewrite Hr.
  rewrite (extract_keys _ _ Hr).
  unfold io_bind at 1. rewrite (open_w_opens _ _ Hopen).
  cbn [csv_lines] in Hfit.
  unfold io_bind at 1.
  rewrite (write_appends (with_file fs filename "") filename ""
             (csv_writerow fieldnames)).
  2: { cbn [with_file files]. apply lookup_insert_eq. }
  2: { rewrite fits_with_file, string_app_nil_l.
       exact (fits_prefix _ _ _ Hfit). }
  rewrite with_file_twice, string_app_nil_l.
  unfold io_bind at 1.
  rewrite (rows_appended filename (first :: others) (first_row :: other_rows)
             _ (csv_writerow fieldnames) Hrows).
  - rewrite with_file_twice. reflexivity.
  - cbn [with_file files]. apply lookup_insert_eq.
  - rewrite fits_with_file. exact Hfit.
Qed.

(** Exporting and reading the file back. *)
Lemma export_read_back first others first_row other_rows filename fs :
  extract_all extract (first :: others) = Ret (first_row :: other_rows) ->
  unwritable fs filename = false ->
  fits fs (csv_lines (fieldnames :: map formatted (first_row :: other_rows)))
    = true ->
  exists text,
    export_to_csv_with extract (first :: others) filename fs
    = (Ret true, with_file fs filename text)
    /\ csv_reader text
       = keys first_row :: map formatted (first_row :: other_rows)
    /\ length (tail (csv_reader text)) = length (first :: others).
Proof.
  intros Hrows Hopen Hfit.
  exists (csv_lines (fieldnames :: map formatted (first_row :: other_rows))).
  split; [exact (export_writes _ _ _ _ _ _ Hrows Hopen Hfit)|].
  rewrite csv_roundtrip.
  destruct (extract_all_cons _ _ _ Hrows) as (r & rs & Hr & Hrs & [= <- <-]).
  rewrite (extract_keys _ _ Hr). split; [reflexivity|].
  cbn [tail]. rewrite length_map. symmetry.
  exact (extract_all_length _ _ Hrows).
Qed.
End export_facts.

Lemma compact_names_nodup : NoDup (field_names compact_fields).
Proof. compute_done. Qed.

Lemma extended_names_nodup : NoDup (field_names extended_fields).
Proof. compute_done. Qed.

(** ** Claims about [export_to_csv] *)

(** Claim C9. When the activities (at least one) can all be normalised and
    the file can be opened and holds the text, [export_to_csv] returns
    [True] and leaves a file that [csv.reader] reads back as: the field
    names of the first row, in their order, then one record per activity
    with the values of its row as [str] formats them. For the compact and
    for the extended field set. *)
Theorem export_reads_back :
  forall first others first_row other_rows
         first' others' first_row' other_rows' filename fs,
    extract_all cutie_extractor.extract_activity_data (first :: others)
      = Ret (first_row :: other_rows) ->
    extract_all strava_extractor.extract_activity_data (first' :: others')
      = Ret (first_row' :: other_rows') ->
    unwritable fs filename = false ->
    fits fs (csv_lines (keys first_row
                        :: map formatted (first_row :: other_rows))) = true ->
    fits fs (csv_lines (keys first_row'
                        :: map formatted (first_row' :: other_rows'))) = true ->
    (exists text,
       cutie_extractor.export_to_csv (first :: others) filename fs
       = (Ret true, with_file fs filename text)
       /\ csv_reader text
          = keys first_row :: map formatted (first_row :: other_rows)
       /\ length (tail (csv_reader text)) = length (first :: others))
    /\ (exists text,
          strava_extractor.export_to_csv (first' :: others') filename fs
          = (Ret true, with_file fs filename text)
          /\ csv_reader text
             = keys first_row' :: map formatted (first_row' :: other_rows')
          /\ length (tail (csv_reader text)) = length (first' :: others')).
Proof.
  intros first others first_row other_rows first' others' first_row' other_rows'
    filename fs Hrows Hrows' Hopen Hfit Hfit'.
  assert (Hk : keys first_row = field_names compact_fields).
  { destruct (extract_all_cons _ _ _ _ Hrows) as (r & rs & Hr & _ & [= <- <-]).
    exact (compact_keys _ _ Hr). }
  assert (Hk' : keys first_row' = field_names extended_fields).
  { destruct (extract_all_cons _ _ _ _ Hrows') as (r & rs & Hr & _ & [= <- <-]).
    exact (extended_keys _ _ Hr). }
  rewrite Hk in Hfit. rewrite Hk' in Hfit'. split.
  - exact (export_read_back _ _ compact_names_nodup compact_keys _ _ _ _ _ _
             Hrows Hopen Hfit).
  - exact (export_read_back _ _ extended_names_nodup extended_keys _ _ _ _ _ _
             Hrows' Hopen Hfit').
Qed.

(** Claim C8. With no activities [export_to_csv] returns [False] and the
    file system is what it was: no file is created or truncated, at any
    path. *)
Theorem export_of_nothing_fails :
  forall filename fs,
    cutie_extractor.export_to_csv [] filename fs = (Ret false, fs)
    /\ strava_extractor.export_to_csv [] filename fs = (Ret false, fs).
Proof. intros filename fs. split; reflexivity. Qed.

Lemma export_reads_back_witness :
  exists text,
    cutie_extractor.export_to_csv [morning_run; sample_activity 1] "out.csv"
      busy_disk
    = (Ret true, with_file busy_disk "out.csv" text)
    /\ csv_reader text
       = [ [ "id"; "name"; "distance"; "moving_time"; "elapsed_time";
             "total_elevation_gain"; "start_date"; "average_speed";
             "max_speed"; "average_temp"; "elev_high"; "elev_low"; "calories";
             "pr_count" ];
           [ "7"; "Morning, run"; "10.23"; "0.0"; ""; ""; ""; "18.0"; "0"; "";
             ""; ""; ""; "" ];
           [ "1"; ""; "0.0"; "0.0"; ""; ""; ""; "0"; "0"; ""; ""; ""; ""; "" ] ].
Proof.
  eassert (Hc : extract_all cutie_extractor.extract_activity_data
                  [morning_run; sample_activity 1] = Ret (_ :: _))
    by (vm_compute; reflexivity).
  eassert (Hs : extract_all strava_extractor.extract_activity_data
                  [morning_run; sample_activity 1] = Ret (_ :: _))
    by (vm_compute; reflexivity).
  destruct (export_reads_back _ _ _ _ _ _ _ _ "out.csv" busy_disk Hc Hs)
    as [(text & H1 & H2 & _) _];
    [ reflexivity | vm_compute; reflexivity | vm_compute; reflexivity | ].
  exists text. split; [exact H1|]. rewrite H2. vm_compute. reflexivity.
Defined.

Example export_of_nothing_keeps_the_file :
  cutie_extractor.export_to_csv [] "out.csv" busy_disk = (Ret false, busy_disk)
  /\ files busy_disk !! "out.csv" = Some "old text"
  /\ cutie_extractor.export_to_csv [] "new.csv" busy_disk = (Ret false, busy_disk)
  /\ files busy_disk !! "new.csv" = None.
Proof. repeat split. Qed.

Example export_to_unwritable_path_fails :
  cutie_extractor.export_to_csv [morning_run] "/proc/out.csv" busy_disk
  = (Ret false, busy_disk).
Proof. vm_compute. reflexivity. Qed.

(** * Further properties *)

(** ** More about [get_activities] *)

Section more_loop_facts.
Variable upstream : request -> reply.
Variables (after before per_page : Z) (max_activities : option Z).

Local Abbreviation served := (page_of upstream after before per_page).
Local Abbreviation failed := (page_error upstream after before per_page).
Local Abbreviation ask := (page_request after before per_page).
Local Abbreviation asked := (page_requests after before per_page).
Local Abbreviation body_of := (page_body upstream after before per_page).
Local Abbreviation cli_try :=
  (strava_extractor.try_page upstream after before per_page max_activities).
Local Abbreviation cli_loop :=
  (strava_extractor.loop upstream after before per_page max_activities).
Local Abbreviation gui_try :=
  (cutie_extractor.try_page upstream after before per_page max_activities).
Local Abbreviation gui_loop :=
  (cutie_extractor.loop upstream after before per_page max_activities).

(** Every page goes one of the seven ways. *)
Lemma page_cases acts p :
  page_case upstream after before per_page max_activities acts p.
Proof.
  destruct (upstream (ask p)) as [e|r] eqn:Hup.
  - assert (He : failed p = Some e) by (unfold page_error; rewrite Hup; reflexivity).
    assert (Hs : served p = None) by (unfold page_of; rewrite Hup; reflexivity).
    apply (CaseError _ _ _ _ _ _ _ e He Hs).
    + exact (cli_try_error _ _ _ _ _ _ _ _ He).
    + exact (gui_try_error _ _ _ _ _ _ _ _ He).
  - destruct (status_code r =? 401) eqn:H401.
    { apply Z.eqb_eq in H401.
      apply (CaseAuth _ _ _ _ _ _ _ r Hup H401).
      - unfold page_of. rewrite Hup, H401. reflexivity.
      - exact (cli_try_401 _ _ _ _ _ _ _ _ Hup H401).
      - exact (gui_try_401 _ _ _ _ _ _ _ _ Hup H401). }
    destruct (status_code r =? 429) eqn:H429.
    { apply Z.eqb_eq in H429.
      apply (CaseRate _ _ _ _ _ _ _ r Hup H429).
      - unfold page_of. rewrite Hup, H429. reflexivity.
      - unfold strava_extractor.try_page, requests_get.
        fold (ask p). rewrite Hup. cbn [mbind exc_bind]. rewrite H429. reflexivity.
      - unfold cutie_extractor.try_page, requests_get.
        fold (ask p). rewrite Hup. cbn [mbind exc_bind]. rewrite H429. reflexivity. }
    destruct ((400 <=? status_code r) && (status_code r <? 600)) eqn:Hbad.
    { assert (He : failed p = Some (HTTPError (status_code r))).
      { unfold page_error. rewrite Hup, H401, H429, Hbad. reflexivity. }
      assert (Hs : served p = None).
      { unfold page_of. rewrite Hup, H401, H429, Hbad. reflexivity. }
      apply (CaseError _ _ _ _ _ _ _ _ He Hs).
      - exact (cli_try_error _ _ _ _ _ _ _ _ He).
      - exact (gui_try_error _ _ _ _ _ _ _ _ He). }
    assert (Hs : served p
                 = match body r with
                   | Json (JsonArray records) => Some records
                   | Json JsonFalsy => Some []
                   | _ => None
                   end).
    { unfold page_of. rewrite Hup, H401, H429, Hbad. reflexivity. }
    assert (He : failed p
                 = match body r with
                   | NotJson => Some JSONDecodeError
                   | _ => None
                   end).
    { unfold page_error. rewrite Hup, H401, H429, Hbad. reflexivity. }
    assert (Hc : page_crash upstream after before per_page p
                 = match body r with
                   | Json JsonNumber => Some TypeError
                   | HugeInteger => Some ValueError
                   | TooDeep => Some RecursionError
                   | _ => None
                   end).
    { unfold page_crash. fold (ask p). rewrite Hup, H401, H429, Hbad.
      reflexivity. }
    destruct (body r) as [[[|x b]| |]| | |] eqn:Hbody.
    + apply (CaseEmpty _ _ _ _ _ _ _ Hs).
      * exact (cli_try_empty _ _ _ _ _ _ _ Hs).
      * exact (gui_try_empty _ _ _ _ _ _ _ Hs).
    + destruct (limit_reached max_activities (acts ++ x :: b)) eqn:Hl.
      * apply (CaseLimit _ _ _ _ _ _ _ x b Hs Hl).
        -- exact (cli_try_limit _ _ _ _ _ _ _ _ _ Hs Hl).
        -- exact (gui_try_limit _ _ _ _ _ _ _ _ _ Hs Hl).
      * apply (CaseNext _ _ _ _ _ _ _ x b Hs Hl).
        -- exact (cli_try_next _ _ _ _ _ _ _ _ _ Hs Hl).
        -- exact (gui_try_next _ _ _ _ _ _ _ _ _ Hs Hl).
    + apply (CaseEmpty _ _ _ _ _ _ _ Hs).
      * exact (cli_try_empty _ _ _ _ _ _ _ Hs).
      * exact (gui_try_empty _ _ _ _ _ _ _ Hs).
    + apply (CaseCrash _ _ _ _ _ _ _ _ Hc Hs); [auto|..].
      * exact (cli_try_crash _ _ _ _ _ _ _ _ Hc).
      * exact (gui_try_crash _ _ _ _ _ _ _ _ Hc).
    + apply (CaseError _ _ _ _ _ _ _ _ He Hs).
      * exact (cli_try_error _ _ _ _ _ _ _ _ He).
      * exact (gui_try_error _ _ _ _ _ _ _ _ He).
    + apply (CaseCrash _ _ _ _ _ _ _ _ Hc Hs); [auto|..].
      * exact (cli_try_crash _ _ _ _ _ _ _ _ Hc).
      * exact (gui_try_crash _ _ _ _ _ _ _ _ Hc).
    + apply (CaseCrash _ _ _ _ _ _ _ _ Hc Hs); [auto|..].
      * exact (cli_try_crash _ _ _ _ _ _ _ _ Hc).
      * exact (gui_try_crash _ _ _ _ _ _ _ _ Hc).
Qed.

Lemma length_asked n : length (asked n) = n.
Proof. unfold page_requests. rewrite length_map, length_seq. reflexivity. Qed.

Lemma asked_step j :
  asked j ++ [mkRequest after before (Z.of_nat j + 1) per_page] = asked (S j).
Proof.
  rewrite page_requests_S. unfold page_request.
  replace (Z.of_nat (S j)) with (Z.of_nat j + 1) by lia. reflexivity.
Qed.

Lemma first_pages_step j :
  first_pages body_of (S j)
  = first_pages body_of j ++ body_of (Z.of_nat j + 1).
Proof.
  rewrite first_pages_S. replace (Z.of_nat (S j)) with (Z.of_nat j + 1) by lia.
  reflexivity.
Qed.

Lemma first_pages_served j l :
  served (Z.of_nat j + 1) = Some l ->
  first_pages body_of (S j) = first_pages body_of j ++ l.
Proof. intros H. rewrite first_pages_step. unfold page_body. rewrite H. reflexivity. Qed.

Lemma first_pages_unserved j :
  served (Z.of_nat j + 1) = None ->
  first_pages body_of (S j) = first_pages body_of j.
Proof.
  intros H. rewrite first_pages_step. unfold page_body. rewrite H.
  apply app_nil_r.
Qed.

Lemma slice_to_prefix (l : list activity) m : slice_to l m `prefix_of` l.
Proof. unfold slice_to. destruct (m <? 0); apply prefix_take. Qed.

Lemma slice_to_length (l : list activity) m :
  0 < m -> Z.of_nat (length (slice_to l m)) <= m.
Proof.
  intros Hm. unfold slice_to. destruct (m <? 0) eqn:E; [apply Z.ltb_lt in E; lia|].
  rewrite length_take. lia.
Qed.

Lemma not_reached_below acts m :
  0 < m -> limit_reached (Some m) acts = false -> Z.of_nat (length acts) < m.
Proof.
  unfold limit_reached. intros Hm H.
  apply andb_false_iff in H as [H|H].
  - apply negb_false_iff, Z.eqb_eq in H. lia.
  - apply Z.leb_gt in H. exact H.
Qed.

(** What holds of every outcome of the loop, started after [j] pages. *)
Lemma cli_loop_outcome fuel : forall acts j log o,
  acts = first_pages body_of j ->
  (forall m, max_activities = Some m -> 0 < m -> Z.of_nat (length acts) < m) ->
  cli_loop fuel acts (Z.of_nat j + 1) (asked j) log = Some o ->
  exists k,
    (j < k <= j + fuel)%nat
    /\ requests o = asked k
    /\ forall records, returned o = Ret records ->
         records `prefix_of` first_pages body_of k
         /\ (forall m, max_activities = Some m -> 0 < m ->
               Z.of_nat (length records) <= m).
Proof.
  induction fuel as [|fuel IH]; intros acts j log o Hacts Hcap; [discriminate|].
  cbn [strava_extractor.loop]. rewrite asked_step.
  destruct (page_cases acts (Z.of_nat j + 1))
    as [r Hup Hst Hs Hc _|r Hup Hst Hs Hc _|e He Hs Hc _|Hs Hc _
       |x b Hs Hl Hc _|x b Hs Hl Hc _|e He Hs Hk Hc _]; rewrite Hc.
  - intros [= <-]. exists (S j). cbn [requests returned].
    repeat split; try lia; injection H as <-. { apply prefix_nil. }
    intros; cbn; lia.
  - intros [= <-]. exists (S j). cbn [requests returned].
    repeat split; try lia; injection H as <-.
    + rewrite (first_pages_unserved _ Hs), Hacts. reflexivity.
    + intros m Hm Hpos. specialize (Hcap m Hm Hpos). lia.
  - intros [= <-]. exists (S j). cbn [requests returned strava_extractor.finish].
    repeat split; try lia; injection H as <-.
    + rewrite (first_pages_unserved _ Hs), Hacts. reflexivity.
    + intros m Hm Hpos. specialize (Hcap m Hm Hpos). lia.
  - intros [= <-]. exists (S j). cbn [requests returned strava_extractor.finish].
    repeat split; try lia; injection H as <-.
    + rewrite (first_pages_served _ _ Hs), app_nil_r, Hacts. reflexivity.
    + intros m Hm Hpos. specialize (Hcap m Hm Hpos). lia.
  - intros [= <-]. exists (S j). cbn [requests returned strava_extractor.finish].
    repeat split; try lia; injection H as <-.
    + rewrite (first_pages_served _ _ Hs), <- Hacts. apply slice_to_prefix.
    + intros m Hm Hpos. rewrite Hm. cbn [from_option id].
      apply slice_to_length, Hpos.
  - intros Hloop.
    replace (Z.of_nat j + 1 + 1) with (Z.of_nat (S j) + 1) in Hloop by lia.
    apply IH in Hloop as (k & Hk & Hreq & Hrec).
    + exists k. repeat split; try assumption; try lia; apply Hrec; assumption.
    + rewrite (first_pages_served _ _ Hs), Hacts. reflexivity.
    + intros m Hm Hpos. rewrite Hm in Hl. exact (not_reached_below _ _ Hpos Hl).
  - destruct Hk as [-> | [-> | ->]]; intros [= <-]; exists (S j);
      cbn [requests returned]; repeat split; try lia; discriminate.
Qed.

Lemma gui_loop_outcome fuel : forall acts j o,
  acts = first_pages body_of j ->
  (forall m, max_activities = Some m -> 0 < m -> Z.of_nat (length acts) < m) ->
  gui_loop fuel acts (Z.of_nat j + 1) (asked j) = Some o ->
  exists k,
    (j < k <= j + fuel)%nat
    /\ requests o = asked k
    /\ forall records, returned o = Ret (Some records) ->
         records `prefix_of` first_pages body_of k
         /\ (forall m, max_activities = Some m -> 0 < m ->
               Z.of_nat (length records) <= m).
Proof.
  induction fuel as [|fuel IH]; intros acts j o Hacts Hcap; [discriminate|].
  cbn [cutie_extractor.loop]. rewrite asked_step.
  destruct (page_cases acts (Z.of_nat j + 1))
    as [r Hup Hst Hs _ Hc|r Hup Hst Hs _ Hc|e He Hs _ Hc|Hs _ Hc
       |x b Hs Hl _ Hc|x b Hs Hl _ Hc|e He Hs Hk _ Hc]; rewrite Hc.
  - intros [= <-]. exists (S j). cbn [requests returned].
    repeat split; try lia; discriminate.
  - intros [= <-]. exists (S j). cbn [requests returned].
    repeat split; try lia; injection H as <-.
    + rewrite (first_pages_unserved _ Hs), Hacts. reflexivity.
    + intros m Hm Hpos. specialize (Hcap m Hm Hpos). lia.
  - intros [= <-]. exists (S j). cbn [requests returned].
    repeat split; try lia; injection H as <-.
    + rewrite (first_pages_unserved _ Hs), Hacts. reflexivity.
    + intros m Hm Hpos. specialize (Hcap m Hm Hpos). lia.
  - intros [= <-]. exists (S j). cbn [requests returned].
    repeat split; try lia; injection H as <-.
    + rewrite (first_pages_served _ _ Hs), app_nil_r, Hacts. reflexivity.
    + intros m Hm Hpos. specialize (Hcap m Hm Hpos). lia.
  - intros [= <-]. exists (S j). cbn [requests returned].
    repeat split; try lia; injection H as <-.
    + rewrite (first_pages_served _ _ Hs), <- Hacts. apply slice_to_prefix.
    + intros m Hm Hpos. rewrite Hm. cbn [from_option id].
      apply slice_to_length, Hpos.
  - intros Hloop.
    replace (Z.of_nat j + 1 + 1) with (Z.of_nat (S j) + 1) in Hloop by lia.
    apply IH in Hloop as (k & Hk & Hreq & Hrec).
    + exists k. repeat split; try assumption; try lia; apply Hrec; assumption.
    + rewrite (first_pages_served _ _ Hs), Hacts. reflexivity.
    + intros m Hm Hpos. rewrite Hm in Hl. exact (not_reached_below _ _ Hpos Hl).
  - destruct Hk as [-> | [-> | ->]]; intros [= <-]; exists (S j);
      cbn [requests returned]; repeat split; try lia; discriminate.
Qed.

(** With a positive cap the loop ends: every page that lets it go on adds
    a record. *)
Lemma loops_end_under_cap m fuel : forall acts p trace log,
  max_activities = Some m -> 0 < m ->
  Z.of_nat (length acts) < m ->
  (Z.to_nat m - length acts <= fuel)%nat ->
  (exists o, cli_loop fuel acts p trace log = Some o)
  /\ (exists o, gui_loop fuel acts p trace = Some o).
Proof.
  induction fuel as [|fuel IH]; intros acts p trace log Hm Hpos Hlen Hfuel; [lia|].
  cbn [strava_extractor.loop cutie_extractor.loop].
  destruct (page_cases acts p)
    as [r Hup Hst Hs Hc Hg|r Hup Hst Hs Hc Hg|e He Hs Hc Hg|Hs Hc Hg
       |x b Hs Hl Hc Hg|x b Hs Hl Hc Hg|e He Hs Hk Hc Hg]; rewrite Hc, Hg;
    eauto; [|destruct Hk as [-> | [-> | ->]]; eauto].
  rewrite Hm in Hl. apply (not_reached_below _ _ Hpos) in Hl.
  apply IH; try assumption.
  rewrite length_app in Hl |- *. cbn [length] in Hl |- *. lia.
Qed.

(** Without a cap the loop goes on for as long as the pages hold records. *)
Lemma loops_go_on fuel : forall acts p trace log,
  max_activities = None \/ max_activities = Some 0 ->
  (forall q, p <= q -> exists x b, served q = Some (x :: b)) ->
  cli_loop fuel acts p trace log = None /\ gui_loop fuel acts p trace = None.
Proof.
  induction fuel as [|fuel IH]; intros acts p trace log Hmax Hfull; [auto|].
  cbn [strava_extractor.loop cutie_extractor.loop].
  destruct (Hfull p ltac:(lia)) as (x & b & Hs).
  assert (Hl : limit_reached max_activities (acts ++ x :: b) = false)
    by (destruct Hmax as [-> | ->]; reflexivity).
  rewrite (cli_try_next _ _ _ _ _ _ _ _ _ Hs Hl).
  rewrite (gui_try_next _ _ _ _ _ _ _ _ _ Hs Hl).
  apply IH; [assumption|]. intros q Hq. apply Hfull. lia.
Qed.
End more_loop_facts.

(** *** Rate limiting *)

(** Property X1. When the request for a page is answered with status 429,
    [get_activities] ends there and returns the records of the pages before
    it: no further request, no exception. The command-line tool prints the
    rate-limit line and not the total. *)
Theorem rate_limit_returns_partial :
  forall upstream after before per_page max_activities n acc r fuel,
    accumulated upstream after before (Z.min per_page 200) max_activities n
      = Some acc ->
    upstream (page_request after before (Z.min per_page 200) (Z.of_nat n + 1))
      = Answers r ->
    status_code r = 429 ->
    (n < fuel)%nat ->
    strava_extractor.get_activities fuel upstream after before per_page
      max_activities
    = Some (mkOutcome (Ret acc)
              (page_requests after before (Z.min per_page 200) (S n))
              (banner (Z.min per_page 200)
               ++ page_lines upstream after before (Z.min per_page 200)
                    max_activities n
               ++ [MsgRateLimit]))
    /\ cutie_extractor.get_activities fuel upstream after before per_page
         max_activities
       = Some (mkOutcome (Ret (Some acc))
                 (page_requests after before (Z.min per_page 200) (S n)) []).
Proof.
  intros upstream after before per_page max_activities n acc r fuel Hacc Hr Hs Hf.
  unfold strava_extractor.get_activities, cutie_extractor.get_activities.
  replace fuel with (n + S (fuel - S n))%nat by lia.
  rewrite (cli_loop_accumulated _ _ _ _ _ _ _ _ _ _ Hacc).
  rewrite (gui_loop_accumulated _ _ _ _ _ _ _ _ _ Hacc).
  cbn [strava_extractor.loop cutie_extractor.loop].
  destruct (page_cases upstream after before (Z.min per_page 200) max_activities
              acc (Z.of_nat n + 1))
    as [r' Hup Hst _ _ _|r' Hup Hst _ Hc Hg|e He _ _ _|Hp _ _
       |x b Hp _ _ _|x b Hp _ _ _|e He _ _ _ _].
  - unfold page_request in Hr, Hup. congruence.
  - rewrite Hc, Hg. rewrite page_requests_S, <- !app_assoc.
    replace (Z.of_nat (S n)) with (Z.of_nat n + 1) by lia.
    split; reflexivity.
  - unfold page_error in He. fold (page_request after before (Z.min per_page 200) (Z.of_nat n + 1)) in He.
    rewrite Hr, Hs in He. discriminate.
  - unfold page_of in Hp. rewrite Hr, Hs in Hp. discriminate.
  - unfold page_of in Hp. rewrite Hr, Hs in Hp. discriminate.
  - unfold page_of in Hp. rewrite Hr, Hs in Hp. discriminate.
  - unfold page_crash in He. fold (page_request after before (Z.min per_page 200) (Z.of_nat n + 1)) in He.
    rewrite Hr, Hs in He. discriminate.
Qed.

Lemma loops_agree upstream after before per_page max_activities fuel :
  forall acts p trace log,
    same_result
      (strava_extractor.loop upstream after before per_page max_activities fuel
         acts p trace log)
      (cutie_extractor.loop upstream after before per_page max_activities fuel
         acts p trace).
Proof.
  induction fuel as [|fuel IH]; intros acts p trace log; [exact I|].
  cbn [strava_extractor.loop cutie_extractor.loop].
  destruct (page_cases upstream after before per_page max_activities acts p)
    as [r Hup Hst Hs Hc Hg|r Hup Hst Hs Hc Hg|e He Hs Hc Hg|Hs Hc Hg
       |x b Hs Hl Hc Hg|x b Hs Hl Hc Hg|e He Hs Hk Hc Hg]; rewrite Hc, Hg;
    try (repeat split; reflexivity).
  - repeat split. apply last_snoc.
  - apply IH.
  - destruct Hk as [-> | [-> | ->]]; repeat split; reflexivity.
Qed.

(** Property X2. The [get_activities] of the command-line tool and the one
    of the GUI files do the same on every upstream: the same requests in the
    same order, and the same records returned, but on a 401, where the first
    returns the empty list after it said why and the second returns [None].
    One ends exactly when the other does. *)
Theorem variants_agree :
  forall fuel upstream after before per_page max_activities,
    same_result
      (strava_extractor.get_activities fuel upstream after before per_page
         max_activities)
      (cutie_extractor.get_activities fuel upstream after before per_page
         max_activities).
Proof. intros. apply loops_agree. Qed.

(** More fuel does not change an outcome. *)
Lemma cli_loop_more_fuel upstream after before per_page max_activities fuel :
  forall extra acts p trace log o,
    strava_extractor.loop upstream after before per_page max_activities fuel
      acts p trace log = Some o ->
    strava_extractor.loop upstream after before per_page max_activities
      (fuel + extra) acts p trace log = Some o.
Proof.
  induction fuel as [|fuel IH]; intros extra acts p trace log o; [discriminate|].
  cbn [strava_extractor.loop Nat.add].
  destruct (strava_extractor.try_page _ _ _ _ _ _ _) as [[[v|a|a] msgs]|e];
    try (intros H; exact H).
  apply IH.
Qed.

Lemma gui_loop_more_fuel upstream after before per_page max_activities fuel :
  forall extra acts p trace o,
    cutie_extractor.loop upstream after before per_page max_activities fuel
      acts p trace = Some o ->
    cutie_extractor.loop upstream after before per_page max_activities
      (fuel + extra) acts p trace = Some o.
Proof.
  induction fuel as [|fuel IH]; intros extra acts p trace o; [discriminate|].
  cbn [cutie_extractor.loop Nat.add].
  destruct (cutie_extractor.try_page _ _ _ _ _ _ _) as [[v|a|a]|e];
    try (intros H; exact H).
  apply IH.
Qed.



Lemma cli_get_outcome fuel upstream after before per_page max_activities o :
  strava_extractor.get_activities fuel upstream after before per_page
    max_activities = Some o ->
  exists k,
    (1 <= k <= fuel)%nat
    /\ requests o = page_requests after before (Z.min per_page 200) k
    /\ forall records, returned o = Ret records ->
         records `prefix_of`
           first_pages (page_body upstream after before (Z.min per_page 200)) k
         /\ (forall m, max_activities = Some m -> 0 < m ->
               Z.of_nat (length records) <= m).
Proof.
  unfold strava_extractor.get_activities. intros Hget.
  apply (cli_loop_outcome upstream after before (Z.min per_page 200)
           max_activities fuel [] 0) in Hget
    as (k & Hk & Hrest); [|reflexivity|intros; cbn; lia].
  exists k. split; [lia|exact Hrest].
Qed.

Lemma gui_get_outcome fuel upstream after before per_page max_activities o :
  cutie_extractor.get_activities fuel upstream after before per_page
    max_activities = Some o ->
  exists k,
    (1 <= k <= fuel)%nat
    /\ requests o = page_requests after before (Z.min per_page 200) k
    /\ forall records, returned o = Ret (Some records) ->
         records `prefix_of`
           first_pages (page_body upstream after before (Z.min per_page 200)) k
         /\ (forall m, max_activities = Some m -> 0 < m ->
               Z.of_nat (length records) <= m).
Proof.
  unfold cutie_extractor.get_activities. intros Hget.
  apply (gui_loop_outcome upstream after before (Z.min per_page 200)
           max_activities fuel [] 0) in Hget
    as (k & Hk & Hrest); [|reflexivity|intros; cbn; lia].
  exists k. split; [lia|exact Hrest].
Qed.

Lemma page_requests_pages since until size k :
  map page (page_requests since until size k) = map Z.of_nat (seq 1 k)
  /\ Forall (fun q => after q = since /\ before q = until /\ per_page q = size)
       (page_requests since until size k).
Proof.
  unfold page_requests. split.
  - rewrite map_map. reflexivity.
  - apply Forall_map, Forall_true. intros i. cbn. auto.
Qed.

Lemma get_activities_same_requests fuel upstream after before per_page
    max_activities o o' :
  strava_extractor.get_activities fuel upstream after before per_page
    max_activities = Some o ->
  cutie_extractor.get_activities fuel upstream after before per_page
    max_activities = Some o' ->
  requests o' = requests o.
Proof.
  unfold strava_extractor.get_activities, cutie_extractor.get_activities.
  intros Ho Ho'.
  pose proof (loops_agree upstream after before (Z.min per_page 200)
                max_activities fuel [] 1 []
                [MsgFetching; MsgDateRange; MsgPerPage (Z.min per_page 200)])
    as Hsame.
  rewrite Ho, Ho' in Hsame. destruct Hsame as (Hreq & _). symmetry. exact Hreq.
Qed.

(** Property X3. Every request of a fetch carries the caller's window and a
    page size of at most 200 (the caller's, if that is less), and the pages
    asked for are 1, 2, ..., k with no gap and no repeat; the GUI variant
    asks for the same pages. *)
Theorem requests_are_consecutive_pages :
  forall fuel upstream since until size max_activities o o',
    strava_extractor.get_activities fuel upstream since until size max_activities
      = Some o ->
    cutie_extractor.get_activities fuel upstream since until size max_activities
      = Some o' ->
    (exists k, (1 <= k <= fuel)%nat
               /\ map page (requests o) = map Z.of_nat (seq 1 k))
    /\ Forall (fun q => after q = since /\ before q = until
                        /\ per_page q = Z.min size 200 /\ per_page q <= 200)
         (requests o)
    /\ requests o' = requests o.
Proof.
  intros fuel upstream since until size max_activities o o' Hget Hget'.
  destruct (cli_get_outcome _ _ _ _ _ _ _ Hget) as (k & Hk & Hr & _).
  destruct (page_requests_pages since until (Z.min size 200) k) as [Hp Hall].
  rewrite Hr. repeat split.
  - exists k. split; [lia|exact Hp].
  - eapply Forall_impl; [exact Hall|]. cbn. intros q (-> & -> & ->).
    repeat split. lia.
  - rewrite <- Hr. eapply get_activities_same_requests; eassumption.
Qed.

Lemma requests_are_consecutive_pages_witness :
  exists o o',
    strava_extractor.get_activities 9
      (serving [[sample_activity 1]; [sample_activity 2]] no_more)
      0 86400 500 None = Some o
    /\ cutie_extractor.get_activities 9
         (serving [[sample_activity 1]; [sample_activity 2]] no_more)
         0 86400 500 None = Some o'
    /\ requests o
       = [mkRequest 0 86400 1 200; mkRequest 0 86400 2 200; mkRequest 0 86400 3 200]
    /\ requests o' = requests o.
Proof.
  eexists. eexists. split; [reflexivity|]. split; [reflexivity|].
  split; [reflexivity|].
  exact (proj2 (proj2 (requests_are_consecutive_pages 9
                  (serving [[sample_activity 1]; [sample_activity 2]] no_more)
                  0 86400 500 None _ _ eq_refl eq_refl))).
Defined.

(** Property X4. With a positive [max_activities], [get_activities] never
    returns more records than that, on any upstream and however the fetch
    ends: at the cap, at an empty page, at a 429 or at a failed request. *)
Theorem cap_is_never_exceeded :
  forall fuel upstream after before per_page m,
    0 < m ->
    (forall o records,
       strava_extractor.get_activities fuel upstream after before per_page
         (Some m) = Some o ->
       returned o = Ret records ->
       Z.of_nat (length records) <= m)
    /\ (forall o records,
          cutie_extractor.get_activities fuel upstream after before per_page
            (Some m) = Some o ->
          returned o = Ret (Some records) ->
          Z.of_nat (length records) <= m).
Proof.
  intros fuel upstream after before per_page m Hm. split.
  - intros o records Hget Hret.
    destruct (cli_get_outcome _ _ _ _ _ _ _ Hget) as (k & _ & _ & Hrec).
    exact (proj2 (Hrec records Hret) m eq_refl Hm).
  - intros o records Hget Hret.
    destruct (gui_get_outcome _ _ _ _ _ _ _ Hget) as (k & _ & _ & Hrec).
    exact (proj2 (Hrec records Hret) m eq_refl Hm).
Qed.

(** Property X6. The records [get_activities] returns are the start of what
    the pages it asked for held, in the order of the pages and within a
    page: no record is repeated, reordered or made up; only the end can be
    missing (at the cap, or the whole on a 401). *)
Theorem records_come_from_the_pages_in_order :
  forall fuel upstream after before per_page max_activities,
    (forall o records,
       strava_extractor.get_activities fuel upstream after before per_page
         max_activities = Some o ->
       returned o = Ret records ->
       records `prefix_of`
         first_pages (page_body upstream after before (Z.min per_page 200))
           (length (requests o)))
    /\ (forall o records,
          cutie_extractor.get_activities fuel upstream after before per_page
            max_activities = Some o ->
          returned o = Ret (Some records) ->
          records `prefix_of`
            first_pages (page_body upstream after before (Z.min per_page 200))
              (length (requests o))).
Proof.
  intros fuel upstream after before per_page max_activities. split.
  - intros o records Hget Hret.
    destruct (cli_get_outcome _ _ _ _ _ _ _ Hget) as (k & _ & Hreq & Hrec).
    rewrite Hreq, length_asked. exact (proj1 (Hrec records Hret)).
  - intros o records Hget Hret.
    destruct (gui_get_outcome _ _ _ _ _ _ _ Hget) as (k & _ & Hreq & Hrec).
    rewrite Hreq, length_asked. exact (proj1 (Hrec records Hret)).
Qed.

(** Property X5. With a positive [max_activities] the fetch ends, on any
    upstream, after at most that many requests: every page that lets it go
    on holds at least one record. *)
Theorem cap_bounds_the_requests :
  forall upstream after before per_page m fuel,
    0 < m ->
    (Z.to_nat m <= fuel)%nat ->
    exists o o',
      strava_extractor.get_activities fuel upstream after before per_page
        (Some m) = Some o
      /\ cutie_extractor.get_activities fuel upstream after before per_page
           (Some m) = Some o'
      /\ (length (requests o) <= Z.to_nat m)%nat
      /\ requests o' = requests o.
Proof.
  intros upstream after before per_page m fuel Hm Hfuel.
  destruct (loops_end_under_cap upstream after before (Z.min per_page 200)
              (Some m) m (Z.to_nat m) [] 1 []
              [MsgFetching; MsgDateRange; MsgPerPage (Z.min per_page 200)]
              eq_refl Hm) as [[o Ho] [o' Ho']].
  { cbn. lia. }
  { cbn. lia. }
  assert (Hget : strava_extractor.get_activities fuel upstream after before
                   per_page (Some m) = Some o).
  { unfold strava_extractor.get_activities.
    replace fuel with (Z.to_nat m + (fuel - Z.to_nat m))%nat by lia.
    apply cli_loop_more_fuel. exact Ho. }
  assert (Hget' : cutie_extractor.get_activities fuel upstream after before
                    per_page (Some m) = Some o').
  { unfold cutie_extractor.get_activities.
    replace fuel with (Z.to_nat m + (fuel - Z.to_nat m))%nat by lia.
    apply gui_loop_more_fuel. exact Ho'. }
  exists o, o'. repeat split; try assumption.
  - destruct (cli_get_outcome (Z.to_nat m) upstream after before per_page
                (Some m) o Ho) as (k & Hk & Hreq & _).
    rewrite Hreq, length_asked. lia.
  - eapply get_activities_same_requests; eassumption.
Qed.

(** Property X7. Without a cap ([None], or 0) the loop has no bound of its
    own: on an upstream that serves records on every page [get_activities]
    does not return. *)
Theorem no_cap_no_end :
  forall upstream after before per_page max_activities,
    max_activities = None \/ max_activities = Some 0 ->
    (forall p, 1 <= p ->
       exists x b,
         page_of upstream after before (Z.min per_page 200) p = Some (x :: b)) ->
    forall fuel,
      strava_extractor.get_activities fuel upstream after before per_page
        max_activities = None
      /\ cutie_extractor.get_activities fuel upstream after before per_page
           max_activities = None.
Proof.
  intros upstream after before per_page max_activities Hmax Hfull fuel.
  apply loops_go_on; assumption.
Qed.

(** Property X8. A negative [max_activities] is truthy and not more than
    any length: the fetch ends with the first page that holds a record, and
    [activities[:max_activities]] drops the last records of it. *)
Theorem negative_cap_cuts_the_first_page :
  forall upstream after before per_page m x b fuel,
    m < 0 ->
    page_of upstream after before (Z.min per_page 200) 1 = Some (x :: b) ->
    (0 < fuel)%nat ->
    let kept := take (Z.to_nat (Z.of_nat (length (x :: b)) + m)) (x :: b) in
    strava_extractor.get_activities fuel upstream after before per_page (Some m)
    = Some (mkOutcome (Ret kept)
              [mkRequest after before 1 (Z.min per_page 200)]
              (banner (Z.min per_page 200) ++ [MsgTotal (length kept)]))
    /\ cutie_extractor.get_activities fuel upstream after before per_page
         (Some m)
       = Some (mkOutcome (Ret (Some kept))
                 [mkRequest after before 1 (Z.min per_page 200)] []).
Proof.
  intros upstream after before per_page m x b fuel Hm Hp Hfuel kept.
  assert (Hl : limit_reached (Some m) ([] ++ x :: b) = true).
  { unfold limit_reached. apply andb_true_intro. split.
    - apply negb_true_iff, Z.eqb_neq. lia.
    - apply Z.leb_le. lia. }
  assert (Hslice : slice_to ([] ++ x :: b) (default 0 (Some m)) = kept).
  { change (default 0 (Some m)) with m. unfold slice_to.
    destruct (m <? 0) eqn:E; [reflexivity|apply Z.ltb_ge in E; lia]. }
  unfold strava_extractor.get_activities, cutie_extractor.get_activities.
  destruct fuel as [|fuel]; [lia|].
  rewrite (cli_loop_limit _ _ _ _ _ _ _ _ _ _ _ _ Hp Hl).
  rewrite (gui_loop_limit _ _ _ _ _ _ _ _ _ _ _ Hp Hl).
  rewrite Hslice. split; reflexivity.
Qed.
Lemma rate_limit_returns_partial_witness :
  strava_extractor.get_activities 5 (serving [[sample_activity 1]] rate_limited)
    0 86400 200 None
  = Some (mkOutcome (Ret [sample_activity 1])
            [mkRequest 0 86400 1 200; mkRequest 0 86400 2 200]
            [MsgFetching; MsgDateRange; MsgPerPage 200; MsgPage 1 1 1;
             MsgRateLimit])
  /\ cutie_extractor.get_activities 5
       (serving [[sample_activity 1]] rate_limited) 0 86400 200 None
     = Some (mkOutcome (Ret (Some [sample_activity 1]))
               [mkRequest 0 86400 1 200; mkRequest 0 86400 2 200] []).
Proof.
  exact (rate_limit_returns_partial
           (serving [[sample_activity 1]] rate_limited) 0 86400 200 None
           1%nat [sample_activity 1] (mkResponse 429 NotJson) 5%nat
           eq_refl eq_refl eq_refl ltac:(lia)).
Defined.

Lemma cap_is_never_exceeded_witness :
  exists o records,
    strava_extractor.get_activities 5 three_then_three 0 86400 200 (Some 5)
      = Some o
    /\ returned o = Ret records
    /\ length records = 5%nat
    /\ Z.of_nat (length records) <= 5.
Proof.
  eexists. eexists. split; [reflexivity|]. split; [reflexivity|].
  split; [reflexivity|].
  exact (proj1 (cap_is_never_exceeded 5 three_then_three 0 86400 200 5
                  ltac:(lia)) _ _ eq_refl eq_refl).
Defined.

Lemma records_come_from_the_pages_in_order_witness :
  exists o records,
    strava_extractor.get_activities 5 three_then_three 0 86400 200 (Some 5)
      = Some o
    /\ returned o = Ret records
    /\ records `prefix_of`
         first_pages (page_body three_then_three 0 86400 (Z.min 200 200))
           (length (requests o)).
Proof.
  eexists. eexists. split; [reflexivity|]. split; [reflexivity|].
  exact (proj1 (records_come_from_the_pages_in_order 5 three_then_three
                  0 86400 200 (Some 5)) _ _ eq_refl eq_refl).
Defined.

Lemma cap_bounds_the_requests_witness :
  exists o o',
    strava_extractor.get_activities 2 (one_per_page 5) 0 86400 200 (Some 2)
      = Some o
    /\ cutie_extractor.get_activities 2 (one_per_page 5) 0 86400 200 (Some 2)
       = Some o'
    /\ (length (requests o) <= Z.to_nat 2)%nat
    /\ requests o' = requests o.
Proof.
  exact (cap_bounds_the_requests (one_per_page 5) 0 86400 200 2 2%nat
           ltac:(lia) ltac:(cbn; lia)).
Defined.

Lemma no_cap_no_end_witness :
  strava_extractor.get_activities 1000
    (always (Answers (mkResponse 200 (Json (JsonArray full_page))))) 0 86400 200 None = None
  /\ cutie_extractor.get_activities 1000
       (always (Answers (mkResponse 200 (Json (JsonArray full_page))))) 0 86400 200 None
     = None.
Proof.
  apply (no_cap_no_end (always (Answers (mkResponse 200 (Json (JsonArray full_page)))))
           0 86400 200 None).
  - left. reflexivity.
  - intros p _. eexists. eexists. reflexivity.
Defined.

Lemma negative_cap_cuts_the_first_page_witness :
  strava_extractor.get_activities 5 three_then_three 0 86400 200 (Some (-1))
  = Some (mkOutcome (Ret [sample_activity 1; sample_activity 2])
            [mkRequest 0 86400 1 200]
            [MsgFetching; MsgDateRange; MsgPerPage 200; MsgTotal 2])
  /\ cutie_extractor.get_activities 5 three_then_three 0 86400 200 (Some (-1))
     = Some (mkOutcome (Ret (Some [sample_activity 1; sample_activity 2]))
               [mkRequest 0 86400 1 200] []).
Proof.
  exact (negative_cap_cuts_the_first_page three_then_three 0 86400 200 (-1)
           (sample_activity 1) [sample_activity 2; sample_activity 3] 5%nat
           ltac:(lia) eq_refl ltac:(lia)).
Defined.

(** ** More about [extract_activity_data] *)


Lemma py_truediv_cases v d :
  0 < d < float_overflow ->
  (divisible v d = true /\ exists f, py_truediv v d = Ret (PyFloat f))
  \/ (divisible v d = false /\ bad_value (py_truediv v d)).
Proof.
  intros Hd. destruct (divisible v d) eqn:Hv.
  - left. split; [reflexivity|]. exact (py_truediv_returns _ _ Hd Hv).
  - right. split; [reflexivity|].
    destruct v as [|b|z|f|s]; cbn [divisible] in Hv; try discriminate.
    + left. reflexivity.
    + right. unfold py_truediv, int_truediv. rewrite Hv. reflexivity.
    + left. reflexivity.
Qed.

Lemma scaled_cases (scaled : activity -> string -> Z -> exc pyval) a key d :
  (forall a key d, scaled a key d
     = py_truediv (get a key (PyInt 0)) d ≫= λ q, py_round q 2) ->
  0 < d < float_overflow ->
  (divisible (get a key (PyInt 0)) d = true
   /\ exists f, scaled a key d = Ret (PyFloat f))
  \/ (divisible (get a key (PyInt 0)) d = false /\ bad_value (scaled a key d)).
Proof.
  intros Hdef Hd. rewrite Hdef.
  destruct (py_truediv_cases (get a key (PyInt 0)) d Hd)
    as [[Hv [f ->]]|[Hv [-> | ->]]].
  - left. split; [exact Hv|]. cbn. eauto.
  - right. split; [exact Hv|]. left. reflexivity.
  - right. split; [exact Hv|]. right. reflexivity.
Qed.

Lemma kmh_cases v :
  (convertible v = true /\ exists w, cutie_extractor.kmh v = Ret w)
  \/ (convertible v = false /\ bad_value (cutie_extractor.kmh v)).
Proof.
  destruct (convertible v) eqn:Hv.
  - left. split; [reflexivity|]. exact (kmh_returns _ Hv).
  - right. split; [reflexivity|]. unfold convertible in Hv.
    apply orb_false_elim in Hv as [Ht Hv]. apply negb_false_iff in Ht.
    unfold cutie_extractor.kmh. rewrite Ht.
    destruct v as [|b|z|f|s]; try discriminate.
    + right. unfold py_mul_float, float_of_int. rewrite Hv. reflexivity.
    + left. reflexivity.
Qed.

Lemma scaled_is_float (scaled : activity -> string -> Z -> exc pyval) a key d v :
  (forall a key d, scaled a key d
     = py_truediv (get a key (PyInt 0)) d ≫= λ q, py_round q 2) ->
  scaled a key d = Ret v -> exists f, v = PyFloat f.
Proof.
  intros Hdef. rewrite Hdef. unfold py_truediv.
  destruct (get a key (PyInt 0)) as [|b|z|f|s]; try discriminate.
  - destruct (int_truediv _ _); [|discriminate]. cbn. intros [= <-]. eauto.
  - destruct (int_truediv _ _); [|discriminate]. cbn. intros [= <-]. eauto.
  - destruct (float_of_int _); [|discriminate]. cbn. intros [= <-]. eauto.
Qed.

Lemma compact_cases a :
  (compact_ok a = true
   /\ exists r, cutie_extractor.extract_activity_data a = Ret r)
  \/ (compact_ok a = false
      /\ bad_value (cutie_extractor.extract_activity_data a)).
Proof.
  assert (H1000 : 0 < 1000 < float_overflow) by (split; reflexivity).
  assert (H60 : 0 < 60 < float_overflow) by (split; reflexivity).
  unfold compact_ok, cutie_extractor.extract_activity_data.
  destruct (kmh_cases (get a "average_speed" (PyInt 0)))
    as [[-> [av ->]]|[-> [-> | ->]]];
    [|right; split; [reflexivity|]; unfold bad_value; auto..].
  destruct (kmh_cases (get a "max_speed" (PyInt 0)))
    as [[-> [mx ->]]|[-> [-> | ->]]];
    [|right; split; [reflexivity|]; unfold bad_value; auto..].
  destruct (scaled_cases cutie_extractor.scaled a "distance" 1000
              ltac:(reflexivity) H1000) as [[-> [dk ->]]|[-> [-> | ->]]];
    [|right; split; [reflexivity|]; unfold bad_value; auto..].
  destruct (scaled_cases cutie_extractor.scaled a "moving_time" 60
              ltac:(reflexivity) H60) as [[-> [mt ->]]|[-> [-> | ->]]];
    [|right; split; [reflexivity|]; unfold bad_value; auto..].
  left. split; [reflexivity|]. cbn. eauto.
Qed.

Lemma extended_cases a :
  (extended_ok a = true
   /\ exists r, strava_extractor.extract_activity_data a = Ret r)
  \/ (extended_ok a = false
      /\ bad_value (strava_extractor.extract_activity_data a)).
Proof.
  assert (H1000 : 0 < 1000 < float_overflow) by (split; reflexivity).
  assert (H60 : 0 < 60 < float_overflow) by (split; reflexivity).
  unfold extended_ok, strava_extractor.extract_activity_data.
  destruct (get a "start_date" (PyStr "")) as [| | | |date];
    [right; split; [reflexivity|]; left; reflexivity..|].
  cbn [is_str andb py_prefix].
  destruct (scaled_cases strava_extractor.scaled a "distance" 1000
              ltac:(reflexivity) H1000) as [[-> [dk ->]]|[-> [-> | ->]]];
    [|right; split; [reflexivity|]; unfold bad_value; auto..].
  destruct (scaled_cases strava_extractor.scaled a "moving_time" 60
              ltac:(reflexivity) H60) as [[-> [mt ->]]|[-> [-> | ->]]];
    [|right; split; [reflexivity|]; unfold bad_value; auto..].
  left. split; [reflexivity|]. cbn. eauto.
Qed.

Lemma compact_raises a e :
  cutie_extractor.extract_activity_data a = Raise e ->
  e = TypeError \/ e = OverflowError.
Proof.
  destruct (compact_cases a) as [[_ [r ->]]|[_ [-> | ->]]];
    [discriminate|intros [= <-]; auto..].
Qed.

Lemma extended_raises a e :
  strava_extractor.extract_activity_data a = Raise e ->
  e = TypeError \/ e = OverflowError.
Proof.
  destruct (extended_cases a) as [[_ [r ->]]|[_ [-> | ->]]];
    [discriminate|intros [= <-]; auto..].
Qed.

(** Property X9. The normalisers return exactly on the activities whose
    computed fields hold values of the kind the computation needs, and
    raise [TypeError] or [OverflowError] on the others: nothing else. *)
Theorem normalisers_return_exactly_on_typed_records :
  forall a,
    ((compact_ok a = true
      /\ exists r, cutie_extractor.extract_activity_data a = Ret r)
     \/ (compact_ok a = false
         /\ bad_value (cutie_extractor.extract_activity_data a)))
    /\ ((extended_ok a = true
         /\ exists r, strava_extractor.extract_activity_data a = Ret r)
        \/ (extended_ok a = false
            /\ bad_value (strava_extractor.extract_activity_data a))).
Proof. intros a. split; [apply compact_cases|apply extended_cases]. Qed.

(** Property X10. A field that is not computed is the activity's value
    under the source key, of whatever type, as it is (and the value of the
    field set when the key is missing). *)
Theorem untouched_fields_are_copied a b r s :
  cutie_extractor.extract_activity_data a = Ret r ->
  strava_extractor.extract_activity_data b = Ret s ->
  (forall field source missing,
     In (field, source, missing) compact_fields ->
     ~ In field compact_derived ->
     row_get r field = Some (default missing (a !! source)))
  /\ (forall field source missing,
        In (field, source, missing) extended_fields ->
        ~ In field extended_derived ->
        row_get s field = Some (default missing (b !! source))).
Proof.
  intros Hr Hs. split.
  - destruct (compact_row _ _ Hr) as (avg & mx & dist & mt & _ & _ & _ & _ & ->).
    intros field source missing Hin Hnot. cbn [In compact_fields] in Hin.
    each_field Hin; try reflexivity; exfalso; apply Hnot; cbn; auto.
  - destruct (extended_row _ _ Hs) as (date & dist & mt & _ & _ & _ & ->).
    intros field source missing Hin Hnot. cbn [In extended_fields] in Hin.
    each_field Hin; try reflexivity; exfalso; apply Hnot; cbn; auto.
Qed.

Lemma untouched_fields_are_copied_witness :
  exists r s,
    cutie_extractor.extract_activity_data morning_run = Ret r
    /\ strava_extractor.extract_activity_data evening_ride = Ret s
    /\ row_get r "name" = Some (PyStr "Morning, run")
    /\ row_get s "distance_m" = Some (PyInt 10234)
    /\ row_get s "commute" = Some (PyBool true)
    /\ row_get s "kudos" = Some PyNone.
Proof.
  eexists. eexists.
  split; [vm_compute; reflexivity|]. split; [vm_compute; reflexivity|].
  pose proof (untouched_fields_are_copied morning_run evening_ride _ _
                eq_refl eq_refl) as [Hc He].
  split; [|split; [|split]].
  - refine (Hc "name" "name" PyNone _ _); [cbn; tauto|].
    cbn. intros H. repeat (destruct H as [H|H]; [discriminate H|]). exact H.
  - refine (He "distance_m" "distance" PyNone _ _); [cbn; tauto|].
    cbn. intros H. repeat (destruct H as [H|H]; [discriminate H|]). exact H.
  - refine (He "commute" "commute" PyNone _ _); [cbn; tauto|].
    cbn. intros H. repeat (destruct H as [H|H]; [discriminate H|]). exact H.
  - refine (He "kudos" "kudos_count" PyNone _ _); [cbn; tauto|].
    cbn. intros H. repeat (destruct H as [H|H]; [discriminate H|]). exact H.
Defined.

(** Property X11. The distance and the moving time of a row are floats,
    whatever the activity held: an [int], a [bool], a [float], or
    nothing. *)
Theorem derived_cells_are_floats a b r s :
  cutie_extractor.extract_activity_data a = Ret r ->
  strava_extractor.extract_activity_data b = Ret s ->
  (exists d t,
     row_get r "distance" = Some (PyFloat d)
     /\ row_get r "moving_time" = Some (PyFloat t))
  /\ (exists d t,
        row_get s "distance_km" = Some (PyFloat d)
        /\ row_get s "moving_time_min" = Some (PyFloat t)).
Proof.
  intros Hr Hs. split.
  - destruct (compact_row _ _ Hr) as (avg & mx & dist & mt & _ & _ & Hd & Ht & ->).
    destruct (scaled_is_float cutie_extractor.scaled _ _ _ _
                ltac:(reflexivity) Hd) as [d ->].
    destruct (scaled_is_float cutie_extractor.scaled _ _ _ _
                ltac:(reflexivity) Ht) as [t ->].
    exists d, t. split; reflexivity.
  - destruct (extended_row _ _ Hs) as (date & dist & mt & _ & Hd & Ht & ->).
    destruct (scaled_is_float strava_extractor.scaled _ _ _ _
                ltac:(reflexivity) Hd) as [d ->].
    destruct (scaled_is_float strava_extractor.scaled _ _ _ _
                ltac:(reflexivity) Ht) as [t ->].
    exists d, t. split; reflexivity.
Qed.

Lemma derived_cells_are_floats_witness :
  exists r s,
    cutie_extractor.extract_activity_data morning_run = Ret r
    /\ strava_extractor.extract_activity_data evening_ride = Ret s
    /\ (exists d t,
          row_get r "distance" = Some (PyFloat d)
          /\ row_get r "moving_time" = Some (PyFloat t))
    /\ (exists d t,
          row_get s "distance_km" = Some (PyFloat d)
          /\ row_get s "moving_time_min" = Some (PyFloat t)).
Proof.
  eexists. eexists.
  split; [vm_compute; reflexivity|]. split; [vm_compute; reflexivity|].
  exact (derived_cells_are_floats morning_run evening_ride _ _ eq_refl eq_refl).
Defined.

Lemma substring_prefix (s : string) : forall n,
  exists rest, s = (String.substring 0 n s ++ rest)%string.
Proof.
  induction s as [|c s IH]; intros [|n]; cbn [String.substring].
  - exists "". reflexivity.
  - exists "". reflexivity.
  - exists (String c s). reflexivity.
  - destruct (IH n) as [rest Hrest]. exists rest.
    rewrite string_app_cons, <- Hrest. reflexivity.
Qed.

Lemma substring_length (s : string) : forall n,
  String.length (String.substring 0 n s) = Nat.min n (String.length s).
Proof.
  induction s as [|c s IH]; intros [|n]; cbn [String.substring String.length];
    try reflexivity.
  rewrite IH. reflexivity.
Qed.

(** Property X12. The [date] of an extended row is the first ten characters
    of its [start_time] (all of it when it is shorter), and [start_time] is
    the activity's [start_date] as it is. *)
Theorem date_is_the_start_of_start_time a s :
  strava_extractor.extract_activity_data a = Ret s ->
  exists start date rest,
    get a "start_date" (PyStr "") = PyStr start
    /\ row_get s "start_time" = Some (PyStr start)
    /\ row_get s "date" = Some (PyStr date)
    /\ start = (date ++ rest)%string
    /\ String.length date = Nat.min 10 (String.length start).
Proof.
  intros Hs.
  destruct (extended_row _ _ Hs) as (date & dist & mt & Hdate & _ & _ & ->).
  destruct (get a "start_date" (PyStr "")) as [| | | |start]; try discriminate.
  injection Hdate as <-.
  destruct (substring_prefix start 10) as [rest Hrest].
  exists start, (String.substring 0 10 start), rest.
  repeat split; [exact Hrest|apply substring_length].
Qed.

Lemma date_is_the_start_of_start_time_witness :
  exists s,
    strava_extractor.extract_activity_data evening_ride = Ret s
    /\ row_get s "date" = Some (PyStr "2025-11-24")
    /\ exists start date rest,
         get evening_ride "start_date" (PyStr "") = PyStr start
         /\ row_get s "start_time" = Some (PyStr start)
         /\ row_get s "date" = Some (PyStr date)
         /\ start = (date ++ rest)%string
         /\ String.length date = Nat.min 10 (String.length start).
Proof.
  eexists. split; [vm_compute; reflexivity|]. split; [reflexivity|].
  exact (date_is_the_start_of_start_time evening_ride _ eq_refl).
Defined.

(** ** More about [export_to_csv] *)

Lemma for_each_app {A} (body : A -> io unit) (xs ys : list A) : forall fs,
  for_each (xs ++ ys) body fs
  = match for_each xs body fs with
    | (Ret _, fs') => for_each ys body fs'
    | (Raise e, fs') => (Raise e, fs')
    end.
Proof.
  induction xs as [|x xs IH]; intros fs; [reflexivity|].
  cbn [app for_each]. unfold io_bind.
  destruct (body x fs) as [[[]|e] fs']; [apply IH|reflexivity].
Qed.


Section more_export_facts.
Variable extract : activity -> exc row.
Variable fieldnames : list string.
Hypothesis fieldnames_nodup : NoDup fieldnames.
Hypothesis extract_keys : forall a r, extract a = Ret r -> keys r = fieldnames.
Hypothesis extract_raises :
  forall a e, extract a = Raise e -> e = TypeError \/ e = OverflowError.

Local Abbreviation write_rows filename activities :=
  (for_each activities
     (fun activity =>
        io_bind (io_lift (extract activity)) (writerow filename fieldnames))).




(** The loop stops at the first activity that cannot be normalised, with
    the rows of the ones before it written. *)
Lemma rows_until_failure filename good bad rest rows e fs old :
  extract_all extract good = Ret rows ->
  extract bad = Raise e ->
  files fs !! filename = Some old ->
  fits fs (old ++ csv_lines (map formatted rows))%string = true ->
  write_rows filename (good ++ bad :: rest) fs
  = (Raise e,
     with_file fs filename (old ++ csv_lines (map formatted rows))%string).
Proof.
  intros Hrows Hbad Hold Hfit. rewrite for_each_app.
  rewrite (rows_appended extract fieldnames fieldnames_nodup extract_keys
             filename good rows fs old Hrows Hold Hfit).
  cbn [for_each]. unfold io_bind at 1. unfold io_bind at 1, io_lift at 1.
  rewrite Hbad. reflexivity.
Qed.

Lemma export_unwritable activities filename fs :
  unwritable fs filename = true ->
  (export_to_csv_with extract activities filename fs).2 = fs
  /\ forall first others r,
       activities = first :: others -> extract first = Ret r ->
       export_to_csv_with extract activities filename fs
       = (if has_nul filename then Raise ValueError else Ret false, fs).
Proof.
  intros Hno. destruct activities as [|first others].
  - split; [reflexivity|]. discriminate.
  - assert (H : forall r, extract first = Ret r ->
                export_to_csv_with extract (first :: others) filename fs
                = (if has_nul filename then Raise ValueError else Ret false,
                   fs)).
    { intros r Hr. unfold export_to_csv_with, except_IOError.
      unfold io_bind at 1, io_lift at 1. rewrite Hr.
      unfold io_bind at 1. rewrite (open_w_fails _ _ Hno).
      destruct (has_nul filename); reflexivity. }
    split.
    + destruct (extract first) as [r|e] eqn:Hr.
      * rewrite (H r eq_refl). reflexivity.
      * unfold export_to_csv_with, except_IOError.
        unfold io_bind at 1, io_lift at 1. rewrite Hr.
        destruct e; reflexivity.
    + intros first' others' r [= <- <-]. exact (H r).
Qed.

Lemma export_until_failure first good bad rest first_row rows e filename fs :
  extract_all extract (first :: good) = Ret (first_row :: rows) ->
  extract bad = Raise e ->
  unwritable fs filename = false ->
  fits fs (csv_lines (fieldnames :: map formatted (first_row :: rows))) = true ->
  export_to_csv_with extract (first :: good ++ bad :: rest) filename fs
  = (Raise e,
     with_file fs filename
       (csv_lines (fieldnames :: map formatted (first_row :: rows)))).
Proof.
  intros Hrows Hbad Hopen Hfit.
  destruct (extract_all_cons _ _ _ _ Hrows) as (r & rs & Hr & Hrs & [= <- <-]).
  unfold export_to_csv_with, except_IOError.
  unfold io_bind at 1, io_lift at 1. rewrite Hr.
  rewrite (extract_keys _ _ Hr).
  unfold io_bind at 1. rewrite (open_w_opens _ _ Hopen).
  cbn [csv_lines] in Hfit.
  unfold io_bind at 1.
  rewrite (write_appends (with_file fs filename "") filename ""
             (csv_writerow fieldnames)).
  2: { cbn [with_file files]. apply lookup_insert_eq. }
  2: { rewrite fits_with_file, string_app_nil_l.
       exact (fits_prefix _ _ _ Hfit). }
  rewrite with_file_twice, string_app_nil_l.
  unfold io_bind at 1.
  rewrite (rows_until_failure filename (first :: good) bad rest
             (first_row :: rows) e _ (csv_writerow fieldnames) Hrows Hbad).
  - rewrite with_file_twice.
    destruct (extract_raises _ _ Hbad) as [-> | ->]; reflexivity.
  - cbn [with_file files]. apply lookup_insert_eq.
  - rewrite fits_with_file. exact Hfit.
Qed.

Lemma export_first_fails first others e filename fs :
  extract first = Raise e ->
  export_to_csv_with extract (first :: others) filename fs = (Raise e, fs).
Proof.
  intros Hbad. unfold export_to_csv_with, except_IOError.
  unfold io_bind at 1, io_lift at 1. rewrite Hbad.
  destruct (extract_raises _ _ Hbad) as [-> | ->]; reflexivity.
Qed.


End more_export_facts.

(** Property X13. When the file cannot be opened for writing,
    [export_to_csv] leaves the file system as it was, and returns [False]
    once the first activity is normalised: the [IOError] of [open] is
    caught. On a name with a NUL character, where [open] raises
    [ValueError] instead, that exception escapes. *)
Theorem export_to_unwritable_path_changes_nothing :
  forall activities filename fs,
    unwritable fs filename = true ->
    ((cutie_extractor.export_to_csv activities filename fs).2 = fs
     /\ forall first others r,
          activities = first :: others ->
          cutie_extractor.extract_activity_data first = Ret r ->
          cutie_extractor.export_to_csv activities filename fs
          = (if has_nul filename then Raise ValueError else Ret false, fs))
    /\ ((strava_extractor.export_to_csv activities filename fs).2 = fs
        /\ forall first others r,
             activities = first :: others ->
             strava_extractor.extract_activity_data first = Ret r ->
             strava_extractor.export_to_csv activities filename fs
             = (if has_nul filename then Raise ValueError else Ret false,
                fs)).
Proof.
  intros activities filename fs Hno. split.
  - exact (export_unwritable cutie_extractor.extract_activity_data _ _ _ Hno).
  - exact (export_unwritable strava_extractor.extract_activity_data _ _ _ Hno).
Qed.

Lemma export_to_unwritable_path_changes_nothing_witness :
  unwritable read_only "out.csv" = true
  /\ cutie_extractor.export_to_csv [morning_run] "out.csv" read_only
     = (Ret false, read_only)
  /\ files read_only !! "out.csv" = Some "old text".
Proof.
  split; [reflexivity|]. split; [|reflexivity].
  exact (proj2 (proj1 (export_to_unwritable_path_changes_nothing [morning_run]
                         "out.csv" read_only eq_refl))
           morning_run [] _ eq_refl eq_refl).
Defined.

(** Property X14. An activity that cannot be normalised ends the export
    with its exception, which [export_to_csv] does not catch: the file is
    left with the header and the rows of the activities before it, and
    nothing is written of the ones after it. When it is the first activity,
    the file is not opened. *)
Theorem failing_record_leaves_truncated_file :
  forall filename fs,
    unwritable fs filename = false ->
    (forall first good bad rest first_row rows e,
       extract_all cutie_extractor.extract_activity_data (first :: good)
         = Ret (first_row :: rows) ->
       cutie_extractor.extract_activity_data bad = Raise e ->
       fits fs (csv_lines (field_names compact_fields
                           :: map formatted (first_row :: rows))) = true ->
       cutie_extractor.export_to_csv (first :: good ++ bad :: rest) filename fs
       = (Raise e,
          with_file fs filename
            (csv_lines (field_names compact_fields
                        :: map formatted (first_row :: rows))))
       /\ cutie_extractor.export_to_csv (bad :: rest) filename fs = (Raise e, fs)
       /\ (e = TypeError \/ e = OverflowError))
    /\ (forall first good bad rest first_row rows e,
          extract_all strava_extractor.extract_activity_data (first :: good)
            = Ret (first_row :: rows) ->
          strava_extractor.extract_activity_data bad = Raise e ->
          fits fs (csv_lines (field_names extended_fields
                              :: map formatted (first_row :: rows))) = true ->
          strava_extractor.export_to_csv (first :: good ++ bad :: rest)
            filename fs
          = (Raise e,
             with_file fs filename
               (csv_lines (field_names extended_fields
                           :: map formatted (first_row :: rows))))
          /\ strava_extractor.export_to_csv (bad :: rest) filename fs
             = (Raise e, fs)
          /\ (e = TypeError \/ e = OverflowError)).
Proof.
  intros filename fs Hopen. split.
  - intros first good bad rest first_row rows e Hrows Hbad Hfit.
    split; [|split].
    + exact (export_until_failure _ _ compact_names_nodup compact_keys
               compact_raises _ _ _ _ _ _ _ _ _ Hrows Hbad Hopen Hfit).
    + exact (export_first_fails _ compact_raises _ _ _ _ _ Hbad).
    + exact (compact_raises _ _ Hbad).
  - intros first good bad rest first_row rows e Hrows Hbad Hfit.
    split; [|split].
    + exact (export_until_failure _ _ extended_names_nodup extended_keys
               extended_raises _ _ _ _ _ _ _ _ _ Hrows Hbad Hopen Hfit).
    + exact (export_first_fails _ extended_raises _ _ _ _ _ Hbad).
    + exact (extended_raises _ _ Hbad).
Qed.

Lemma failing_record_leaves_truncated_file_witness :
  unwritable roomy_disk "out.csv" = false
  /\ exists text,
       cutie_extractor.export_to_csv spoiled_batch "out.csv" roomy_disk
       = (Raise TypeError, with_file roomy_disk "out.csv" text)
       /\ length (csv_reader text) = 2%nat.
Proof.
  split; [reflexivity|].
  eassert (Hrows : extract_all cutie_extractor.extract_activity_data [morning_run]
                   = Ret [_]) by (vm_compute; reflexivity).
  eexists. split.
  - exact (proj1 (proj1 (failing_record_leaves_truncated_file "out.csv"
                           roomy_disk eq_refl)
                    morning_run [] bad_distance [evening_ride] _ [] TypeError
                    Hrows ltac:(vm_compute; reflexivity) eq_refl)).
  - vm_compute. reflexivity.
Defined.


(** A name with a NUL character, as it can be typed at the prompt of
    [main]: the export raises. *)
Example export_to_a_name_with_nul_raises :
  has_nul nul_name = true
  /\ cutie_extractor.export_to_csv [morning_run] nul_name roomy_disk
     = (Raise ValueError, roomy_disk)
  /\ strava_extractor.export_to_csv [morning_run] nul_name roomy_disk
     = (Raise ValueError, roomy_disk).
Proof. repeat split; vm_compute; reflexivity. Qed.

(** ** What [export_to_csv] leaves alone *)

Lemma elsewhere_refl path fs : elsewhere path fs fs.
Proof. repeat split. Qed.

Lemma elsewhere_trans path fs fs' fs'' :
  elsewhere path fs fs' -> elsewhere path fs' fs'' -> elsewhere path fs fs''.
Proof.
  intros (Hu & Hq & Hf) (Hu' & Hq' & Hf'). repeat split; try congruence.
  intros p Hp. rewrite (Hf' p Hp). apply Hf, Hp.
Qed.

Lemma elsewhere_with_file path fs content :
  elsewhere path fs (with_file fs path content).
Proof.
  repeat split. intros p Hp. cbn [with_file files].
  apply lookup_insert_ne. congruence.
Qed.

Lemma touches_only_ret {A} path (a : A) : touches_only path (io_ret a).
Proof. intros fs. apply elsewhere_refl. Qed.

Lemma touches_only_lift {A} path (m : exc A) : touches_only path (io_lift m).
Proof. intros fs. apply elsewhere_refl. Qed.

Lemma touches_only_bind {A B} path (m : io A) (k : A -> io B) :
  touches_only path m -> (forall a, touches_only path (k a)) ->
  touches_only path (io_bind m k).
Proof.
  intros Hm Hk fs. unfold io_bind. specialize (Hm fs).
  destruct (m fs) as [[a|e] fs']; [|exact Hm].
  eapply elsewhere_trans; [exact Hm|apply Hk].
Qed.

Lemma touches_only_except {A} path (m : io A) (v : A) :
  touches_only path m -> touches_only path (except_IOError m v).
Proof.
  intros Hm fs. unfold except_IOError. specialize (Hm fs).
  destruct (m fs) as [[a|[]] fs']; exact Hm.
Qed.

Lemma touches_only_open path : touches_only path (open_w path).
Proof.
  intros fs. unfold open_w.
  destruct (has_nul path); [apply elsewhere_refl|].
  destruct (refused fs path); [apply elsewhere_refl|apply elsewhere_with_file].
Qed.

Lemma touches_only_write path text : touches_only path (write path text).
Proof.
  intros fs. unfold write.
  destruct (fits fs _); [apply elsewhere_with_file|apply elsewhere_refl].
Qed.

Lemma touches_only_for_each {A} path (xs : list A) (body : A -> io unit) :
  (forall x, touches_only path (body x)) ->
  touches_only path (for_each xs body).
Proof.
  intros Hbody. induction xs as [|x xs IH]; [apply touches_only_ret|].
  cbn [for_each]. apply touches_only_bind; [apply Hbody|intros _; exact IH].
Qed.

Lemma export_touches_only extract activities filename :
  touches_only filename (export_to_csv_with extract activities filename).
Proof.
  destruct activities as [|first others]; [apply touches_only_ret|].
  unfold export_to_csv_with. apply touches_only_except.
  apply touches_only_bind; [apply touches_only_lift|intros first_row].
  apply touches_only_bind; [apply touches_only_open|intros _].
  apply touches_only_bind; [apply touches_only_write|intros _].
  apply touches_only_bind; [|intros _; apply touches_only_ret].
  apply touches_only_for_each. intros activity.
  apply touches_only_bind; [apply touches_only_lift|intros r].
  unfold writerow.
  apply touches_only_bind; [apply touches_only_lift|intros cells].
  apply touches_only_write.
Qed.

(** Property X16. [export_to_csv] changes no file but its destination, and
    nothing else of the file system, whatever it returns or raises. *)
Theorem export_touches_only_the_destination :
  forall activities filename fs,
    elsewhere filename fs
      (cutie_extractor.export_to_csv activities filename fs).2
    /\ elsewhere filename fs
         (strava_extractor.export_to_csv activities filename fs).2.
Proof.
  intros activities filename fs. split; apply export_touches_only.
Qed.

(** ** The functions of [strava_extractor.py] outside the class *)

Import strava_cli.

(** ** The calendar *)

Lemma is_leap_spec y :
  is_leap y = true <-> y mod 4 = 0 /\ (y mod 100 <> 0 \/ y mod 400 = 0).
Proof.
  unfold is_leap. rewrite andb_true_iff, orb_true_iff, negb_true_iff.
  rewrite !Z.eqb_eq, Z.eqb_neq. reflexivity.
Qed.

(** A year has 365 days, and one more when it is a leap year. *)
Lemma days_before_year_S y :
  days_before_year (y + 1)
  = days_before_year y + 365 + (if is_leap y then 1 else 0).
Proof.
  unfold days_before_year.
  replace (y + 1 - 1) with y by lia.
  destruct (is_leap y) eqn:Hl.
  - apply is_leap_spec in Hl. Z.to_euclidean_division_equations. lia.
  - assert (Hn : ~ (y mod 4 = 0 /\ (y mod 100 <> 0 \/ y mod 400 = 0)))
      by (rewrite <- is_leap_spec, Hl; discriminate).
    Z.to_euclidean_division_equations. lia.
Qed.

Lemma days_before_year_add y (k : nat) :
  days_before_year y + 365 * Z.of_nat k <= days_before_year (y + Z.of_nat k).
Proof.
  induction k as [|k IH]; [replace (y + Z.of_nat 0) with y by lia; lia|].
  replace (y + Z.of_nat (S k)) with (y + Z.of_nat k + 1) by lia.
  rewrite days_before_year_S. destruct (is_leap _); lia.
Qed.

Lemma days_before_year_mono y y' :
  y <= y' -> days_before_year y + 365 * (y' - y) <= days_before_year y'.
Proof.
  intros H. pose proof (days_before_year_add y (Z.to_nat (y' - y))) as Hk.
  rewrite Z2Nat.id in Hk by lia. replace (y + (y' - y)) with y' in Hk by lia.
  exact Hk.
Qed.

Lemma month_range_intro m : 1 <= m <= 12 -> month_range m.
Proof. unfold month_range. lia. Qed.

Ltac each_month H :=
  destruct H as [H|[H|[H|[H|[H|[H|[H|[H|[H|[H|[H|H]]]]]]]]]]]; subst.

(** A month ends where the next begins. *)
Lemma days_before_month_S y m :
  1 <= m < 12 ->
  days_before_month y (m + 1) = days_before_month y m + days_in_month y m.
Proof.
  intros Hm. assert (H : month_range m) by (apply month_range_intro; lia).
  unfold days_before_month, days_in_month.
  each_month H; try lia; destruct (is_leap y); reflexivity.
Qed.

Lemma days_in_month_bounds y m : 28 <= days_in_month y m <= 31.
Proof.
  unfold days_in_month.
  destruct (m =? 2); [destruct (is_leap y); lia|].
  destruct (_ || _); lia.
Qed.

Lemma days_before_month_add y m (k : nat) :
  1 <= m -> m + 1 + Z.of_nat k <= 12 ->
  days_before_month y m + days_in_month y m
  <= days_before_month y (m + 1 + Z.of_nat k).
Proof.
  intros H1. induction k as [|k IH]; intros Hk.
  - replace (m + 1 + Z.of_nat 0) with (m + 1) by lia.
    rewrite days_before_month_S by lia. lia.
  - replace (m + 1 + Z.of_nat (S k)) with (m + 1 + Z.of_nat k + 1) by lia.
    rewrite days_before_month_S by lia.
    pose proof (days_in_month_bounds y (m + 1 + Z.of_nat k)). lia.
Qed.

Lemma days_before_month_mono y m m' :
  1 <= m -> m < m' <= 12 ->
  days_before_month y m + days_in_month y m <= days_before_month y m'.
Proof.
  intros H1 H.
  pose proof (days_before_month_add y m (Z.to_nat (m' - m - 1)) H1) as Hk.
  rewrite Z2Nat.id in Hk by lia.
  replace (m + 1 + (m' - m - 1)) with m' in Hk by lia. apply Hk. lia.
Qed.

(** The year ends with December. *)
Lemma days_before_month_12 y :
  days_before_month y 12 + days_in_month y 12
  = 365 + (if is_leap y then 1 else 0).
Proof. unfold days_before_month, days_in_month. destruct (is_leap y); reflexivity. Qed.

Lemma valid_date_spec y m d :
  valid_date y m d = true
  <-> 1 <= y <= 9999 /\ 1 <= m <= 12 /\ 1 <= d <= days_in_month y m.
Proof.
  unfold valid_date, MINYEAR, MAXYEAR. rewrite !andb_true_iff, !Z.leb_le. lia.
Qed.

(** The ordinal of a date is within its month. *)
Lemma ymd2ord_in_month y m d :
  1 <= d <= days_in_month y m ->
  days_before_year y + days_before_month y m < ymd2ord y m d
  /\ ymd2ord y m d
     <= days_before_year y + days_before_month y m + days_in_month y m.
Proof. unfold ymd2ord. lia. Qed.

(** Later dates have greater ordinals. *)
Lemma ymd2ord_lt y m d y' m' d' :
  valid_date y m d = true -> valid_date y' m' d' = true ->
  date_lt (y, m, d) (y', m', d') ->
  ymd2ord y m d < ymd2ord y' m' d'.
Proof.
  intros (Hy & Hm & Hd)%valid_date_spec (Hy' & Hm' & Hd')%valid_date_spec.
  pose proof (ymd2ord_in_month _ _ _ Hd).
  pose proof (ymd2ord_in_month _ _ _ Hd').
  assert (Hyear : days_before_month y m + days_in_month y m
                  <= 365 + (if is_leap y then 1 else 0)).
  { rewrite <- days_before_month_12.
    destruct (Z.eq_dec m 12) as [->|]; [lia|].
    pose proof (days_before_month_mono y m 12). 
    pose proof (days_in_month_bounds y 12). lia. }
  assert (Hpos : 0 <= days_before_month y' m').
  { unfold days_before_month.
    assert (Hr : month_range m') by (apply month_range_intro; lia).
    each_month Hr; destruct (_ && _); cbn; lia. }
  intros [Hlt|[-> [Hlt|[-> Hlt]]]].
  - pose proof (days_before_year_S y).
    pose proof (days_before_year_mono (y + 1) y'). lia.
  - pose proof (days_before_month_mono y' m m'). lia.
  - unfold ymd2ord. lia.
Qed.

Lemma ymd2ord_date_lt y m d y' m' d' :
  valid_date y m d = true -> valid_date y' m' d' = true ->
  ymd2ord y m d < ymd2ord y' m' d' ->
  date_lt (y, m, d) (y', m', d').
Proof.
  intros Hv Hv' Hlt.
  destruct (Z.lt_trichotomy y y') as [?|[->|Hy]]; [left; assumption| |].
  - destruct (Z.lt_trichotomy m m') as [?|[->|Hm]]; [right; auto| |].
    + right. split; [reflexivity|]. right. split; [reflexivity|].
      unfold ymd2ord in Hlt. lia.
    + pose proof (ymd2ord_lt _ _ d' _ _ d Hv' Hv) as H. cbn in H. lia.
  - pose proof (ymd2ord_lt _ m' d' _ m d Hv' Hv) as H. cbn in H. lia.
Qed.

(** ** From ordinals to dates *)

Lemma month_and_day_checked :
  forallb (fun k => month_and_day_ok true (Z.of_nat k)
                    && month_and_day_ok false (Z.of_nat k)) (seq 0 365) = true.
Proof. vm_compute. reflexivity. Qed.

Lemma month_and_day_spec leap r :
  0 <= r < 365 -> month_and_day_ok leap r = true.
Proof.
  intros Hr. pose proof month_and_day_checked as H.
  rewrite forallb_forall in H. specialize (H (Z.to_nat r)).
  rewrite Z2Nat.id in H by lia.
  assert (Hin : In (Z.to_nat r) (seq 0 365)) by (apply in_seq; lia).
  apply H in Hin. apply andb_prop in Hin as [Ht Hf].
  destruct leap; assumption.
Qed.

Lemma days_in_month_leap y m :
  days_in_month y m
  = days_in_month 1 m + (if (m =? 2) && is_leap y then 1 else 0).
Proof.
  unfold days_in_month. destruct (m =? 2); [|cbn; lia].
  change (is_leap 1) with false. destruct (is_leap y); reflexivity.
Qed.

(** The year that starts after [n400] cycles of 400 years, [n100] of 100,
    [n4] of 4, and [n1] years. *)
Lemma year_of_cycles n400 n100 n4 n1 :
  0 <= n400 -> 0 <= n100 <= 3 -> 0 <= n4 <= 24 -> 0 <= n1 <= 3 ->
  let y := n400 * 400 + 1 + n100 * 100 + n4 * 4 + n1 in
  days_before_year y = n400 * DI400Y + n100 * DI100Y + n4 * DI4Y + n1 * 365
  /\ is_leap y = (n1 =? 3) && (negb (n4 =? 24) || (n100 =? 3)).
Proof.
  intros H400 H100 H4 H1 y. split.
  - unfold days_before_year, DI400Y, DI100Y, DI4Y. subst y.
    Z.to_euclidean_division_equations. lia.
  - apply eq_true_iff_eq. rewrite is_leap_spec.
    rewrite andb_true_iff, orb_true_iff, negb_true_iff, !Z.eqb_eq, Z.eqb_neq.
    subst y. Z.to_euclidean_division_equations. lia.
Qed.

(** [ord2ymd] gives a date of the calendar, the one with that ordinal. *)
Lemma ord2ymd_spec n y m d :
  1 <= n <= MAXORDINAL ->
  ord2ymd n = (y, m, d) ->
  valid_date y m d = true /\ ymd2ord y m d = n.
Proof.
  unfold MAXORDINAL. intros Hn. unfold ord2ymd.
  set (n0 := n - 1).
  set (n400 := n0 / DI400Y). set (r400 := n0 mod DI400Y).
  set (n100 := r400 / DI100Y). set (r100 := r400 mod DI100Y).
  set (n4 := r100 / DI4Y). set (r4 := r100 mod DI4Y).
  set (n1 := r4 / 365). set (r1 := r4 mod 365).
  assert (E400 : n0 = DI400Y * n400 + r400 /\ 0 <= r400 < DI400Y).
  { split; [apply Z.div_mod; discriminate|apply Z.mod_pos_bound; reflexivity]. }
  assert (E100 : r400 = DI100Y * n100 + r100 /\ 0 <= r100 < DI100Y).
  { split; [apply Z.div_mod; discriminate|apply Z.mod_pos_bound; reflexivity]. }
  assert (E4 : r100 = DI4Y * n4 + r4 /\ 0 <= r4 < DI4Y).
  { split; [apply Z.div_mod; discriminate|apply Z.mod_pos_bound; reflexivity]. }
  assert (E1 : r4 = 365 * n1 + r1 /\ 0 <= r1 < 365).
  { split; [apply Z.div_mod; discriminate|apply Z.mod_pos_bound; reflexivity]. }
  clearbody n400 r400 n100 r100 n4 r4 n1 r1. subst n0.
  unfold DI400Y, DI100Y, DI4Y in E400, E100, E4.
  destruct ((n1 =? 4) || (n100 =? 4)) eqn:Hlast.
  - (* the last day of a leap year *)
    intros [= <- <- <-].
    assert (Hc : n100 = 4 /\ n4 = 0 /\ n1 = 0 /\ r1 = 0
                 \/ 0 <= n100 <= 3 /\ 0 <= n4 <= 23 /\ n1 = 4 /\ r1 = 0).
    { apply orb_prop in Hlast as [H%Z.eqb_eq|H%Z.eqb_eq]; lia. }
    set (y := n400 * 400 + 1 + n100 * 100 + n4 * 4 + n1 - 1).
    assert (Hleap : is_leap y = true).
    { apply is_leap_spec. subst y. Z.to_euclidean_division_equations. lia. }
    assert (Hdby : days_before_year y + 366 = n).
    { unfold days_before_year. subst y. Z.to_euclidean_division_equations. lia. }
    split.
    + apply valid_date_spec. unfold days_in_month. cbn. lia.
    + unfold ymd2ord, days_before_month. rewrite Hleap. cbn. lia.
  - apply orb_false_elim in Hlast as [H1%Z.eqb_neq H100%Z.eqb_neq].
    assert (B100 : 0 <= n100 <= 3) by lia.
    assert (B4 : 0 <= n4 <= 24) by lia.
    assert (B1 : 0 <= n1 <= 3) by lia.
    assert (B400 : 0 <= n400 <= 24) by lia.
    destruct (year_of_cycles n400 n100 n4 n1 ltac:(lia) B100 B4 B1)
      as [Hdby Hleap].
    rewrite <- Hleap.
    set (y0 := n400 * 400 + 1 + n100 * 100 + n4 * 4 + n1) in *.
    pose proof (month_and_day_spec (is_leap y0) r1 (proj2 E1)) as Hmd.
    unfold month_and_day_ok in Hmd.
    destruct (month_and_day (is_leap y0) r1) as [m0 d0].
    intros [= <- <- <-].
    rewrite !andb_true_iff, !Z.leb_le, Z.eqb_eq in Hmd.
    destruct Hmd as ((((Hm1 & Hm12) & Hd1) & Hd) & Hord).
    split.
    + apply valid_date_spec. rewrite days_in_month_leap.
      subst y0. lia.
    + unfold ymd2ord, days_before_month. rewrite Hdby.
      unfold DI400Y, DI100Y, DI4Y. lia.
Qed.

Lemma ymd2ord_range y m d :
  valid_date y m d = true -> 1 <= ymd2ord y m d <= MAXORDINAL.
Proof.
  intros Hv. pose proof Hv as (Hy & Hm & Hd)%valid_date_spec.
  assert (Hfirst : valid_date 1 1 1 = true) by reflexivity.
  assert (Hlast : valid_date 9999 12 31 = true) by reflexivity.
  change 1 with (ymd2ord 1 1 1) at 1.
  change MAXORDINAL with (ymd2ord 9999 12 31).
  split.
  - destruct (Z.le_gt_cases (ymd2ord 1 1 1) (ymd2ord y m d)) as [H|H]; [exact H|].
    apply (ymd2ord_date_lt _ _ _ _ _ _ Hv Hfirst) in H. cbn in H. lia.
  - destruct (Z.le_gt_cases (ymd2ord y m d) (ymd2ord 9999 12 31)) as [H|H];
      [exact H|].
    apply (ymd2ord_date_lt _ _ _ _ _ _ Hlast Hv) in H. cbn in H.
    pose proof (days_in_month_bounds y m). lia.
Qed.

Lemma lex_gt_earlier_date y m d y' m' d' rest rest' :
  date_lt (y, m, d) (y', m', d') ->
  lex_gt (y :: m :: d :: rest) (y' :: m' :: d' :: rest') = false.
Proof.
  cbn [date_lt lex_gt]. intros H.
  repeat match goal with
         | |- context [?a <? ?b] => destruct (Z.ltb_spec a b)
         | |- context [?a =? ?b] => destruct (Z.eqb_spec a b)
         end; cbn; try reflexivity; lia.
Qed.

Lemma lex_gt_irrefl l : lex_gt l l = false.
Proof.
  induction l as [|x l IH]; [reflexivity|]. cbn [lex_gt].
  rewrite Z.ltb_irrefl, Z.eqb_refl, IH. reflexivity.
Qed.

Lemma valid_datetime_date t :
  valid_datetime t = true -> valid_date (year t) (month t) (day t) = true.
Proof.
  unfold valid_datetime. intros Hv.
  do 8 (apply andb_prop in Hv as [Hv _]). exact Hv.
Qed.

Lemma valid_datetime_same_time t y m d :
  valid_datetime t = true -> valid_date y m d = true ->
  valid_datetime
    (mkDatetime y m d (hour t) (minute t) (second t) (microsecond t)) = true.
Proof.
  unfold valid_datetime. intros Ht Hv.
  do 8 (apply andb_prop in Ht as [Ht ?]).
  cbn [year month day hour minute second microsecond]. rewrite Hv.
  repeat (apply andb_true_intro; split); first [assumption|reflexivity].
Qed.

(** The day [n] days before: a date of the calendar, earlier. *)
Lemma minus_days_earlier t n s :
  valid_datetime t = true -> 0 < n ->
  minus_days t n = Ret s ->
  valid_datetime s = true /\ datetime_gt s t = false.
Proof.
  unfold minus_days. intros Hv Hn.
  pose proof (valid_datetime_date _ Hv) as Hd.
  destruct (_ && _) eqn:Hrange; [|discriminate].
  apply andb_prop in Hrange as [Hlo%Z.leb_le Hhi%Z.leb_le].
  destruct (ord2ymd _) as [[y m] d] eqn:Hymd. intros [= <-].
  destruct (ord2ymd_spec _ _ _ _ (conj Hlo Hhi) Hymd) as [Hvs Hord].
  split.
  - apply valid_datetime_same_time; assumption.
  - unfold datetime_gt, fields.
    cbn [year month day hour minute second microsecond].
    apply lex_gt_earlier_date.
    apply ymd2ord_date_lt; [exact Hvs|exact Hd|lia].
Qed.

(** On the first days of the calendar there is no day a week before. *)
Lemma minus_days_returns t n :
  valid_datetime t = true -> 0 < n -> 2 <= year t -> n <= 365 ->
  exists s, minus_days t n = Ret s.
Proof.
  unfold minus_days. intros Hv%valid_datetime_date Hn Hy Hn'.
  pose proof (ymd2ord_range _ _ _ Hv) as Hr.
  assert (Hlate : 365 < ymd2ord (year t) (month t) (day t)).
  { apply valid_date_spec in Hv as (Hy' & Hm & Hd).
    pose proof (days_before_year_mono 2 (year t) Hy) as Hmono.
    change (days_before_year 2) with 365 in Hmono.
    pose proof (ymd2ord_in_month (year t) (month t) (day t) Hd) as [Hin _].
    assert (0 <= days_before_month (year t) (month t)).
    { unfold days_before_month.
      assert (Hr' : month_range (month t)) by (apply month_range_intro; lia).
      each_month Hr'; rewrite Hr'; destruct (_ && _); cbn; lia. }
    lia. }
  replace ((1 <=? _) && (_ <=? MAXORDINAL)) with true.
  - destruct (ord2ymd _) as [[y m] d]. eauto.
  - symmetry. apply andb_true_intro. split; apply Z.leb_le; lia.
Qed.

(** ** [parse_date_input] *)

Lemma strptime_raises s e : strptime_Y_m_d s = Raise e -> e = ValueError.
Proof.
  unfold strptime_Y_m_d.
  destruct (re_match s) as [[[[y m] d] [|c rest]]|]; try (intros [= <-]; reflexivity).
  destruct (valid_date y m d); [discriminate|intros [= <-]; reflexivity].
Qed.

Lemma strptime_valid s t :
  strptime_Y_m_d s = Ret t ->
  valid_datetime t = true
  /\ hour t = 0 /\ minute t = 0 /\ second t = 0 /\ microsecond t = 0.
Proof.
  unfold strptime_Y_m_d.
  destruct (re_match s) as [[[[y m] d] [|c rest]]|]; try discriminate.
  destruct (valid_date y m d) eqn:Hv; [|discriminate]. intros [= <-].
  unfold valid_datetime. cbn [year month day hour minute second microsecond].
  rewrite Hv. repeat split.
Qed.

(** [parse_date_input] does not raise: a date of the calendar, at
    midnight, or [None]. *)
Lemma parse_date_input_cases s :
  parse_date_input s = Ret None
  \/ exists t,
       parse_date_input s = Ret (Some t)
       /\ valid_datetime t = true
       /\ hour t = 0 /\ minute t = 0 /\ second t = 0 /\ microsecond t = 0.
Proof.
  unfold parse_date_input.
  destruct (strptime_Y_m_d s) as [t|e] eqn:Hs.
  - right. exists t. split; [reflexivity|]. exact (strptime_valid _ _ Hs).
  - left. rewrite (strptime_raises _ _ Hs). reflexivity.
Qed.

Lemma digit_char_digit k :
  0 <= k <= 9 -> is_digit (digit_char k) = true /\ digit (digit_char k) = k.
Proof.
  intros Hk.
  assert (H : k = 0 \/ k = 1 \/ k = 2 \/ k = 3 \/ k = 4 \/ k = 5 \/ k = 6
              \/ k = 7 \/ k = 8 \/ k = 9) by lia.
  repeat (destruct H as [->|H]; [split; reflexivity|]). subst. split; reflexivity.
Qed.

Lemma match_year_four_digits y rest :
  0 <= y <= 9999 ->
  match_year (four_digits y ++ rest) = Some (y, rest).
Proof.
  intros Hy. unfold four_digits, two_digits.
  rewrite !string_app_cons, string_app_nil_l. cbn [match_year].
  destruct (digit_char_digit (y / 1000)) as [-> ->];
    [Z.to_euclidean_division_equations; lia|].
  destruct (digit_char_digit (y / 100 mod 10)) as [-> ->];
    [Z.to_euclidean_division_equations; lia|].
  destruct (digit_char_digit (y mod 100 / 10)) as [-> ->];
    [Z.to_euclidean_division_equations; lia|].
  destruct (digit_char_digit (y mod 100 mod 10)) as [-> ->];
    [Z.to_euclidean_division_equations; lia|].
  cbn [andb]. do 2 f_equal. Z.to_euclidean_division_equations. lia.
Qed.

Lemma re_match_isoformat y m d :
  0 <= y <= 9999 -> 1 <= m <= 12 -> 1 <= d <= 31 ->
  re_match (isoformat y m d) = Some (y, m, d, "").
Proof.
  intros Hy Hm Hd. unfold re_match, isoformat.
  rewrite (match_year_four_digits y _ Hy). cbn [mbind option_bind].
  generalize y. clear y Hy. intros y.
  assert (Hmr : month_range m) by (apply month_range_intro; exact Hm).
  assert (Hdr : day_range d) by (unfold day_range; lia).
  clear Hm Hd. unfold day_range in Hdr.
  each_month Hmr;
    repeat (destruct Hdr as [Hdr|Hdr]); subst d; reflexivity.
Qed.

Lemma strptime_isoformat y m d :
  valid_date y m d = true ->
  strptime_Y_m_d (isoformat y m d) = Ret (midnight y m d).
Proof.
  intros Hv. pose proof Hv as (Hy & Hm & Hd)%valid_date_spec.
  pose proof (days_in_month_bounds y m).
  unfold strptime_Y_m_d.
  rewrite re_match_isoformat by lia. rewrite Hv. reflexivity.
Qed.


(** Property X17. [parse_date_input] does not raise; what it returns is [None]
    or a date of the calendar (year 1 to 9999, a day the month has) at
    midnight; and it returns the date for the ISO spelling [YYYY-MM-DD] of
    every date of the calendar. *)
Theorem parse_date_input_reads_calendar_dates :
  (forall s,
     parse_date_input s = Ret None
     \/ exists t,
          parse_date_input s = Ret (Some t)
          /\ valid_datetime t = true
          /\ hour t = 0 /\ minute t = 0 /\ second t = 0 /\ microsecond t = 0)
  /\ (forall y m d,
        valid_date y m d = true ->
        parse_date_input (isoformat y m d) = Ret (Some (midnight y m d))).
Proof.
  split; [exact parse_date_input_cases|].
  intros y m d Hv. unfold parse_date_input.
  rewrite (strptime_isoformat _ _ _ Hv). reflexivity.
Qed.

Lemma parse_date_input_reads_calendar_dates_witness :
  valid_date 2024 2 29 = true
  /\ isoformat 2024 2 29 = "2024-02-29"
  /\ parse_date_input "2024-02-29" = Ret (Some (midnight 2024 2 29)).
Proof.
  split; [reflexivity|]. split; [reflexivity|].
  exact (proj2 parse_date_input_reads_calendar_dates 2024 2 29 eq_refl).
Defined.

Example parse_date_input_examples :
  parse_date_input "2025-1-5" = Ret (Some (midnight 2025 1 5))
  /\ parse_date_input "2025-11- 5" = Ret (Some (midnight 2025 11 5))
  /\ parse_date_input "2025-02-30" = Ret None
  /\ parse_date_input "1900-02-29" = Ret None
  /\ parse_date_input "0000-01-01" = Ret None
  /\ parse_date_input "2025-11-24 " = Ret None
  /\ parse_date_input "2025-11-35" = Ret None
  /\ parse_date_input "2025-011-5" = Ret None
  /\ parse_date_input "2025/11/24" = Ret None
  /\ parse_date_input "" = Ret None.
Proof. repeat split. Qed.

(** ** [get_date_range] *)

Section asking_facts.
Variable now : nat -> datetime.
Hypothesis clock_valid : forall k, valid_datetime (now k) = true.

Local Abbreviation ask := (asking now).

Lemma last_week_ordered inputs tick log a b :
  result (last_week now inputs tick log)
    = Returned (a, b) ->
  valid_datetime a = true /\ valid_datetime b = true /\ datetime_gt a b = false.
Proof.
  unfold last_week.
  destruct (minus_days (now tick) 7) as [s|e] eqn:Hs; [|discriminate].
  cbn [result]. intros [= <- <-].
  destruct (minus_days_earlier (now tick) 7 s (clock_valid tick) eq_refl Hs).
  auto.
Qed.

(** Every turn is one of the cases. *)
Lemma asking_turn inputs tick log :
  turn now inputs tick log (ask inputs tick log).
Proof.
  destruct inputs as [|entered rest]; [apply TurnEOF; reflexivity|].
  cbn [asking].
  destruct (String.eqb (lower (strip entered)) "last7");
    [eapply TurnLastWeek; reflexivity|].
  destruct (String.eqb (lower (strip entered)) "lastweek");
    [eapply TurnLastWeek; reflexivity|].
  destruct (parse_date_input_cases (strip entered))
    as [->|(start_date & -> & Hstart & _)].
  { rewrite <- app_assoc. eapply TurnBadStart; reflexivity. }
  destruct rest as [|entered' rest].
  { rewrite <- app_assoc. eapply TurnEndEOF; [reflexivity|exact Hstart]. }
  destruct (String.eqb (strip entered') "").
  { destruct (datetime_gt start_date (now tick)) eqn:Hgt; rewrite <- !app_assoc.
    - eapply TurnDisordered; [reflexivity|]. lia.
    - eapply TurnPair; [reflexivity| |exact Hstart|apply clock_valid|exact Hgt].
      lia. }
  destruct (parse_date_input_cases (strip entered'))
    as [->|(end_date & -> & Hend & _)].
  { rewrite <- !app_assoc. eapply TurnBadEnd; reflexivity. }
  destruct (datetime_gt start_date end_date) eqn:Hgt; rewrite <- !app_assoc.
  - eapply TurnDisordered; [reflexivity|]. lia.
  - eapply TurnPair; [reflexivity| |exact Hstart|exact Hend|exact Hgt]. lia.
Qed.

Lemma minus_days_raises t n e : minus_days t n = Raise e -> e = OverflowError.
Proof.
  unfold minus_days. destruct (_ && _).
  - destruct (ord2ymd _) as [[y m] d]. discriminate.
  - intros [= <-]. reflexivity.
Qed.

Lemma prompts_app l l' : prompts (l ++ l') = (prompts l + prompts l')%nat.
Proof. unfold prompts. rewrite filter_app, length_app. reflexivity. Qed.

Ltac count_prompts :=
  rewrite ?prompts_app;
  repeat match goal with
         | |- context [prompts [?x]] =>
             let v := eval vm_compute in (prompts [x]) in
             change (prompts [x]) with v
         end.

Lemma asked_well_later inputs tick log s entered tick' log' :
  (tick <= tick')%nat ->
  prompts log' = S (prompts log) ->
  log `prefix_of` log' ->
  asked_well now inputs tick' log' s ->
  asked_well now (entered :: inputs) tick log s.
Proof.
  intros Ht Hp Hl (Hsuf & Hticks & Hpre & Hcount & Hres).
  repeat split.
  - apply suffix_cons_r, Hsuf.
  - lia.
  - etransitivity; eassumption.
  - rewrite Hcount, Hp. cbn [length].
    apply suffix_length in Hsuf. lia.
  - exact Hres.
Qed.

Lemma asked_well_later2 inputs tick log s entered entered' tick' log' :
  (tick <= tick')%nat ->
  prompts log' = S (S (prompts log)) ->
  log `prefix_of` log' ->
  asked_well now inputs tick' log' s ->
  asked_well now (entered :: entered' :: inputs) tick log s.
Proof.
  intros Ht Hp Hl (Hsuf & Hticks & Hpre & Hcount & Hres).
  repeat split.
  - do 2 apply suffix_cons_r. exact Hsuf.
  - lia.
  - etransitivity; eassumption.
  - rewrite Hcount, Hp. cbn [length].
    apply suffix_length in Hsuf. lia.
  - exact Hres.
Qed.

Lemma asking_asked_well n : forall inputs tick log,
  (length inputs <= n)%nat ->
  asked_well now inputs tick log (ask inputs tick log).
Proof.
  induction n as [|n IH]; intros inputs tick log Hlen;
    destruct (asking_turn inputs tick log)
      as [->|entered rest ->|entered rest ->|entered start_date -> Hs
         |entered entered' rest ->|entered entered' rest tick' -> Ht
         |entered entered' rest tick' start_date end_date -> Ht Hs He Hgt];
    cbn [length] in Hlen; try lia.
  1, 2: repeat split; cbn [unread ticks shown result length];
    [reflexivity|lia|apply prefix_app_r; reflexivity
    |count_prompts; lia].
  - (* last week *)
    unfold last_week.
    destruct (minus_days (now tick) 7) as [s|e] eqn:Hweek;
      (repeat split; cbn [unread ticks shown result length];
       [apply suffix_cons_r; reflexivity|lia|apply prefix_app_r; reflexivity
       |count_prompts; lia|..]).
    + exact (proj1 (minus_days_earlier _ 7 _ (clock_valid tick) eq_refl Hweek)).
    + apply clock_valid.
    + exact (proj2 (minus_days_earlier _ 7 _ (clock_valid tick) eq_refl Hweek)).
    + exact (minus_days_raises _ _ _ Hweek).
    + exists tick. rewrite Hweek, (minus_days_raises _ _ _ Hweek). reflexivity.
  - eapply asked_well_later; [| | |apply IH; lia];
      [lia|count_prompts; lia|apply prefix_app_r; reflexivity].
  - repeat split; cbn [unread ticks shown result length];
      [apply suffix_nil|lia|apply prefix_app_r; reflexivity
      |count_prompts; lia].
  - eapply asked_well_later2; [| | |apply IH; lia];
      [lia|count_prompts; lia|apply prefix_app_r; reflexivity].
  - eapply asked_well_later2; [| | |apply IH; lia];
      [exact Ht|count_prompts; lia|apply prefix_app_r; reflexivity].
  - repeat split; cbn [unread ticks shown result length];
      [do 2 apply suffix_cons_r; reflexivity|exact Ht
      |apply prefix_app_r; reflexivity
      |count_prompts; lia|assumption..].
Qed.
End asking_facts.


(** Property X18. When [get_date_range] returns, it returns two dates of the
    calendar of which the first is not after the second: whether they were
    typed, or the end was left to the clock, or the last week was asked
    for. *)
Theorem date_range_is_ordered :
  forall now inputs tick start_date end_date,
    (forall k, valid_datetime (now k) = true) ->
    result (get_date_range now inputs tick) = Returned (start_date, end_date) ->
    valid_datetime start_date = true
    /\ valid_datetime end_date = true
    /\ datetime_gt start_date end_date = false.
Proof.
  intros now inputs tick start_date end_date Hclock Hres.
  destruct (asking_asked_well now Hclock (length inputs) inputs tick
              [SayEnterRange; SayExample] (Nat.le_refl _))
    as (_ & _ & _ & _ & Hcase).
  unfold get_date_range in Hres. rewrite Hres in Hcase. exact Hcase.
Qed.

Lemma date_range_is_ordered_witness :
  result (get_date_range late_november ["2025-11-30"; ""; " 2025-11-01 "; ""] 0)
  = Returned (midnight 2025 11 1, late_november 0%nat)
  /\ datetime_gt (midnight 2025 11 1) (late_november 0%nat) = false.
Proof.
  split; [vm_compute; reflexivity|].
  refine (proj2 (proj2 (date_range_is_ordered late_november
                          ["2025-11-30"; ""; " 2025-11-01 "; ""] 0
                          (midnight 2025 11 1) (late_november 0%nat) _ _))).
  - intros k. reflexivity.
  - vm_compute. reflexivity.
Defined.

(** Property X19. [get_date_range] reads the lines of input in their order and
    leaves the rest; it shows one prompt for every line it reads, and one
    more when the input ends at a prompt, which is the only way it ends with
    [EOFError]; and with a clock past the first year of the calendar it does
    not end in any other way than by returning or at the end of the
    input. *)
Theorem date_range_reads_what_it_asks_for :
  forall now inputs tick,
    (forall k, valid_datetime (now k) = true) ->
    let s := get_date_range now inputs tick in
    unread s `suffix_of` inputs
    /\ prompts (shown s)
       = (length inputs - length (unread s)
          + match result s with Ended EOFError => 1 | _ => 0 end)%nat
    /\ (result s = Ended EOFError -> unread s = [])
    /\ ((forall k, 2 <= year (now k)) ->
        forall e, result s <> Ended (Escaped e)).
Proof.
  intros now inputs tick Hclock s.
  destruct (asking_asked_well now Hclock (length inputs) inputs tick
              [SayEnterRange; SayExample] (Nat.le_refl _))
    as (Hsuf & _ & _ & Hcount & Hcase).
  fold (get_date_range now inputs tick) in Hsuf, Hcount, Hcase. fold s in Hsuf, Hcount, Hcase.
  repeat split.
  - exact Hsuf.
  - exact Hcount.
  - intros He. rewrite He in Hcase. exact Hcase.
  - intros Hlate e He. rewrite He in Hcase. destruct Hcase as [_ [k Hk]].
    destruct (minus_days_returns (now k) 7 (Hclock k) eq_refl (Hlate k))
      as [w Hw]; [lia|]. congruence.
Qed.

Lemma date_range_reads_what_it_asks_for_witness :
  let s := get_date_range late_november ["yesterday"; "2025-11-01"; "2025-13-01"] 0 in
  result s = Ended EOFError
  /\ unread s = []
  /\ prompts (shown s) = 4%nat.
Proof.
  pose proof (date_range_reads_what_it_asks_for late_november
                ["yesterday"; "2025-11-01"; "2025-13-01"] 0
                (fun k => eq_refl)) as (_ & Hcount & Heof & _).
  split; [vm_compute; reflexivity|]. split.
  - apply Heof. vm_compute. reflexivity.
  - rewrite Hcount. vm_compute. reflexivity.
Defined.

(** Property X20. [last7] and [lastweek], in any case of the letters and with
    blanks around, give the time of the clock and the same time of day
    seven days before it, as a date of the calendar; one line is read
    and the clock once. *)
Theorem last_week_is_seven_days_back :
  forall now entered rest tick,
    valid_datetime (now tick) = true ->
    2 <= year (now tick) ->
    lower (strip entered) = "last7" \/ lower (strip entered) = "lastweek" ->
    exists start_date,
      get_date_range now (entered :: rest) tick
      = mkSession (Returned (start_date, now tick)) rest (S tick)
          [SayEnterRange; SayExample; AskStart]
      /\ valid_datetime start_date = true
      /\ ymd2ord (year start_date) (month start_date) (day start_date)
         = ymd2ord (year (now tick)) (month (now tick)) (day (now tick)) - 7
      /\ (hour start_date, minute start_date, second start_date,
          microsecond start_date)
         = (hour (now tick), minute (now tick), second (now tick),
            microsecond (now tick)).
Proof.
  intros now entered rest tick Hv Hlate Hword.
  destruct (minus_days_returns (now tick) 7 Hv eq_refl Hlate) as [s Hs]; [lia|].
  exists s.
  assert (Hrun : get_date_range now (entered :: rest) tick
                 = last_week now rest tick [SayEnterRange; SayExample; AskStart]).
  { unfold get_date_range. cbn [asking].
    destruct Hword as [-> | ->]; reflexivity. }
  rewrite Hrun. unfold last_week. rewrite Hs. split; [reflexivity|].
  unfold minus_days in Hs.
  destruct (_ && _) eqn:Hrange; [|discriminate].
  apply andb_prop in Hrange as [Hlo%Z.leb_le Hhi%Z.leb_le].
  destruct (ord2ymd _) as [[y m] d] eqn:Hymd. injection Hs as <-.
  destruct (ord2ymd_spec _ _ _ _ (conj Hlo Hhi) Hymd) as [Hvs Hord].
  split; [apply valid_datetime_same_time; assumption|].
  split; [exact Hord|reflexivity].
Qed.

Lemma last_week_is_seven_days_back_witness :
  lower (strip "  LastWeek ") = "lastweek"
  /\ result (get_date_range late_november ["  LastWeek "; "x"] 0)
     = Returned (mkDatetime 2025 11 17 10 30 0 0, late_november 0%nat)
  /\ exists start_date,
       get_date_range late_november ["  LastWeek "; "x"] 0
       = mkSession (Returned (start_date, late_november 0%nat)) ["x"] 1
           [SayEnterRange; SayExample; AskStart].
Proof.
  split; [reflexivity|]. split; [vm_compute; reflexivity|].
  destruct (last_week_is_seven_days_back late_november "  LastWeek " ["x"] 0
              eq_refl ltac:(cbn; lia) (or_intror eq_refl))
    as (start_date & Hrun & _).
  exists start_date. exact Hrun.
Defined.

(** ** [main] *)

Lemma substring_all s : String.substring 0 (String.length s) s = s.
Proof. induction s as [|c s IH]; [reflexivity|]. cbn. rewrite IH. reflexivity. Qed.

Lemma substring_skip (a b : string) k :
  String.substring (String.length a) k (a ++ b) = String.substring 0 k b.
Proof.
  induction a as [|c a IH]; [reflexivity|].
  rewrite string_app_cons. cbn [String.length String.substring]. exact IH.
Qed.

Lemma endswith_app s suffix : endswith (s ++ suffix) suffix = true.
Proof.
  unfold endswith. rewrite string_length_app.
  apply andb_true_intro. split; [apply Nat.leb_le; lia|].
  replace (String.length s + String.length suffix - String.length suffix)%nat
    with (String.length s) by lia.
  rewrite substring_skip, substring_all. apply String.eqb_refl.
Qed.

(** The file name [main] exports to. *)
Lemma csv_name_ends_with_csv name :
  endswith (if endswith name ".csv" then name else (name ++ ".csv")%string)
    ".csv" = true.
Proof.
  destruct (endswith name ".csv") eqn:He; [exact He|apply endswith_app].
Qed.

Lemma prompts_fetch (log : list message) : prompts (map SayFetch log) = 0%nat.
Proof.
  unfold prompts. induction log as [|m log IH]; [reflexivity|exact IH].
Qed.

Section main_facts.
Variable now : nat -> datetime.
Variable upstream : request -> reply.
Variable timestamp : datetime -> exc Z.
Variable strftime_Ymd : datetime -> string.

Local Abbreviation run_main := (main now upstream timestamp strftime_Ymd).
Local Abbreviation run_save := (save strftime_Ymd).

(** The file [save] exports to: named after the line read at the prompt,
    or after the dates when that line is blank. *)
Lemma save_names_the_file activities start_date end_date inputs tick log
    trace fs :
  disk (run_save activities start_date end_date inputs tick log trace fs) = fs
  \/ exists entered rest,
       inputs = entered :: rest
       /\ unread (terminal (run_save activities start_date end_date inputs tick
                              log trace fs)) = rest
       /\ let typed := strip entered in
          let proposed :=
            ("strava_" ++ strftime_Ymd start_date ++ "_"
             ++ strftime_Ymd end_date ++ ".csv")%string in
          let name := if String.eqb typed "" then proposed else typed in
          let filename :=
            if endswith name ".csv" then name else (name ++ ".csv")%string in
          endswith filename ".csv" = true
          /\ elsewhere filename fs
               (disk (run_save activities start_date end_date inputs tick log
                        trace fs)).
Proof.
  unfold save. destruct activities as [|a activities]; [left; reflexivity|].
  destruct inputs as [|entered inputs]; [left; reflexivity|].
  right. exists entered, inputs. split; [reflexivity|].
  unfold default_filename.
  set (name := if String.eqb (strip entered) "" then _ else _).
  cbv zeta. fold name.
  pose proof (export_touches_only strava_extractor.extract_activity_data
                (a :: activities)
                (if endswith name ".csv" then name else (name ++ ".csv")%string)
                fs) as Hframe.
  unfold strava_extractor.export_to_csv.
  destruct (export_to_csv_with _ _ _ _) as [[b|e] fs'];
    (split; [reflexivity|]); (split; [apply csv_name_ends_with_csv|]);
    exact Hframe.
Qed.

Lemma main_names_the_file fuel token inputs fs r :
  run_main fuel token inputs fs = Some r ->
  disk r = fs
  \/ exists start_date end_date entered rest,
       result (get_date_range now inputs 0) = Returned (start_date, end_date)
       /\ unread (get_date_range now inputs 0) = entered :: rest
       /\ unread (terminal r) = rest
       /\ let typed := strip entered in
          let proposed :=
            ("strava_" ++ strftime_Ymd start_date ++ "_"
             ++ strftime_Ymd end_date ++ ".csv")%string in
          let name := if String.eqb typed "" then proposed else typed in
          let filename :=
            if endswith name ".csv" then name else (name ++ ".csv")%string in
          endswith filename ".csv" = true /\ elsewhere filename fs (disk r).
Proof.
  unfold main.
  destruct (token_missing token); [intros [= <-]; left; reflexivity|].
  destruct (result (get_date_range now inputs 0))
    as [[start_date end_date]|e] eqn:Hdates;
    [|intros [= <-]; left; reflexivity].
  destruct (timestamp start_date) as [after|e];
    [|intros [= <-]; left; reflexivity].
  destruct (timestamp end_date) as [before|e];
    [|intros [= <-]; left; reflexivity].
  destruct (strava_extractor.get_activities _ _ _ _ _ _) as [fetched|];
    [|discriminate].
  destruct (returned fetched) as [activities|e];
    [|intros [= <-]; left; reflexivity].
  intros [= <-].
  destruct (save_names_the_file activities start_date end_date
              (unread (get_date_range now inputs 0))
              (ticks (get_date_range now inputs 0))
              (([SayRule; SayTitle; SayRule]
                ++ shown (get_date_range now inputs 0))
               ++ map SayFetch (printed fetched))
              (requests fetched) fs)
    as [Hsame|(entered & rest & Hin & Hrest & Hname)]; [left; exact Hsame|].
  right. exists start_date, end_date, entered, rest.
  split; [reflexivity|]. split; [exact Hin|]. split; [exact Hrest|exact Hname].
Qed.

Lemma first_page_without_records after before max_activities fuel :
  page_crash upstream after before 200 1 = None ->
  page_of upstream after before 200 1 = None
  \/ page_of upstream after before 200 1 = Some [] ->
  exists log,
    strava_extractor.get_activities (S fuel) upstream after before 200
      max_activities
    = Some (mkOutcome (Ret []) [mkRequest after before 1 200] log).
Proof.
  intros Hcrash Hpage. unfold strava_extractor.get_activities.
  change (Z.min 200 200) with 200. cbn [strava_extractor.loop].
  destruct (page_cases upstream after before 200 max_activities [] 1)
    as [r Hup Hst Hs Hc _|r Hup Hst Hs Hc _|e He Hs Hc _|Hs Hc _
       |x b Hs Hl Hc _|x b Hs Hl Hc _|e He Hs Hk Hc _]; rewrite ?Hc;
    try (eexists; reflexivity); [| |congruence];
    destruct Hpage as [Hp|Hp]; rewrite Hp in Hs; discriminate.
Qed.
End main_facts.

(** Property X21. Whatever [main] does, it changes no file but the one
    it exports to, and the name of that file ends in [.csv]: it is the line
    typed at the prompt, without the blanks around it, used as it is when
    it ends in [.csv] and with [.csv] appended when it does not; when the
    line is blank it is [strava_<start>_<end>.csv], the name [main]
    proposes. When nothing is exported the files are what they were. *)
Theorem main_changes_only_a_csv_file :
  forall now upstream timestamp strftime_Ymd fuel token inputs fs r,
    main now upstream timestamp strftime_Ymd fuel token inputs fs = Some r ->
    disk r = fs
    \/ exists start_date end_date entered rest,
         result (get_date_range now inputs 0) = Returned (start_date, end_date)
         /\ unread (get_date_range now inputs 0) = entered :: rest
         /\ unread (terminal r) = rest
         /\ let typed := strip entered in
            let proposed :=
              ("strava_" ++ strftime_Ymd start_date ++ "_"
               ++ strftime_Ymd end_date ++ ".csv")%string in
            let name := if String.eqb typed "" then proposed else typed in
            let filename :=
              if endswith name ".csv" then name else (name ++ ".csv")%string in
            endswith filename ".csv" = true /\ elsewhere filename fs (disk r).
Proof.
  intros now upstream timestamp strftime_Ymd fuel token inputs fs r.
  apply main_names_the_file.
Qed.

Lemma main_changes_only_a_csv_file_witness :
  (exists r,
     main late_november (serving [[morning_run]] no_more) utc_timestamp
       compact_Ymd 5 (Some "token") ["2025-11-01"; ""; " rides "] roomy_disk
     = Some r
     /\ sent r = [mkRequest 1761955200 1763980200 1 200;
                  mkRequest 1761955200 1763980200 2 200]
     /\ result (terminal r) = Returned tt
     /\ files (disk r) !! "out.csv" = Some "old text"
     /\ (exists text, files (disk r) !! "rides.csv" = Some text
                      /\ length (csv_reader text) = 2%nat)
     /\ elsewhere "rides.csv" roomy_disk (disk r))
  /\ (exists r text,
        main late_november (serving [[morning_run]] no_more) utc_timestamp
          compact_Ymd 5 (Some "token") ["2025-11-01"; ""; "out.csv"] roomy_disk
        = Some r
        /\ files (disk r) !! "out.csv" = Some text
        /\ length (csv_reader text) = 2%nat
        /\ files (disk r) !! "out.csv.csv" = None)
  /\ (exists r text,
        main late_november (serving [[morning_run]] no_more) utc_timestamp
          compact_Ymd 5 (Some "token") ["2025-11-01"; ""; "  "] roomy_disk
        = Some r
        /\ files (disk r) !! "strava_20251101_20251124.csv" = Some text
        /\ length (csv_reader text) = 2%nat
        /\ files (disk r) !! "out.csv" = Some "old text").
Proof.
  split; [|split].
  - eexists. split; [vm_compute; reflexivity|].
    split; [reflexivity|]. split; [reflexivity|]. split; [reflexivity|].
    split; [eexists; split; [reflexivity|vm_compute; reflexivity]|].
    match goal with
    | |- elsewhere _ _ (disk ?r) =>
        destruct (main_changes_only_a_csv_file late_november
                    (serving [[morning_run]] no_more) utc_timestamp
                    compact_Ymd 5 (Some "token")
                    ["2025-11-01"; ""; " rides "] roomy_disk r
                    ltac:(vm_compute; reflexivity))
          as [Hsame
             |(start_date & end_date & entered & rest & _ & Hin & _ & Hname)]
    end.
    + rewrite Hsame. apply elsewhere_refl.
    + vm_compute in Hin. injection Hin as <- <-. exact (proj2 Hname).
  - eexists. eexists. split; [vm_compute; reflexivity|].
    split; [reflexivity|]. split; [vm_compute; reflexivity|reflexivity].
  - eexists. eexists. split; [vm_compute; reflexivity|].
    split; [reflexivity|]. split; [vm_compute; reflexivity|reflexivity].
Defined.

(** Property X22. When the first page of the range holds no record that
    [get_activities] returns (it is empty, or answered with 401 or 429, or
    the request fails with a [RequestException]), [main] makes that one request and ends with the line
    that nothing was found: it asks for no file name, reads no further line
    and leaves the files as they were. *)
Theorem main_without_records_exports_nothing :
  forall now upstream timestamp strftime_Ymd fuel token inputs fs
         start_date end_date after before,
    token_missing token = false ->
    result (get_date_range now inputs 0) = Returned (start_date, end_date) ->
    timestamp start_date = Ret after ->
    timestamp end_date = Ret before ->
    page_crash upstream after before 200 1 = None ->
    page_of upstream after before 200 1 = None
    \/ page_of upstream after before 200 1 = Some [] ->
    exists r,
      main now upstream timestamp strftime_Ymd (S fuel) token inputs fs = Some r
      /\ disk r = fs
      /\ sent r = [mkRequest after before 1 200]
      /\ result (terminal r) = Returned tt
      /\ unread (terminal r) = unread (get_date_range now inputs 0)
      /\ last (shown (terminal r)) = Some SayNothingFound
      /\ prompts (shown (terminal r))
         = prompts (shown (get_date_range now inputs 0)).
Proof.
  intros now upstream timestamp strftime_Ymd fuel token inputs fs
    start_date end_date after before Htoken Hdates Hafter Hbefore Hcrash Hpage.
  destruct (first_page_without_records upstream after before None fuel Hcrash
              Hpage)
    as [log Hfetch].
  unfold main. rewrite Htoken, Hdates, Hafter, Hbefore, Hfetch.
  cbn [returned requests printed save].
  eexists. split; [reflexivity|].
  cbn [disk sent terminal result unread shown].
  repeat split.
  - apply last_snoc.
  - rewrite !prompts_app.
    rewrite prompts_fetch.
    change (prompts [SayRule; SayTitle; SayRule]) with 0%nat.
    change (prompts [SayNothingFound]) with 0%nat. lia.
Qed.

Lemma main_without_records_exports_nothing_witness :
  exists r,
    main late_november (always unauthorized) utc_timestamp compact_Ymd 1
      (Some "expired") ["2025-11-01"; "2025-11-24"; "rides"] roomy_disk
    = Some r
    /\ disk r = roomy_disk
    /\ unread (terminal r) = ["rides"]
    /\ last (shown (terminal r)) = Some SayNothingFound.
Proof.
  destruct (main_without_records_exports_nothing late_november
              (always unauthorized) utc_timestamp compact_Ymd 0 (Some "expired")
              ["2025-11-01"; "2025-11-24"; "rides"] roomy_disk
              (midnight 2025 11 1) (midnight 2025 11 24) 1761955200 1763942400
              eq_refl ltac:(vm_compute; reflexivity) eq_refl eq_refl eq_refl
              (or_introl eq_refl))
    as (r & Hrun & Hdisk & _ & _ & Hunread & Hlast & _).
  exists r. repeat split; assumption.
Defined.

(** ** The window of [strava_gui.py] *)

Section strava_gui_facts.
Import strava_gui.

Lemma update_ui_settles g :
  after_queue g = [] -> settled (_update_ui_after_fetch g).
Proof.
  intros Hq. unfold _update_ui_after_fetch, settled.
  destruct g as [s e acts fb eb st es pt pd q ds]. cbn in Hq. subst q.
  destruct acts as [|a acts]; cbn; repeat split.
Qed.

Lemma update_ui_keeps g :
  activities (_update_ui_after_fetch g) = activities g
  /\ dialogs (_update_ui_after_fetch g) = dialogs g
  /\ preview_text (_update_ui_after_fetch g) = preview_text g
  /\ start_date_var (_update_ui_after_fetch g) = start_date_var g
  /\ end_date_var (_update_ui_after_fetch g) = end_date_var g.
Proof.
  unfold _update_ui_after_fetch.
  destruct g as [s e acts fb eb st es pt pd q ds].
  destruct acts as [|a acts]; cbn; repeat split.
Qed.

Lemma display_preview_keeps g :
  activities (_display_preview g).1 = activities g
  /\ dialogs (_display_preview g).1 = dialogs g
  /\ after_queue (_display_preview g).1 = after_queue g
  /\ start_date_var (_display_preview g).1 = start_date_var g
  /\ end_date_var (_display_preview g).1 = end_date_var g.
Proof.
  unfold _display_preview.
  destruct g as [s e acts fb eb st es pt pd q ds].
  cbn [set_preview activities start_date_var end_date_var fetch_button
         export_button status_label export_status_label after_queue dialogs].
  destruct acts as [|a acts]; [cbn; repeat split|].
  destruct (table (a :: acts)); cbn; repeat split.
Qed.

(** The callbacks change neither [self.activities] nor the dates. *)
Lemma run_callbacks_keeps queue : forall g,
  activities (run_callbacks queue g) = activities g
  /\ start_date_var (run_callbacks queue g) = start_date_var g
  /\ end_date_var (run_callbacks queue g) = end_date_var g
  /\ after_queue (run_callbacks queue g) = after_queue g.
Proof.
  induction queue as [|[d| |] queue IH]; intros g; cbn [run_callbacks].
  - repeat split.
  - destruct (IH (show g d)) as (-> & -> & -> & ->). repeat split.
  - destruct (IH (_display_preview g).1) as (-> & -> & -> & ->).
    destruct (display_preview_keeps g) as (-> & _ & -> & -> & ->).
    repeat split.
  - destruct (IH (_update_ui_after_fetch g)) as (-> & -> & -> & ->).
    destruct (update_ui_keeps g) as (-> & _ & _ & -> & ->).
    unfold _update_ui_after_fetch.
    destruct g as [s e acts fb eb st es pt pd q ds].
    destruct acts; repeat split.
Qed.

(** When [_update_ui_after_fetch] is the last callback, the window is
    settled after the queue. *)
Lemma run_callbacks_settles queue g :
  after_queue g = [] ->
  settled (run_callbacks (queue ++ [UpdateUiAfterFetch]) g).
Proof.
  revert g. induction queue as [|[d| |] queue IH]; intros g Hq;
    cbn [app run_callbacks].
  - apply update_ui_settles, Hq.
  - apply IH. exact Hq.
  - apply IH. destruct (display_preview_keeps g) as (_ & _ & -> & _). exact Hq.
  - apply IH. destruct (update_ui_settles g Hq) as (_ & _ & _ & H). exact H.
Qed.

Section fetching_facts.
Variable upstream : request -> reply.
Variable timestamp : datetime -> exc Z.

Local Abbreviation thread := (_fetch_activities_thread upstream timestamp).
Local Abbreviation click := (fetch_activities upstream timestamp).

(** The thread queues [_update_ui_after_fetch] last, whatever path it
    takes. *)
Lemma ending_queues_update g trace raised :
  exists queue raised',
    after_queue (window (ending g trace raised))
    = after_queue g ++ queue ++ [UpdateUiAfterFetch]
    /\ sent (ending g trace raised) = trace
    /\ escaped (ending g trace raised) = raised'.
Proof.
  unfold ending.
  destruct raised as [[]|];
    try solve [exists []; eexists; cbn; repeat split; reflexivity].
  exists [Show ErrorInvalidDate], None. cbn. rewrite <- ?app_assoc. repeat split.
Qed.

Lemma ending_extends g0 g trace raised q :
  after_queue g = after_queue g0 ++ q ->
  exists queue,
    after_queue (window (ending g trace raised))
    = after_queue g0 ++ queue ++ [UpdateUiAfterFetch].
Proof.
  intros Hq. destruct (ending_queues_update g trace raised)
    as (queue & r' & -> & _).
  rewrite Hq, <- app_assoc. exists (q ++ queue). rewrite <- app_assoc.
  reflexivity.
Qed.

Ltac queue_extends :=
  cbn [after set_after_queue set_activities set_fetch_button set_status_label
         after_queue];
  first [symmetry; apply app_nil_r | reflexivity].

Lemma thread_queues_update fuel g f :
  thread fuel g = Some f ->
  exists queue,
    after_queue (window f) = after_queue g ++ queue ++ [UpdateUiAfterFetch].
Proof.
  unfold _fetch_activities_thread.
  destruct (strptime_Y_m_d (start_date_var g)) as [start_date|e];
    [|intros <-%(inj Some); eapply ending_extends; queue_extends].
  destruct (strptime_Y_m_d (end_date_var g)) as [end_date|e];
    [|intros <-%(inj Some); eapply ending_extends; queue_extends].
  destruct (datetime_gt start_date end_date);
    [intros <-%(inj Some); eapply ending_extends; queue_extends|].
  destruct (timestamp start_date) as [a|e];
    [|intros <-%(inj Some); eapply ending_extends; queue_extends].
  destruct (timestamp end_date) as [b|e];
    [|intros <-%(inj Some); eapply ending_extends; queue_extends].
  destruct (cutie_extractor.get_activities _ _ _ _ _ _) as [o|]; [|discriminate].
  destruct (returned o) as [[[|x l]|]|e];
    intros <-%(inj Some); eapply ending_extends; queue_extends.
Qed.

(** After a click on the fetch button and all it sets off, the window is
    settled. *)
Lemma click_settles fuel g f :
  after_queue g = [] ->
  click fuel g = Some f -> settled (window f).
Proof.
  intros Hq. unfold fetch_activities.
  destruct (thread fuel _) as [t|] eqn:Ht; [|discriminate]. intros [= <-].
  destruct (thread_queues_update _ _ _ Ht) as [queue Hqueue].
  cbn [window]. unfold mainloop. rewrite Hqueue.
  cbn [set_status_label set_export_button set_fetch_button after_queue].
  rewrite Hq. cbn [app]. apply run_callbacks_settles. reflexivity.
Qed.

(** The fetch of the window on a 401 after [n] pages. *)
Lemma gui_get_401 after before n acc r fuel :
  accumulated upstream after before 200 None n = Some acc ->
  upstream (page_request after before 200 (Z.of_nat n + 1)) = Answers r ->
  status_code r = 401 ->
  (n < fuel)%nat ->
  cutie_extractor.get_activities fuel upstream after before 200 None
  = Some (mkOutcome (Ret None) (page_requests after before 200 (S n)) []).
Proof.
  intros Hacc Hr Hs Hf. unfold cutie_extractor.get_activities.
  change (Z.min 200 200) with 200.
  replace fuel with (n + S (fuel - S n))%nat by lia.
  rewrite (gui_loop_accumulated _ _ _ _ _ _ _ _ _ Hacc).
  rewrite (gui_loop_401 _ _ _ _ _ _ _ _ _ _ Hr Hs).
  rewrite page_requests_S. cbn [app].
  replace (Z.of_nat (S n)) with (Z.of_nat n + 1) by lia. reflexivity.
Qed.
(** The thread when the start date is after the end date. *)
Lemma thread_swapped fuel g start_date end_date :
  strptime_Y_m_d (start_date_var g) = Ret start_date ->
  strptime_Y_m_d (end_date_var g) = Ret end_date ->
  datetime_gt start_date end_date = true ->
  _fetch_activities_thread upstream timestamp fuel g
  = Some (ending
            (set_status_label
               (set_fetch_button (after g (Show ErrorStartAfterEnd)) true)
               StatusError) [] None).
Proof.
  intros Hs He Hgt. unfold _fetch_activities_thread.
  rewrite Hs, He, Hgt. reflexivity.
Qed.
End fetching_facts.
End strava_gui_facts.



(** Property X24. When the start date entered is after the end date, a click
    on the fetch button makes no request and shows the error, but
    [self.activities] is not reset: the records of the fetch before stay,
    the export button is enabled for them again, and the status counts them
    as fetched. *)
Theorem swapped_dates_keep_the_old_records :
  forall upstream timestamp fuel g start_date end_date,
    strava_gui.after_queue g = [] ->
    strptime_Y_m_d (strava_gui.start_date_var g) = Ret start_date ->
    strptime_Y_m_d (strava_gui.end_date_var g) = Ret end_date ->
    datetime_gt start_date end_date = true ->
    exists w,
      strava_gui.fetch_activities upstream timestamp fuel g
      = Some (strava_gui.mkFetched w [] None)
      /\ strava_gui.activities w = strava_gui.activities g
      /\ strava_gui.dialogs w
         = strava_gui.dialogs g ++ [strava_gui.ErrorStartAfterEnd]
      /\ strava_gui.preview_text w = strava_gui.preview_text g
      /\ strava_gui.settled w.
Proof.
  intros upstream timestamp fuel g start_date end_date Hq Hs He Hgt.
  assert (Hrun : exists w,
             strava_gui.fetch_activities upstream timestamp fuel g
             = Some (strava_gui.mkFetched w [] None)
             /\ strava_gui.activities w = strava_gui.activities g
             /\ strava_gui.dialogs w
                = strava_gui.dialogs g ++ [strava_gui.ErrorStartAfterEnd]
             /\ strava_gui.preview_text w = strava_gui.preview_text g).
  { unfold strava_gui.fetch_activities. cbv zeta.
    rewrite (thread_swapped upstream timestamp fuel
               (strava_gui.set_status_label
                  (strava_gui.set_export_button
                     (strava_gui.set_fetch_button g false) false)
                  strava_gui.Fetching)
               start_date end_date Hs He Hgt).
    destruct g as [s e acts fb eb st es pt pd q ds]. cbn in Hq. subst q.
    eexists. split; [reflexivity|].
    destruct acts; cbn; repeat split. }
  destruct Hrun as (w & Hrun & Hacts & Hdialogs & Htext).
  exists w. split; [exact Hrun|]. split; [exact Hacts|].
  split; [exact Hdialogs|]. split; [exact Htext|].
  exact (click_settles upstream timestamp fuel g _ Hq Hrun).
Qed.

Lemma swapped_dates_keep_the_old_records_witness :
  exists w,
    strava_gui.fetch_activities (always unauthorized) utc_timestamp 0
      swapped_dates
    = Some (strava_gui.mkFetched w [] None)
    /\ strava_gui.activities w = [morning_run]
    /\ strava_gui.export_button w = true
    /\ strava_gui.status_label w = strava_gui.Fetched 1.
Proof.
  destruct (swapped_dates_keep_the_old_records (always unauthorized)
              utc_timestamp 0 swapped_dates (midnight 2025 11 24)
              (midnight 2025 11 17) eq_refl eq_refl eq_refl eq_refl)
    as (w & Hrun & Hacts & _ & _ & _ & Hexp & Hst & _).
  exists w. rewrite Hacts in Hexp, Hst. repeat split; assumption.
Defined.

(** Property X25. A 401 at any page of the fetch, also after pages that held
    records, leaves the window without records: [self.activities] is
    empty, the auth error is shown, the export button is disabled and the
    status says so; the preview is not touched. *)
Theorem rejected_token_empties_the_window :
  forall upstream timestamp fuel g start_date end_date after before n acc r,
    strava_gui.after_queue g = [] ->
    strptime_Y_m_d (strava_gui.start_date_var g) = Ret start_date ->
    strptime_Y_m_d (strava_gui.end_date_var g) = Ret end_date ->
    datetime_gt start_date end_date = false ->
    timestamp start_date = Ret after ->
    timestamp end_date = Ret before ->
    accumulated upstream after before 200 None n = Some acc ->
    upstream (page_request after before 200 (Z.of_nat n + 1)) = Answers r ->
    status_code r = 401 ->
    (n < fuel)%nat ->
    exists w,
      strava_gui.fetch_activities upstream timestamp fuel g
      = Some (strava_gui.mkFetched w (page_requests after before 200 (S n)) None)
      /\ strava_gui.activities w = []
      /\ strava_gui.dialogs w = strava_gui.dialogs g ++ [strava_gui.ErrorAuth]
      /\ strava_gui.preview_text w = strava_gui.preview_text g
      /\ strava_gui.export_button w = false
      /\ strava_gui.status_label w = strava_gui.FailedOrNoData.
Proof.
  intros upstream timestamp fuel g start_date end_date after before n acc r
    Hq Hs He Hgt Ha Hb Hacc Hr Hst Hf.
  unfold strava_gui.fetch_activities, strava_gui._fetch_activities_thread.
  cbn [strava_gui.set_status_label strava_gui.set_export_button
         strava_gui.set_fetch_button strava_gui.start_date_var
         strava_gui.end_date_var].
  rewrite Hs, He, Hgt, Ha, Hb.
  rewrite (gui_get_401 upstream after before n acc r fuel Hacc Hr Hst Hf).
  cbn [returned requests].
  destruct g as [s e acts fb eb st es pt pd q ds]. cbn in Hq. subst q.
  eexists. split; [reflexivity|]. cbn. repeat split.
Qed.

Lemma rejected_token_empties_the_window_witness :
  exists w,
    strava_gui.fetch_activities (serving [[morning_run]] unauthorized)
      utc_timestamp 5 fresh_window
    = Some (strava_gui.mkFetched w
              (page_requests 1763337600 1763942400 200 2) None)
    /\ strava_gui.activities w = []
    /\ strava_gui.dialogs w = [strava_gui.ErrorAuth].
Proof.
  destruct (rejected_token_empties_the_window
              (serving [[morning_run]] unauthorized) utc_timestamp 5
              fresh_window (midnight 2025 11 17) (midnight 2025 11 24)
              1763337600 1763942400 1 [morning_run] (mkResponse 401 NotJson)
              eq_refl eq_refl eq_refl eq_refl eq_refl eq_refl eq_refl eq_refl
              eq_refl ltac:(lia))
    as (w & Hrun & Hacts & Hd & _).
  exists w. repeat split; assumption.
Defined.

(** Property X26. A click on the export button shows exactly one message box
    and raises nothing; it leaves [self.activities] as it was; it changes
    no file but [strava_<start>_<end>.csv] in the downloads, named after what
    the date entries hold at that moment, hyphens removed; and without
    records it changes no file at all and shows the warning. *)
Theorem export_click_shows_one_dialog :
  forall in_downloads g fs,
    let filepath :=
      in_downloads
        ("strava_" ++ without_hyphens (strava_gui.start_date_var g) ++ "_"
         ++ without_hyphens (strava_gui.end_date_var g) ++ ".csv")%string in
    let after := strava_gui.export_csv in_downloads g fs in
    (exists d, strava_gui.dialogs after.1 = strava_gui.dialogs g ++ [d])
    /\ strava_gui.activities after.1 = strava_gui.activities g
    /\ elsewhere filepath fs after.2
    /\ (strava_gui.activities g = [] ->
        after = (strava_gui.show g strava_gui.WarnNothingToExport, fs)).
Proof.
  intros in_downloads g fs filepath after. subst after filepath.
  unfold strava_gui.export_csv.
  destruct (strava_gui.activities g) as [|a acts] eqn:Hacts.
  { cbn. rewrite Hacts. repeat split. eauto. }
  pose proof (export_touches_only cutie_extractor.extract_activity_data
                (a :: acts)
                (in_downloads
                   ("strava_" ++ without_hyphens (strava_gui.start_date_var g)
                    ++ "_" ++ without_hyphens (strava_gui.end_date_var g)
                    ++ ".csv")%string) fs) as Hframe.
  unfold cutie_extractor.export_to_csv.
  destruct (export_to_csv_with _ _ _ _) as [[[|]|e] fs']; cbn in Hframe |- *;
    rewrite ?Hacts;
    (split; [eexists; reflexivity|]); (split; [reflexivity|]);
    (split; [exact Hframe|discriminate]).
Qed.

Lemma export_click_shows_one_dialog_witness :
  let after := strava_gui.export_csv my_downloads swapped_dates roomy_disk in
  (exists d, strava_gui.dialogs after.1 = [d])
  /\ strava_gui.dialogs after.1
     = [strava_gui.InfoExported
          "/home/me/Downloads/strava_20251124_20251117.csv"]
  /\ elsewhere "/home/me/Downloads/strava_20251124_20251117.csv" roomy_disk
       after.2.
Proof.
  pose proof (export_click_shows_one_dialog my_downloads swapped_dates
                roomy_disk) as H.
  cbv zeta in H. destruct H as (Hd & _ & Hframe & _).
  split; [exact Hd|]. split; [vm_compute; reflexivity|exact Hframe].
Defined.

(** ** The table of the preview *)

Section table_facts.
Import strava_gui.

Lemma times_length c n : String.length (times c n) = n.
Proof. induction n as [|n IH]; [reflexivity|]. cbn. rewrite IH. reflexivity. Qed.

Lemma ljust_length s w :
  (String.length s <= w)%nat -> String.length (ljust s w) = w.
Proof.
  intros H. unfold ljust. rewrite string_length_app, times_length. lia.
Qed.

Lemma join_length (sep : string) parts :
  String.length (join sep parts)
  = (sum_list (map String.length parts)
     + String.length sep * (length parts - 1))%nat.
Proof.
  induction parts as [|part parts IH]; [cbn; lia|].
  destruct parts as [|part' parts].
  - cbn. lia.
  - change (join sep (part :: part' :: parts))
      with (part ++ sep ++ join sep (part' :: parts))%string.
    rewrite !string_length_app, IH. cbn [map sum_list length].
    rewrite !Nat.sub_succ, !Nat.sub_0_r, Nat.mul_succ_r. unfold id. lia.
Qed.

Lemma cells_fit col_widths headers cell :
  fits_columns col_widths headers cell ->
  exists parts,
    cells col_widths headers cell = Drawn parts
    /\ map String.length parts
       = map (fun h => default 0%nat (col_widths !! h)) headers.
Proof.
  induction headers as [|h headers IH]; intros Hfit.
  - exists []. split; reflexivity.
  - destruct (Hfit h) as (w & Hw & Hlen); [left|].
    destruct IH as (parts & Hparts & Hlens).
    { intros h' Hin. apply Hfit. right. exact Hin. }
    exists (ljust (cell h) w :: parts). cbn [cells]. unfold width_of.
    rewrite Hw. cbn [mbind drawn_bind]. rewrite Hparts.
    split; [reflexivity|].
    cbn [map]. rewrite Hw, Hlens, (ljust_length _ _ Hlen). reflexivity.
Qed.

(** A line whose cells fit has the width of the table. *)
Lemma table_line_width col_widths headers cell :
  fits_columns col_widths headers cell ->
  exists line,
    table_line col_widths headers cell = Drawn line
    /\ String.length line = line_width col_widths headers.
Proof.
  intros Hfit. destruct (cells_fit _ _ _ Hfit) as (parts & Hparts & Hlens).
  exists (join " | " parts). unfold table_line. rewrite Hparts.
  split; [reflexivity|].
  rewrite join_length, Hlens. unfold line_width.
  replace (length parts) with (length headers); [reflexivity|].
  rewrite <- (length_map String.length parts), Hlens, length_map. reflexivity.
Qed.

Lemma wider_refl w : wider w w.
Proof. intros k n H. eauto. Qed.

Lemma wider_trans w w' w'' : wider w w' -> wider w' w'' -> wider w w''.
Proof.
  intros H H' k n Hk. destruct (H k n Hk) as (n' & Hk' & Hle).
  destruct (H' k n' Hk') as (n'' & Hk'' & Hle'). exists n''. split; [exact Hk''|lia].
Qed.

Lemma wider_insert w k n m :
  w !! k = Some n -> (n <= m)%nat -> wider w (<[k := m]> w).
Proof.
  intros Hk Hle k' n' Hk'. destruct (decide (k = k')) as [<-|Hne].
  - rewrite lookup_insert_eq. exists m. split; [reflexivity|]. congruence.
  - rewrite lookup_insert_ne by exact Hne. eauto.
Qed.

Lemma fits_columns_wider w w' headers cell :
  wider w w' -> fits_columns w headers cell -> fits_columns w' headers cell.
Proof.
  intros Hw Hfit h Hin. destruct (Hfit h Hin) as (n & Hn & Hle).
  destruct (Hw h n Hn) as (n' & Hn' & Hle'). exists n'. split; [exact Hn'|lia].
Qed.

(** One row widens the columns it has, to its cells at least. *)
Lemma widen_spec items : forall w,
  (forall k, k ∈ keys items -> is_Some (w !! k)) ->
  exists w',
    widen w items = Drawn w'
    /\ wider w w'
    /\ forall k v, (k, v) ∈ items ->
         exists n, w' !! k = Some n
                   /\ (String.length (builtin_str v) + 2 <= n)%nat.
Proof.
  induction items as [|[k v] items IH]; intros w Hdom.
  - exists w. split; [reflexivity|]. split; [apply wider_refl|].
    intros k v Hin. inversion Hin.
  - destruct (Hdom k) as [n Hn]; [left|].
    cbn [widen]. unfold width_of. rewrite Hn. cbn [mbind drawn_bind].
    set (m := Nat.max n (String.length (builtin_str v) + 2)).
    assert (Hw : wider w (<[k := m]> w)) by (apply (wider_insert _ _ n); [exact Hn|lia]).
    destruct (IH (<[k := m]> w)) as (w' & Hrun & Hw' & Hcells).
    { intros k' Hin. destruct (Hdom k') as [n' Hn']; [right; exact Hin|].
      destruct (Hw k' n' Hn') as (n'' & -> & _). eauto. }
    exists w'. split; [exact Hrun|]. split; [eapply wider_trans; eassumption|].
    intros k' v' Hin. apply elem_of_cons in Hin as [[= -> ->]|Hin].
    + destruct (Hw' k m) as (n' & Hn' & Hle); [apply lookup_insert_eq|].
      exists n'. split; [exact Hn'|]. lia.
    + apply Hcells, Hin.
Qed.

Lemma header_widths_other headers : forall w k,
  k ∉ headers -> header_widths headers w !! k = w !! k.
Proof.
  induction headers as [|h headers IH]; intros w k Hk; [reflexivity|].
  apply not_elem_of_cons in Hk as [Hne Hk]. cbn [header_widths].
  rewrite (IH _ _ Hk). apply lookup_insert_ne. congruence.
Qed.

Lemma header_widths_spec headers : forall w h,
  h ∈ headers ->
  header_widths headers w !! h = Some (String.length h + 2)%nat.
Proof.
  induction headers as [|h' headers IH]; intros w h Hin; [inversion Hin|].
  cbn [header_widths]. destruct (decide (h ∈ headers)) as [Hin'|Hout].
  - apply IH, Hin'.
  - apply elem_of_cons in Hin as [->|Hin]; [|contradiction].
    rewrite (header_widths_other _ _ _ Hout). apply lookup_insert_eq.
Qed.

Lemma row_get_in (r : row) h :
  h ∈ keys r -> exists v, row_get r h = Some v /\ (h, v) ∈ r.
Proof.
  induction r as [|[k v] r IH]; intros Hin; [inversion Hin|].
  cbn [row_get]. destruct (String.eqb_spec k h) as [->|Hne].
  - exists v. split; [reflexivity|left].
  - cbn [keys map fst] in Hin. apply elem_of_cons in Hin as [->|Hin]; [congruence|].
    destruct (IH Hin) as (v' & Hv & Hin'). exists v'. split; [exact Hv|right; exact Hin'].
Qed.

Lemma extract_keys a r :
  extract a = Drawn r -> keys r = field_names compact_fields.
Proof.
  unfold extract.
  destruct (cutie_extractor.extract_activity_data a) as [r'|e] eqn:Hr;
    [|discriminate].
  intros [= <-]. exact (compact_keys _ _ Hr).
Qed.

Lemma rows_fit_wider w w' shown :
  wider w w' -> rows_fit w shown -> rows_fit w' shown.
Proof.
  intros Hw Hfit a r Hin Hr. eapply fits_columns_wider; [exact Hw|].
  exact (Hfit a r Hin Hr).
Qed.

(** The first loop over the activities shown: it fails on the first that
    cannot be normalised, and else leaves columns in which every row
    fits. *)
Lemma widen_all_spec shown : forall w,
  (forall h, h ∈ field_names compact_fields -> is_Some (w !! h)) ->
  (exists w',
     widen_all w shown = Drawn w'
     /\ wider w w'
     /\ rows_fit w' shown
     /\ forall a, a ∈ shown -> exists r, extract a = Drawn r)
  \/ (exists a e,
        widen_all w shown = Failed (Normaliser e)
        /\ a ∈ shown
        /\ cutie_extractor.extract_activity_data a = Raise e).
Proof.
  induction shown as [|a shown IH]; intros w Hdom.
  - left. exists w. split; [reflexivity|]. split; [apply wider_refl|].
    split; [intros a r Hin; inversion Hin|intros a Hin; inversion Hin].
  - cbn [widen_all].
    destruct (cutie_extractor.extract_activity_data a) as [r|e] eqn:Hr.
    2: { right. exists a, e. unfold extract. rewrite Hr.
         split; [reflexivity|]. split; [left|reflexivity]. }
    assert (Hex : extract a = Drawn r) by (unfold extract; rewrite Hr; reflexivity).
    rewrite Hex. cbn [mbind drawn_bind].
    destruct (widen_spec r w) as (w1 & Hrun & Hw1 & Hcells).
    { intros k Hk. apply Hdom. rewrite <- (compact_keys _ _ Hr). exact Hk. }
    rewrite Hrun. cbn [mbind drawn_bind].
    destruct (IH w1) as [(w' & Hall & Hw' & Hfit & Hok)|(a' & e & Hall & Hin & He)].
    { intros h Hh. destruct (Hdom h Hh) as [n Hn].
      destruct (Hw1 h n Hn) as (n' & -> & _). eauto. }
    + left. exists w'. split; [exact Hall|].
      split; [eapply wider_trans; eassumption|]. split.
      * intros a' r' Hin Hr'. apply elem_of_cons in Hin as [->|Hin];
          [|exact (Hfit a' r' Hin Hr')].
        assert (r' = r) as -> by congruence.
        apply (fits_columns_wider w1 w'); [exact Hw'|].
        intros h Hh. rewrite <- (compact_keys _ _ Hr) in Hh.
        destruct (row_get_in r h Hh) as (v & -> & Hin).
        destruct (Hcells h v Hin) as (n & Hn & Hle).
        exists n. split; [exact Hn|]. cbn [from_option id]. lia.
      * intros a' Hin. apply elem_of_cons in Hin as [->|Hin]; [|apply Hok, Hin].
        exists r. exact Hex.
    + right. exists a', e. split; [exact Hall|]. split; [right; exact Hin|exact He].
Qed.

(** The second loop: one line for each activity shown, each as wide as the
    table. *)
Lemma table_rows_spec w shown :
  rows_fit w shown ->
  (forall a, a ∈ shown -> exists r, extract a = Drawn r) ->
  exists rows,
    table_rows w (field_names compact_fields) shown = Drawn rows
    /\ length rows = length shown
    /\ Forall (fun line => String.length line
                           = line_width w (field_names compact_fields)) rows.
Proof.
  induction shown as [|a shown IH]; intros Hfit Hok.
  - exists []. repeat split. constructor.
  - destruct (Hok a) as [r Hr]; [left|].
    destruct (table_line_width _ _ _ (Hfit a r ltac:(left) Hr))
      as (line & Hline & Hwidth).
    destruct IH as (rows & Hrows & Hlen & Hall).
    { intros a' r' Hin. apply Hfit. right. exact Hin. }
    { intros a' Hin. apply Hok. right. exact Hin. }
    exists (line :: rows). cbn [table_rows]. rewrite Hr. cbn [mbind drawn_bind].
    rewrite Hline. cbn [mbind drawn_bind]. rewrite Hrows.
    split; [reflexivity|]. split; [cbn; lia|]. constructor; assumption.
Qed.

Lemma take_min {A} n (l : list A) : take (Nat.min n (length l)) l = take n l.
Proof.
  destruct (Nat.le_ge_cases n (length l)) as [H|H].
  - rewrite Nat.min_l by exact H. reflexivity.
  - rewrite Nat.min_r by exact H. rewrite !take_ge by lia. reflexivity.
Qed.

(** The table, by cases. *)
Lemma table_cases first others :
  (exists header rows,
     table (first :: others)
     = Drawn (header :: times "-" (String.length header) :: rows)
     /\ length rows = Nat.min 10 (length (first :: others))
     /\ Forall (fun line => String.length line = String.length header) rows)
  \/ (exists a e,
        table (first :: others) = Failed (Normaliser e)
        /\ a ∈ take 10 (first :: others)
        /\ cutie_extractor.extract_activity_data a = Raise e).
Proof.
  unfold table.
  destruct (cutie_extractor.extract_activity_data first) as [sample|e] eqn:Hr.
  2: { right. exists first, e. unfold extract at 1. rewrite Hr.
       split; [reflexivity|]. split; [left|reflexivity]. }
  assert (Hex : extract first = Drawn sample)
    by (unfold extract; rewrite Hr; reflexivity).
  rewrite Hex. cbn [mbind drawn_bind]. rewrite (compact_keys _ _ Hr).
  set (headers := field_names compact_fields).
  set (w0 := header_widths headers ∅).
  destruct (widen_all_spec (take 10 (first :: others)) w0)
    as [(w & Hall & Hw & Hfit & Hok)|(a & e & Hall & Hin & He)].
  { intros h Hh. unfold w0. rewrite (header_widths_spec _ _ _ Hh). eauto. }
  2: { right. exists a, e. rewrite Hall. repeat split; assumption. }
  rewrite Hall. cbn [mbind drawn_bind].
  destruct (table_line_width w headers (fun h => h)) as (header & Hheader & Hwidth).
  { apply (fits_columns_wider w0 w); [exact Hw|]. intros h Hh.
    exists (String.length h + 2)%nat. unfold w0.
    rewrite (header_widths_spec _ _ _ Hh). split; [reflexivity|lia]. }
  rewrite Hheader. cbn [mbind drawn_bind].
  rewrite take_min.
  destruct (table_rows_spec w (take 10 (first :: others)) Hfit Hok)
    as (rows & Hrows & Hlen & Hrowswide).
  fold headers in Hrows. rewrite Hrows. cbn [mbind drawn_bind mret drawn_ret].
  left. exists header, rows. split; [reflexivity|]. split.
  - rewrite Hlen, length_take. reflexivity.
  - rewrite Hwidth. exact Hrowswide.
Qed.
End table_facts.

(** Property X27. The table of the preview, when [_display_preview] gets to
    draw it, is aligned: the header, a rule of hyphens of the same length,
    and one row for each of the first ten activities, every row as long as
    the header. No column lacks a width: the only way the table is not
    drawn is an activity among the first ten that cannot be normalised. *)
Theorem preview_table_is_aligned :
  forall first others,
    (exists header rows,
       strava_gui.table (first :: others)
       = strava_gui.Drawn (header :: times "-" (String.length header) :: rows)
       /\ length rows = Nat.min 10 (length (first :: others))
       /\ Forall (fun line => String.length line = String.length header) rows)
    \/ (exists a e,
          strava_gui.table (first :: others)
          = strava_gui.Failed (strava_gui.Normaliser e)
          /\ a ∈ take 10 (first :: others)
          /\ cutie_extractor.extract_activity_data a = Raise e).
Proof. intros first others. apply table_cases. Qed.

Example preview_of_two_runs :
  exists header row row',
    strava_gui.table [morning_run; sample_activity 1]
    = strava_gui.Drawn [header; times "-" 209; row; row']
    /\ String.length header = 209%nat
    /\ String.substring 0 45 header
       = "id   | name           | distance   | moving_t"
    /\ String.substring 0 45 row
       = "7    | Morning, run   | 10.23      | 0.0     "
    /\ String.substring 0 45 row'
       = "1    | None           | 0.0        | 0.0     ".
Proof.
  do 3 eexists. split; [vm_compute; reflexivity|].
  vm_compute. repeat split.
Qed.

(** ** The window of [cutie-extractor.py] *)

Section cutie_gui_facts.
Import cutie_gui.
Variable now : nat -> datetime.
Variable strftime_Ymd : datetime -> string.
Variable in_downloads : string -> string.

Local Abbreviation step := (handle now strftime_Ymd in_downloads).
Local Abbreviation enter := (on_enter now strftime_Ymd in_downloads).
Local Abbreviation export := (export_preview_csv strftime_Ymd in_downloads).

Lemma well_formed_same g g' :
  menu_state g' = menu_state g -> well_formed g -> well_formed g'.
Proof.
  unfold menu_state, well_formed. intros [= -> -> -> -> -> ->]. auto.
Qed.

Lemma went_well_refl g : went_well g g.
Proof. exists []. split; [symmetry; apply app_nil_r|constructor]. Qed.

Lemma went_well_trans g g' g'' :
  went_well g g' -> went_well g' g'' -> went_well g g''.
Proof.
  intros (l & Hl & Hh) (l' & Hl' & Hh'). exists (l ++ l').
  rewrite Hl', Hl, <- app_assoc. split; [reflexivity|].
  apply Forall_app; split; assumption.
Qed.

Lemma went_well_did g e : harmless e -> went_well g (did g e).
Proof. intros He. exists [e]. split; [reflexivity|]. repeat constructor; apply He. Qed.

Lemma went_well_same g g' : done g' = done g -> went_well g g'.
Proof. intros H. exists []. rewrite H, app_nil_r. split; [reflexivity|constructor]. Qed.

Ltac harmless := unfold harmless; repeat split; discriminate.

Lemma show_loading_ok g :
  menu_state (show_loading g) = menu_state g /\ went_well g (show_loading g).
Proof.
  unfold show_loading. destruct (loading_win g).
  - split; [reflexivity|apply went_well_refl].
  - split; [reflexivity|]. exists [ShowLoading]. split; [reflexivity|].
    repeat constructor; discriminate.
Qed.

Lemma hide_loading_ok g :
  menu_state (hide_loading g) = menu_state g /\ went_well g (hide_loading g).
Proof.
  unfold hide_loading. destruct (loading_win g).
  - split; [reflexivity|]. exists [HideLoading]. split; [reflexivity|].
    repeat constructor; discriminate.
  - split; [reflexivity|apply went_well_refl].
Qed.

Lemma report_ok g g' r :
  went_well g g' -> r <> Some IndexError -> r <> Some AttributeError ->
  went_well g (report (g', r)).
Proof.
  intros Hw Hi Ha. destruct r as [e|]; [|exact Hw]. cbn [report].
  eapply went_well_trans; [exact Hw|]. apply went_well_did.
  repeat split; congruence.
Qed.

Lemma fetch_days_back_ok g days :
  menu_state (fetch_days_back now g days).1 = menu_state g
  /\ went_well g (fetch_days_back now g days).1
  /\ (forall e, (fetch_days_back now g days).2 = Some e ->
        e = Exn OverflowError).
Proof.
  unfold fetch_days_back.
  destruct (minus_days (now (ticks g)) days) as [start_date|e] eqn:Hminus.
  - cbn [fst snd]. destruct (show_loading_ok (tick g)) as [Hm Hw].
    split; [exact Hm|]. split; [|discriminate].
    eapply went_well_trans; [exact Hw|]. apply went_well_did. harmless.
  - cbn [fst snd]. split; [reflexivity|]. split; [apply went_well_same; reflexivity|].
    intros e' [= <-].
    unfold minus_days in Hminus. destruct (_ && _); [|congruence].
    destruct (ord2ymd _) as [[y m] d]. discriminate.
Qed.

Lemma handler_ok_report g h :
  handler_ok g h -> well_formed (report h) /\ went_well g (report h).
Proof.
  intros (Hwf & Hw & Hi & Ha). destruct h as [g' r]. split.
  - destruct r; [|exact Hwf]. exact (well_formed_same g' _ eq_refl Hwf).
  - apply report_ok; assumption.
Qed.

Lemma went_well_did_after g g' e :
  done g' = done g -> harmless e -> went_well g (did g' e).
Proof.
  intros Hd He. exists [e]. cbn [did done]. rewrite Hd.
  split; [reflexivity|]. repeat constructor; apply He.
Qed.

Ltac handler_split := unfold handler_ok; split; [|split; [|split]].

Lemma fetch_days_back_handler g g0 days :
  well_formed g -> went_well g0 g ->
  handler_ok g0 (fetch_days_back now g days).
Proof.
  intros Hwf Hw. destruct (fetch_days_back_ok g days) as (Hm & Hw' & He).
  handler_split.
  - exact (well_formed_same g _ Hm Hwf).
  - eapply went_well_trans; eassumption.
  - intros H. apply He in H. discriminate.
  - intros H. apply He in H. discriminate.
Qed.

Lemma render_preview_ok g g0 :
  well_formed g -> preview_mode g = true -> went_well g0 g ->
  handler_ok g0 (render_preview g).
Proof.
  intros Hwf Hp Hw. destruct (proj2 (proj2 Hwf) Hp) as (_ & [s Hs] & [e He]).
  unfold render_preview. rewrite Hs, He. handler_split; try discriminate.
  - exact (well_formed_same g _ eq_refl Hwf).
  - eapply went_well_trans; [exact Hw|]. apply went_well_did. harmless.
Qed.

Lemma well_formed_choice g k :
  well_formed g -> 0 <= k <= 1 -> well_formed (set_preview_choice g k).
Proof. intros (Hs & Hc & Hpre) Hk. split; [exact Hs|]. split; [exact Hk|exact Hpre]. Qed.

Lemma well_formed_option g k :
  well_formed g -> 0 <= k < options -> well_formed (set_selected_option g k).
Proof. intros (Hs & Hc & Hpre) Hk. split; [exact Hk|]. split; [exact Hc|exact Hpre]. Qed.

Lemma render_menu_ok g g0 :
  well_formed g -> went_well g0 g -> handler_ok g0 (render_menu g, None).
Proof.
  intros Hwf Hw. handler_split; try discriminate.
  - exact (well_formed_same g _ eq_refl Hwf).
  - eapply went_well_trans; [exact Hw|]. apply went_well_did. harmless.
Qed.

Lemma unchanged_ok g : well_formed g -> handler_ok g (g, None).
Proof.
  intros Hwf. handler_split; try discriminate; [exact Hwf|apply went_well_refl].
Qed.

Lemma on_up_ok g : well_formed g -> handler_ok g (on_up g).
Proof.
  intros Hwf. unfold on_up. destruct (preview_mode g) eqn:Hp.
  - destruct (0 <? preview_choice g) eqn:Hc.
    + apply render_preview_ok; [|exact Hp|apply went_well_same; reflexivity].
      apply well_formed_choice; [exact Hwf|].
      destruct Hwf as (_ & Hc' & _). apply Z.ltb_lt in Hc. lia.
    + apply render_preview_ok; [exact Hwf|exact Hp|apply went_well_refl].
  - destruct (0 <? selected_option g) eqn:Hs; [|apply unchanged_ok, Hwf].
    apply render_menu_ok; [|apply went_well_same; reflexivity].
    apply well_formed_option; [exact Hwf|].
    destruct Hwf as (Hs' & _). apply Z.ltb_lt in Hs. lia.
Qed.

Lemma on_down_ok g : well_formed g -> handler_ok g (on_down g).
Proof.
  intros Hwf. unfold on_down. destruct (preview_mode g) eqn:Hp.
  - destruct (preview_choice g <? 1) eqn:Hc.
    + apply render_preview_ok; [|exact Hp|apply went_well_same; reflexivity].
      apply well_formed_choice; [exact Hwf|].
      destruct Hwf as (_ & Hc' & _). apply Z.ltb_lt in Hc. lia.
    + apply render_preview_ok; [exact Hwf|exact Hp|apply went_well_refl].
  - destruct (selected_option g <? options - 1) eqn:Hs; [|apply unchanged_ok, Hwf].
    apply render_menu_ok; [|apply went_well_same; reflexivity].
    apply well_formed_option; [exact Hwf|].
    destruct Hwf as (Hs' & _). apply Z.ltb_lt in Hs. lia.
Qed.

(** The actions of the menu. *)
Lemma quick_option_ok g :
  well_formed g ->
  exists action,
    quick_option now (selected_option g) = Some action
    /\ forall g', well_formed g' -> went_well g g' ->
         handler_ok g (action g')
         /\ (action g').2 <> Some (Exn TypeError).
Proof.
  intros (Hs & _). unfold options in Hs.
  assert (Hk : selected_option g = 0 \/ selected_option g = 1
               \/ selected_option g = 2 \/ selected_option g = 3) by lia.
  destruct Hk as [-> | [-> | [-> | ->]]]; eexists; (split; [reflexivity|]);
    intros g' Hwf' Hw.
  - split; [apply fetch_days_back_handler; assumption|].
    intros H. apply (proj2 (proj2 (fetch_days_back_ok g' 7))) in H. discriminate.
  - split; [apply fetch_days_back_handler; assumption|].
    intros H. apply (proj2 (proj2 (fetch_days_back_ok g' 30))) in H. discriminate.
  - unfold select_all_time.
    destruct (minus_days (now (ticks g')) 3650) as [start_date|e] eqn:Hminus.
    + split; [|cbn; discriminate]. handler_split; try (cbn; discriminate).
      * destruct (show_loading_ok (tick (tick g'))) as [Hm _].
        refine (well_formed_same g' _ _ Hwf'). exact Hm.
      * destruct (show_loading_ok (tick (tick g'))) as [_ Hw'].
        eapply went_well_trans; [exact Hw|].
        eapply went_well_trans; [apply went_well_same; reflexivity|].
        eapply went_well_trans; [exact Hw'|]. apply went_well_did. harmless.
    + assert (He : e = OverflowError).
      { unfold minus_days in Hminus. destruct (_ && _); [|congruence].
        destruct (ord2ymd _) as [[y m] d]. discriminate. }
      subst e. split; [|cbn; discriminate]. handler_split; try (cbn; discriminate).
      * exact (well_formed_same g' _ eq_refl Hwf').
      * eapply went_well_trans; [exact Hw|]. apply went_well_same. reflexivity.
  - unfold prompt_custom_days. split; [|cbn; discriminate].
    handler_split; try (cbn; discriminate).
    + exact (well_formed_same g' _ eq_refl Hwf').
    + eapply went_well_trans; [exact Hw|].
      apply (went_well_trans _ (did g' InsertPrompt));
        [apply went_well_did; harmless|apply went_well_same; reflexivity].
Qed.

Lemma on_enter_ok g : well_formed g -> handler_ok g (enter g).
Proof.
  intros Hwf. unfold on_enter. destruct (preview_mode g) eqn:Hp.
  - destruct (preview_choice g =? 0).
    + destruct (proj2 (proj2 Hwf) Hp) as (Hacts & [s Hs] & [e He]).
      unfold export_preview_csv. rewrite Hs, He.
      destruct (preview_activities g) as [|x l]; [congruence|].
      destruct (cutie_extractor.export_to_csv _ _ _) as [[[|]|e'] fs];
        (handler_split; try (cbn; discriminate);
         [exact (well_formed_same g _ eq_refl Hwf)|]).
      * apply (went_well_trans _ (set_disk g fs));
          [apply went_well_same; reflexivity|apply went_well_did; harmless].
      * apply (went_well_trans _ (set_disk g fs));
          [apply went_well_same; reflexivity|apply went_well_did; harmless].
      * apply (went_well_trans _ (set_disk g fs));
          [apply went_well_same; reflexivity|apply went_well_did; harmless].
    + apply render_menu_ok; [|apply went_well_same; reflexivity].
      destruct Hwf as (Hs & _ & _). split; [exact Hs|]. split; [cbn; lia|].
      cbn. discriminate.
  - destruct (quick_option_ok g Hwf) as (action & -> & Haction).
    destruct (Haction g Hwf (went_well_refl g)) as [Hok Hnot].
    destruct (action g) as [g' [[[]| |]|]]; try exact Hok.
    exfalso. apply Hnot. reflexivity.
Qed.

Lemma on_custom_key_ok g k :
  well_formed g -> handler_ok g (_on_custom_key now g k).
Proof.
  intros Hwf. unfold _on_custom_key. destruct k as [| |ch].
  - destruct (int (strip (custom_input g))) as [days|e].
    + apply fetch_days_back_handler;
        [exact (well_formed_same g _ eq_refl Hwf)|apply went_well_same; reflexivity].
    + apply render_menu_ok; [exact (well_formed_same g _ eq_refl Hwf)|].
      apply (went_well_trans _ (did g InsertInvalidNumber));
        [apply went_well_did; harmless|apply went_well_same; reflexivity].
  - destruct (custom_input g); [apply unchanged_ok, Hwf|].
    handler_split; try (cbn; discriminate).
    + exact (well_formed_same g _ eq_refl Hwf).
    + apply went_well_did_after; [reflexivity|harmless].
  - destruct (str_isdigit ch); [|apply unchanged_ok, Hwf].
    handler_split; try (cbn; discriminate).
    + exact (well_formed_same g _ eq_refl Hwf).
    + apply went_well_did_after; [reflexivity|harmless].
Qed.

Lemma handle_fetch_result_ok g fetched start_date end_date :
  well_formed g ->
  handler_ok g (_handle_fetch_result g fetched start_date end_date).
Proof.
  intros Hwf. unfold _handle_fetch_result.
  destruct (hide_loading_ok g) as [Hm Hw].
  pose proof (well_formed_same g _ Hm Hwf) as Hwf'.
  destruct fetched as [[|x l]|]; handler_split; try (cbn; discriminate).
  - exact (well_formed_same _ _ eq_refl Hwf').
  - eapply went_well_trans; [exact Hw|].
    apply went_well_did_after; [reflexivity|harmless].
  - destruct Hwf' as (Hs & _ & _). split; [exact Hs|]. split; [cbn; lia|].
    intros _. cbn. split; [discriminate|]. split; eauto.
  - eapply went_well_trans; [exact Hw|].
    apply went_well_did_after; [reflexivity|harmless].
  - exact (well_formed_same _ _ eq_refl Hwf').
  - eapply went_well_trans; [exact Hw|].
    apply (went_well_trans _ (did (hide_loading g) InsertAuthError));
      [apply went_well_did; harmless|apply went_well_same; reflexivity].
Qed.

(** Every call of a handler keeps the window well formed and has none of
    the effects that would show that it was not. *)
Lemma handle_ok g e :
  well_formed g -> well_formed (step g e) /\ went_well g (step g e).
Proof.
  intros Hwf. destruct e as [| | |k|fetched start_date end_date]; cbn [handle];
    apply handler_ok_report.
  - apply on_up_ok, Hwf.
  - apply on_down_ok, Hwf.
  - apply on_enter_ok, Hwf.
  - apply on_custom_key_ok, Hwf.
  - apply handle_fetch_result_ok, Hwf.
Qed.

Lemma mainloop_ok events : forall g,
  well_formed g ->
  well_formed (mainloop now strftime_Ymd in_downloads g events)
  /\ went_well g (mainloop now strftime_Ymd in_downloads g events).
Proof.
  induction events as [|e events IH]; intros g Hwf.
  - split; [exact Hwf|apply went_well_refl].
  - cbn [mainloop fold_left]. destruct (handle_ok g e Hwf) as [Hwf' Hw].
    destruct (IH _ Hwf') as [Hwf'' Hw'].
    split; [exact Hwf''|eapply went_well_trans; eassumption].
Qed.
End cutie_gui_facts.

(** Property X28. From the window as [setup_ui] leaves it, whatever handlers
    are called and in whatever order, with whatever a fetch hands back: the
    cursor of the menu stays on one of its four entries and the cursor of
    the preview on one of its two, and in preview mode the preview holds
    records and its dates; so no handler raises for an entry that is not
    there or for a missing date, and the export of a preview never finds
    that there is nothing to export. *)
Theorem menu_stays_well_formed :
  forall now strftime_Ymd in_downloads fs events,
    let g :=
      cutie_gui.mainloop now strftime_Ymd in_downloads (cutie_gui.setup_ui fs)
        events in
    cutie_gui.well_formed g /\ cutie_gui.no_lookup_error g.
Proof.
  intros now strftime_Ymd in_downloads fs events g.
  assert (Hwf : cutie_gui.well_formed (cutie_gui.setup_ui fs)).
  { split; [cbn; unfold cutie_gui.options; lia|]. split; [cbn; lia|].
    cbn. discriminate. }
  destruct (mainloop_ok now strftime_Ymd in_downloads events _ Hwf)
    as [Hwf' (effects & Hdone & Hall)].
  split; [exact Hwf'|]. unfold cutie_gui.no_lookup_error. fold g in Hdone.
  rewrite Hdone. apply Forall_app. split; [|exact Hall].
  repeat constructor; discriminate.
Qed.

Example five_times_down_and_enter :
  let g :=
    cutie_gui.mainloop late_november compact_Ymd (fun name => name)
      (cutie_gui.setup_ui roomy_disk)
      [cutie_gui.Down; cutie_gui.Down; cutie_gui.Down; cutie_gui.Down;
       cutie_gui.Down; cutie_gui.Up; cutie_gui.Enter] in
  cutie_gui.selected_option g = 2
  /\ last (cutie_gui.done g)
     = Some (cutie_gui.StartThread (mkDatetime 2015 11 27 10 30 0 0)
               (mkDatetime 2025 11 24 10 30 0 0)).
Proof. vm_compute. split; reflexivity. Qed.

Section cutie_export_facts.
Import cutie_gui.


End cutie_export_facts.

Section cutie_fetch_facts.
Import cutie_gui.

(** Property X30. When the pages of a fetch of the window have given records
    and the next request fails, or the next page is empty, the thread hands
    the records of the pages before to [_handle_fetch_result] after one
    request a page, and the window enters preview mode with exactly these
    records between the two dates: what is on the screen after a request
    that failed is what is there after the data ended. *)
Theorem failed_fetch_previews_like_a_finished_one :
  forall upstream timestamp fuel start_date end_date after before n x acc g,
    timestamp start_date = Ret after ->
    timestamp end_date = Ret before ->
    accumulated upstream after before 200 None n = Some (x :: acc) ->
    page_error upstream after before 200 (Z.of_nat n + 1) <> None
    \/ page_of upstream after before 200 (Z.of_nat n + 1) = Some [] ->
    (n < fuel)%nat ->
    _fetch_activities_thread_range upstream timestamp fuel start_date end_date
    = Some (Some (x :: acc), page_requests after before 200 (S n))
    /\ let after_fetch :=
         (_handle_fetch_result g (Some (x :: acc)) start_date end_date).1 in
       (_handle_fetch_result g (Some (x :: acc)) start_date end_date).2 = None
       /\ preview_mode after_fetch = true
       /\ preview_choice after_fetch = 0
       /\ preview_activities after_fetch = x :: acc
       /\ activities after_fetch = x :: acc
       /\ preview_start after_fetch = Some start_date
       /\ preview_end after_fetch = Some end_date
       /\ loading_win after_fetch = false
       /\ done after_fetch
          = done g ++ (if loading_win g then [HideLoading] else [])
            ++ [RenderPreviewTable (length (x :: acc)) start_date end_date 0].
Proof.
  intros upstream timestamp fuel start_date end_date after before n x acc g
    Hs He Hacc Hnext Hfuel.
  split.
  - unfold _fetch_activities_thread_range. rewrite Hs, He.
    unfold cutie_extractor.get_activities.
    change (Z.min 200 200) with 200.
    destruct fuel as [|fuel]; [lia|].
    replace (S fuel) with (n + S (fuel - n))%nat by lia.
    rewrite (gui_loop_accumulated _ _ _ _ _ _ _ _ _ Hacc).
    rewrite page_requests_S. replace (Z.of_nat (S n)) with (Z.of_nat n + 1) by lia.
    destruct Hnext as [Herr|Hempty].
    + destruct (page_error upstream after before 200 (Z.of_nat n + 1))
        as [e|] eqn:Hpe; [|congruence].
      rewrite (gui_loop_error _ _ _ _ _ _ _ _ _ _ Hpe). reflexivity.
    + rewrite (gui_loop_empty _ _ _ _ _ _ _ _ _ Hempty). reflexivity.
  - unfold _handle_fetch_result, hide_loading.
    destruct (loading_win g) eqn:Hl; cbn; rewrite <- ?app_assoc;
      repeat split; try reflexivity; try exact Hl.
Qed.

Lemma failed_fetch_previews_like_a_finished_one_witness :
  let week_start := midnight 2025 11 17 in
  let week_end := midnight 2025 11 24 in
  let first_page := [sample_activity 1; sample_activity 2] in
  _fetch_activities_thread_range (serving [first_page] timed_out)
    utc_timestamp 5 week_start week_end
  = Some (Some first_page, page_requests 1763337600 1763942400 200 2)
  /\ _fetch_activities_thread_range (serving [first_page] no_more)
       utc_timestamp 5 week_start week_end
     = Some (Some first_page, page_requests 1763337600 1763942400 200 2).
Proof.
  split.
  - refine (proj1 (failed_fetch_previews_like_a_finished_one
                     (serving [[sample_activity 1; sample_activity 2]] timed_out)
                     utc_timestamp 5 (midnight 2025 11 17)
                     (midnight 2025 11 24) 1763337600 1763942400 1
                     (sample_activity 1) [sample_activity 2]
                     (setup_ui roomy_disk) _ _ _ _ _));
      [reflexivity|reflexivity|reflexivity|left; discriminate|lia].
  - refine (proj1 (failed_fetch_previews_like_a_finished_one
                     (serving [[sample_activity 1; sample_activity 2]] no_more)
                     utc_timestamp 5 (midnight 2025 11 17)
                     (midnight 2025 11 24) 1763337600 1763942400 1
                     (sample_activity 1) [sample_activity 2]
                     (setup_ui roomy_disk) _ _ _ _ _));
      [reflexivity|reflexivity|reflexivity|right; reflexivity|lia].
Defined.
End cutie_fetch_facts.
